(** * Northwind REST API: derived fields, query building, pagination and
      transactional handlers

A shallow embedding of the JavaScript sources (Express routes over
Sequelize models).  Each Rocq definition carries the name of the source
function it embeds and the file it comes from. *)

From Stdlib Require Import ZArith QArith List Bool String Ascii DecimalString Lia.
From Stdlib Require Import Floats Uint63.
Import ListNotations.
Open Scope Z_scope.

Set Warnings "-register-all".

(** ** JavaScript values as the handlers see them *)

Module Js.

(** A nullable numeric column read back from the store: [None] is SQL
    NULL / JS [null]. *)
Definition nullable := option Z.

(** ToNumber on a nullable number: [null] coerces to [0] in relational
    comparisons ([null < 10] is [0 < 10]). *)
Definition toNumber (v : nullable) : Z :=
  match v with Some n => n | None => 0 end.

(** [v === 0] on a nullable number: [null === 0] is false. *)
Definition strict_eq_zero (v : nullable) : bool :=
  match v with Some n => n =? 0 | None => false end.

(** [v || d] on a number that may be null, undefined or NaN: every falsy
    number (0, NaN, null, undefined) gives the default. *)
Definition or_default (v : nullable) (d : Z) : Z :=
  match v with
  | Some n => if n =? 0 then d else n
  | None => d
  end.

(** A boolean query parameter as [isBoolean()] lets it through: one of
    the strings 'true', 'false', '1', '0'. *)
Inductive BoolParam := P_true | P_false | P_1 | P_0.

(** [param === 'true']. *)
Definition is_true_literal (p : BoolParam) : bool :=
  match p with P_true => true | _ => false end.

(** The values the order handlers compare: a JSON body carries strings or
    nothing, a DATE column is materialised as [null] or as a [Date]
    object, which has an identity of its own. *)
Inductive value :=
| Undefined
| Null
| Str (s : string)
| DateObject (ref : nat) (time : Z).

Definition truthy (v : value) : bool :=
  match v with
  | Undefined | Null => false
  | Str s => negb (String.eqb s "")
  | DateObject _ _ => true
  end.

(** [a === b]: strings by content, objects by identity, never across
    types. *)
Definition strict_eq (a b : value) : bool :=
  match a, b with
  | Undefined, Undefined => true
  | Null, Null => true
  | Str s, Str t => String.eqb s t
  | DateObject r _, DateObject r' _ => Nat.eqb r r'
  | _, _ => false
  end.

End Js.

(** ** Stock status (routes/products.js, routes/categories.js,
       models/Product.js) *)

Inductive StockStatus :=
| Discontinued
| OutOfStock
| LowStock
| ReorderRequired
| InStock.

(** The string each status is returned as. *)
Definition status_label (s : StockStatus) : string :=
  match s with
  | Discontinued => "Discontinued"
  | OutOfStock => "Out of Stock"
  | LowStock => "Low Stock"
  | ReorderRequired => "Reorder Required"
  | InStock => "In Stock"
  end.

(** The fields of a product record the ladders read. *)
Record ProductData := mkProductData {
  discontinued : bool;
  unitsInStock : Js.nullable;
  reorderLevel : Js.nullable
}.

Module Products.

(** routes/products.js, [getProductStockStatus]. *)
Definition getProductStockStatus (product : ProductData) : StockStatus :=
  if discontinued product then Discontinued
  else if Js.strict_eq_zero (unitsInStock product) then OutOfStock
  else if Js.toNumber (unitsInStock product) <? 10 then LowStock
  else if Js.toNumber (unitsInStock product)
          <=? Js.or_default (reorderLevel product) 0
       then ReorderRequired
  else InStock.

End Products.

Module Categories.

(** routes/categories.js, [getProductStockStatus]: the ladder without
    the reorder rung. *)
Definition getProductStockStatus (product : ProductData) : StockStatus :=
  if discontinued product then Discontinued
  else if Js.strict_eq_zero (unitsInStock product) then OutOfStock
  else if Js.toNumber (unitsInStock product) <? 10 then LowStock
  else InStock.

End Categories.

Module ProductModel.

(** models/Product.js: [parseInt(this.unitsInStock || 0)]. *)
Definition stock (p : ProductData) : Z := Js.or_default (unitsInStock p) 0.
Definition reorder (p : ProductData) : Z := Js.or_default (reorderLevel p) 0.

Definition isDiscontinued (p : ProductData) : bool := discontinued p.
Definition isLowStock (p : ProductData) : bool :=
  (stock p <=? reorder p) && (0 <? stock p).
Definition isOutOfStock (p : ProductData) : bool := stock p =? 0.

(** models/Product.js, [Product.prototype.getStockStatus]. *)
Definition getStockStatus (p : ProductData) : StockStatus :=
  if isDiscontinued p then Discontinued
  else if isOutOfStock p then OutOfStock
  else if isLowStock p then LowStock
  else InStock.

End ProductModel.

(** The ladder as the specification words it: the reorder rung is tested
    before the low-stock rung. *)
Definition canonical_stockStatus (product : ProductData) : StockStatus :=
  if discontinued product then Discontinued
  else if Js.toNumber (unitsInStock product) =? 0 then OutOfStock
  else if Js.toNumber (unitsInStock product)
          <=? Js.toNumber (reorderLevel product)
       then ReorderRequired
  else if Js.toNumber (unitsInStock product) <? 10 then LowStock
  else InStock.

(** ** Pagination (the list handlers of routes/products.js,
       routes/employees.js, routes/categories.js) *)

Module Pagination.

(** [Math.ceil(count / limit)] for a positive [limit]: the ceiling of the
    real quotient.  Counts and limits are integers far below 2^53, where
    the double quotient has the same ceiling as the real one. *)
Definition Math_ceil_div (count limit : Z) : Z := - ((- count) / limit).

(** A JavaScript number that holds an integer, as [page] and [offset]
    do: a double, one of the infinities, or [NaN]. *)
Inductive Number :=
| Finite (z : Z)
| PosInfinity
| NegInfinity
| NaN.

(** The double nearest to an integer.  Up to 2^53 in size every integer
    is a double.  Beyond, a double has 53 significant bits: it is a
    multiple of the power of two [2^e] that leaves 53 bits, the nearest
    one is taken and of two equally near the even one; what rounds to
    2^1024 or more is infinite. *)
Definition round53 (z : Z) : Z :=
  if z <? 2 ^ 53 then z
  else
    let e := Z.log2 z - 52 in
    let q := z / 2 ^ e in
    let r := z mod 2 ^ e in
    let half := 2 ^ (e - 1) in
    let q :=
      if r <? half then q
      else if half <? r then q + 1
      else if Z.even q then q else q + 1 in
    q * 2 ^ e.

Definition double_of (z : Z) : Number :=
  if z <? 0 then
    if 2 ^ 1024 <=? round53 (- z) then NegInfinity
    else Finite (- round53 (- z))
  else
    if 2 ^ 1024 <=? round53 z then PosInfinity
    else Finite (round53 z).

(** [parseInt(req.query.page)] on what [isInt()] let through, the
    digits of an integer: that integer as a double; [NaN] without the
    parameter. *)
Definition parseInt (v : option Z) : Number :=
  match v with
  | Some z => double_of z
  | None => NaN
  end.

(** [n || d]: [0] and [NaN] are falsy. *)
Definition or_default (n : Number) (d : Z) : Number :=
  match n with
  | Finite 0 | NaN => Finite d
  | _ => n
  end.

(** [a - b] and [a * b] for an integer double [b]: the exact result,
    rounded. *)
Definition minus (a : Number) (b : Z) : Number :=
  match a with
  | Finite x => double_of (x - b)
  | _ => a
  end.

Definition times (a : Number) (b : Z) : Number :=
  match a with
  | Finite x => double_of (x * b)
  | PosInfinity =>
      if 0 <? b then PosInfinity else if b <? 0 then NegInfinity else NaN
  | NegInfinity =>
      if 0 <? b then NegInfinity else if b <? 0 then PosInfinity else NaN
  | NaN => NaN
  end.

(** The [pagination] object of the response. *)
Record Envelope := mkEnvelope {
  page : Number;
  limit : Z;
  total : Z;
  pages : Z
}.

(** [const page = parseInt(req.query.page) || 1]. *)
Definition page_of (query_page : option Z) : Number :=
  or_default (parseInt query_page) 1.

(** [const limit = parseInt(req.query.limit) || 10]; the validator keeps
    [limit] within 100, where the double is the integer. *)
Definition limit_of (query_limit : option Z) : Z :=
  Js.or_default query_limit 10.

(** [const offset = (page - 1) * limit]. *)
Definition offset_of (query_page query_limit : option Z) : Number :=
  times (minus (page_of query_page) 1) (limit_of query_limit).

(** The envelope built from the count the store returned. *)
Definition envelope (query_page query_limit : option Z) (count : Z)
  : Envelope :=
  let page := page_of query_page in
  let limit := limit_of query_limit in
  let totalPages := Math_ceil_div count limit in
  mkEnvelope page limit count totalPages.

(** What the validators let through: [page] is absent or an integer
    >= 1, [limit] is absent or an integer in [1,100]. *)
Definition valid_page (query_page : option Z) : Prop :=
  match query_page with Some p => 1 <= p | None => True end.

Definition valid_limit (query_limit : option Z) : Prop :=
  match query_limit with Some l => 1 <= l <= 100 | None => True end.

(** The requests whose page and offset are integers below 2^53. *)
Definition below_2_53 (query_page query_limit : option Z) : Prop :=
  let page := match query_page with Some p => p | None => 1 end in
  let limit := match query_limit with Some l => l | None => 10 end in
  page < 2 ^ 53 /\ (page - 1) * limit < 2 ^ 53.

End Pagination.

(** ** JavaScript dates *)

Module JsDate.

(** A [Date] seen through its local-time fields: [month] is 0-based as
    [getMonth] returns it, [msOfDay] the time elapsed since local
    midnight.  The zone is taken to have a fixed offset, so differences
    of [getTime] do not depend on it. *)
Record Date := mkDate {
  year : Z;
  month : Z;
  day : Z;
  msOfDay : Z
}.

Definition getFullYear (d : Date) : Z := year d.
Definition getMonth (d : Date) : Z := month d.
Definition getDate (d : Date) : Z := day d.

Definition is_leap (y : Z) : bool :=
  ((y mod 4 =? 0) && negb (y mod 100 =? 0)) || (y mod 400 =? 0).

(** Days of month [m] (0-based) in year [y]. *)
Definition days_in_month (y m : Z) : Z :=
  if m =? 1 then (if is_leap y then 29 else 28)
  else if (m =? 3) || (m =? 5) || (m =? 8) || (m =? 10) then 30
  else 31.

(** [new Date(y, m, d)] for a month in 0..11 and a day in 1..31: local
    midnight of that day; a year in 0..99 means 1900 + year, and a day
    past the end of the month rolls into the next month. *)
Definition make (y m d : Z) : Date :=
  let y := if (0 <=? y) && (y <=? 99) then 1900 + y else y in
  if d <=? days_in_month y m then mkDate y m d 0
  else if m =? 11 then mkDate (y + 1) 0 (d - days_in_month y m) 0
  else mkDate y (m + 1) (d - days_in_month y m) 0.

(** Days from 1970-01-01 to the civil date [y]-[m+1]-[d] in the proleptic
    Gregorian calendar, counting years from March. *)
Definition days_before_year (y : Z) : Z :=
  365 * y + y / 4 - y / 100 + y / 400.

Definition days_from_civil (y m d : Z) : Z :=
  let y' := if m <=? 1 then y - 1 else y in
  let mp := if m <=? 1 then m + 10 else m - 2 in
  days_before_year y' + (153 * mp + 2) / 5 + (d - 1) - 719468.

Definition MS_PER_DAY : Z := 24 * 60 * 60 * 1000.

(** [getTime]: milliseconds since the epoch. *)
Definition getTime (d : Date) : Z :=
  days_from_civil (year d) (month d) (day d) * MS_PER_DAY + msOfDay d.

(** Order of instants, as the store compares timestamps. *)
Definition leb (a b : Date) : bool := getTime a <=? getTime b.

(** The same month, day and time of day, [n] years later. *)
Definition plus_years (d : Date) (n : Z) : Date :=
  mkDate (year d + n) (month d) (day d) (msOfDay d).

(** A date the calendar has. *)
Definition valid (d : Date) : bool :=
  (0 <=? month d) && (month d <=? 11) &&
  (1 <=? day d) && (day d <=? days_in_month (year d) (month d)) &&
  (0 <=? msOfDay d) && (msOfDay d <? MS_PER_DAY).

(** Calendar order: by year, month, day, then time of day. *)
Definition civil_leb (a b : Date) : bool :=
  if year a <? year b then true
  else if year b <? year a then false
  else if month a <? month b then true
  else if month b <? month a then false
  else if day a <? day b then true
  else if day b <? day a then false
  else msOfDay a <=? msOfDay b.

End JsDate.

(** ** Employees: age, years of service and the age filter
       (the Employee model, unnamed/part_000, and routes/employees.js) *)

Module Employees.
  Import JsDate.

(** [Employee.prototype.getAge], with [today = new Date()] passed in. *)
Definition getAge (birthDate : option Date) (today : Date) : option Z :=
  match birthDate with
  | None => None
  | Some birthDate =>
      let age := getFullYear today - getFullYear birthDate in
      let monthDiff := getMonth today - getMonth birthDate in
      if (monthDiff <? 0)
         || ((monthDiff =? 0) && (getDate today <? getDate birthDate))
      then Some (age - 1)
      else Some age
  end.

(** [365.25 * 24 * 60 * 60 * 1000]. *)
Definition MS_PER_YEAR : Z := 31557600000.

(** [Employee.prototype.getYearsOfService]: [Math.floor] of the quotient
    of two integers is the floored integer quotient (a span of years of
    service is far below the range where the double quotient could round
    across an integer). *)
Definition getYearsOfService (hireDate : option Date) (today : Date)
  : option Z :=
  match hireDate with
  | None => None
  | Some hireDate => Some ((getTime today - getTime hireDate) / MS_PER_YEAR)
  end.

(** [where.birthDate]: the two optional bounds. *)
Record BirthDateCond := mkBirthDateCond {
  gte : option Date;
  lte : option Date
}.

(** The age part of the where-clause of GET /employees; [minAge] and
    [maxAge] are the validated integer strings, present or not. *)
Definition age_where (minAge maxAge : option Z) (currentDate : Date)
  : option BirthDateCond :=
  match minAge, maxAge with
  | None, None => None
  | _, _ =>
      let bd := None in
      let bd :=
        match maxAge with
        | Some maxAge =>
            let minBirthDate :=
              make (getFullYear currentDate - maxAge)
                   (getMonth currentDate) (getDate currentDate) in
            let bd := match bd with
                      | Some c => c
                      | None => mkBirthDateCond None None
                      end in
            Some (mkBirthDateCond (Some minBirthDate) (lte bd))
        | None => bd
        end in
      let bd :=
        match minAge with
        | Some minAge =>
            let maxBirthDate :=
              make (getFullYear currentDate - minAge)
                   (getMonth currentDate) (getDate currentDate) in
            let bd := match bd with
                      | Some c => c
                      | None => mkBirthDateCond None None
                      end in
            Some (mkBirthDateCond (gte bd) (Some maxBirthDate))
        | None => bd
        end in
      bd
  end.

(** Whether a stored birth date satisfies the clause: a NULL birth date
    satisfies no comparison. *)
Definition birthDate_matches (c : option BirthDateCond)
           (birthDate : option Date) : bool :=
  match c with
  | None => true
  | Some c =>
      match birthDate with
      | None =>
          match gte c, lte c with None, None => true | _, _ => false end
      | Some b =>
          (match gte c with Some lo => leb lo b | None => true end)
          && (match lte c with Some hi => leb b hi | None => true end)
      end
  end.

End Employees.

(** ** Order totals (the OrderDetail model, second part of
       models/Customer.js, and models/Order.js) *)

Module OrderTotals.

(** A DECIMAL(10,2) column as the store returns it: the decimal string
    ["12.34"] is carried as its number of hundredths, [1234]. *)
Definition decimal := Z.

(** The double nearest to an integer (exact below 2^53). *)
Definition float_of_Z (z : Z) : float :=
  if z <? 0 then PrimFloat.opp (PrimFloat.of_uint63 (Uint63.of_Z (- z)))
  else PrimFloat.of_uint63 (Uint63.of_Z z).

(** [parseFloat] of a decimal string: the double nearest to the decimal it
    denotes, which is the correctly rounded quotient of the two integers. *)
Definition parseFloat (d : decimal) : float :=
  PrimFloat.div (float_of_Z d) (float_of_Z 100).

(** [parseFloat(v || 0)] on a nullable decimal column. *)
Definition parseFloat_or_0 (v : option decimal) : float :=
  match v with Some d => parseFloat d | None => PrimFloat.zero end.

(** [parseInt(v || 0)] on a nullable integer column. *)
Definition parseInt_or_0 (v : option Z) : float :=
  match v with Some n => float_of_Z n | None => PrimFloat.zero end.

Record OrderDetail := mkOrderDetail {
  unitPrice : option decimal;
  quantity : option Z;
  discount : option decimal
}.

(** [parseFloat(v)] and [parseInt(v)] on a nullable column: [null] parses
    to NaN. *)
Definition parseFloat_nullable (v : option decimal) : float :=
  match v with Some d => parseFloat d | None => PrimFloat.nan end.

Definition parseInt_nullable (v : option Z) : float :=
  match v with Some n => float_of_Z n | None => PrimFloat.nan end.

(** The OrderDetail model, [OrderDetail.prototype.getLineTotal]. *)
Definition getLineTotal (this : OrderDetail) : float :=
  (parseFloat_nullable (unitPrice this) * parseInt_nullable (quantity this)
   * (1 - parseFloat_nullable (discount this)))%float.

(** models/Order.js, the [afterFind] hook: the [reduce] over the order's
    details, from 0. *)
Definition subtotal (orderDetails : list OrderDetail) : float :=
  fold_left
    (fun total detail =>
       (total + (parseFloat_or_0 (unitPrice detail)
                 * parseInt_or_0 (quantity detail)
                 * (1 - parseFloat_or_0 (discount detail))))%float)
    orderDetails PrimFloat.zero.

(** [orderTotal + parseFloat(order.freight || 0)]. *)
Definition orderTotal (orderDetails : list OrderDetail)
           (freight : option decimal) : float :=
  (subtotal orderDetails + parseFloat_or_0 freight)%float.

(** The line total in exact decimal arithmetic, in ten-thousandths:
    hundredths of price times quantity times hundredths of (1 - discount). *)
Definition exact_lineTotal (detail : OrderDetail) : Z :=
  match unitPrice detail, quantity detail, discount detail with
  | Some p, Some q, Some d => p * q * (100 - d)
  | Some p, Some q, None => p * q * 100
  | _, _, _ => 0
  end.

(** The double nearest to a decimal amount given in ten-thousandths. *)
Definition nearest_double (tenThousandths : Z) : float :=
  PrimFloat.div (float_of_Z tenThousandths) (float_of_Z 10000).

(** The exact order total in ten-thousandths. *)
Definition exact_orderTotal (orderDetails : list OrderDetail)
           (freight : option decimal) : Z :=
  fold_left (fun total detail => total + exact_lineTotal detail)
            orderDetails 0
  + match freight with Some f => f * 100 | None => 0 end.

End OrderTotals.

(** ** The where-clause of GET /products (routes/products.js) *)

Module ProductList.

Import Js.

(** The validated query string, each parameter present or not. *)
Record Query := mkQuery {
  search : option string;
  categoryId : option Z;
  supplierId : option Z;
  discontinued : option BoolParam;
  inStock : option BoolParam;
  lowStock : option BoolParam;
  minPrice : option Q;
  maxPrice : option Q
}.

Definition no_filter : Query :=
  mkQuery None None None None None None None None.

(** Conditions on a numeric column: a bare value is equality, the others
    are the [Op.gt], [Op.lt] and [Op.and] operator objects. *)
Inductive NumCond :=
| Equals (n : Z)
| Op_gt (n : Z)
| Op_lt (n : Z)
| Op_and (cs : list NumCond).

(** [where.unitPrice]: an object with optional [Op.gte] and [Op.lte]. *)
Record PriceCond := mkPriceCond {
  Op_gte : option Q;
  Op_lte : option Q
}.

Inductive TextColumn := productName | quantityPerUnit.

(** One [{ column: { [Op.like]: pattern } }] entry. *)
Record LikeCond := mkLike {
  like_column : TextColumn;
  like_pattern : string
}.

(** The [where] object: each key is set or not, and setting a key again
    replaces what it held. *)
Record Where := mkWhere {
  w_Op_or : option (list LikeCond);
  w_categoryId : option Z;
  w_supplierId : option Z;
  w_discontinued : option bool;
  w_unitsInStock : option NumCond;
  w_unitPrice : option PriceCond
}.

Definition empty_where : Where := mkWhere None None None None None None.

Definition set_Op_or (v : list LikeCond) (w : Where) : Where :=
  mkWhere (Some v) (w_categoryId w) (w_supplierId w) (w_discontinued w)
          (w_unitsInStock w) (w_unitPrice w).
Definition set_categoryId (v : Z) (w : Where) : Where :=
  mkWhere (w_Op_or w) (Some v) (w_supplierId w) (w_discontinued w)
          (w_unitsInStock w) (w_unitPrice w).
Definition set_supplierId (v : Z) (w : Where) : Where :=
  mkWhere (w_Op_or w) (w_categoryId w) (Some v) (w_discontinued w)
          (w_unitsInStock w) (w_unitPrice w).
Definition set_discontinued (v : bool) (w : Where) : Where :=
  mkWhere (w_Op_or w) (w_categoryId w) (w_supplierId w) (Some v)
          (w_unitsInStock w) (w_unitPrice w).
Definition set_unitsInStock (v : NumCond) (w : Where) : Where :=
  mkWhere (w_Op_or w) (w_categoryId w) (w_supplierId w) (w_discontinued w)
          (Some v) (w_unitPrice w).
Definition set_unitPrice (v : PriceCond) (w : Where) : Where :=
  mkWhere (w_Op_or w) (w_categoryId w) (w_supplierId w) (w_discontinued w)
          (w_unitsInStock w) (Some v).

(** Truthiness of an optional string: absent and empty are falsy. *)
Definition truthy_string (s : option string) : bool :=
  match s with
  | Some s => negb (String.eqb s "")
  | None => false
  end.

(** The "Build where clause" block of the handler, statement by
    statement. *)
Definition build_where (q : Query) : Where :=
  let where_ := empty_where in
  let where_ :=
    match search q with
    | Some s =>
        if truthy_string (Some s)
        then set_Op_or [ mkLike productName ("%" ++ s ++ "%");
                         mkLike quantityPerUnit ("%" ++ s ++ "%") ] where_
        else where_
    | None => where_
    end in
  let where_ :=
    match categoryId q with
    | Some c => set_categoryId c where_
    | None => where_
    end in
  let where_ :=
    match supplierId q with
    | Some s => set_supplierId s where_
    | None => where_
    end in
  let where_ :=
    match discontinued q with
    | Some d => set_discontinued (is_true_literal d) where_
    | None => where_
    end in
  let where_ :=
    match inStock q with
    | Some i =>
        set_unitsInStock (if is_true_literal i then Op_gt 0 else Equals 0)
                         where_
    | None => where_
    end in
  let where_ :=
    match lowStock q with
    | Some P_true => set_unitsInStock (Op_and [Op_gt 0; Op_lt 10]) where_
    | _ => where_
    end in
  let where_ :=
    match minPrice q, maxPrice q with
    | None, None => where_
    | lo, hi => set_unitPrice (mkPriceCond lo hi) where_
    end in
  where_.

(** The columns of a product row the where-clause can mention. *)
Record Row := mkRow {
  r_productId : Z;
  r_productName : string;
  r_quantityPerUnit : option string;
  r_categoryId : option Z;
  r_supplierId : option Z;
  r_discontinued : bool;
  r_unitsInStock : option Z;
  r_unitPrice : option Q
}.

(** The store's reading of a where-clause: every key set must hold of the
    row (AND), the entries under [Op.or] are alternatives, and a
    comparison with NULL holds of no row. *)
Section Matching.

(** The store's LIKE: pattern, then value. *)
Variable sql_like : string -> string -> bool.

Fixpoint num_holds (c : NumCond) (x : Z) : bool :=
  match c with
  | Equals n => x =? n
  | Op_gt n => n <? x
  | Op_lt n => x <? n
  | Op_and cs => forallb (fun c => num_holds c x) cs
  end.

Definition num_matches (c : option NumCond) (v : option Z) : bool :=
  match c with
  | None => true
  | Some c => match v with Some x => num_holds c x | None => false end
  end.

Definition eq_matches (c : option Z) (v : option Z) : bool :=
  match c with
  | None => true
  | Some n => match v with Some x => x =? n | None => false end
  end.

Definition bool_matches (c : option bool) (v : bool) : bool :=
  match c with
  | None => true
  | Some b => Bool.eqb v b
  end.

Definition price_matches (c : option PriceCond) (v : option Q) : bool :=
  match c with
  | None => true
  | Some c =>
      match v with
      | None =>
          match Op_gte c, Op_lte c with
          | None, None => true
          | _, _ => false
          end
      | Some x =>
          (match Op_gte c with Some lo => Qle_bool lo x | None => true end)
          && (match Op_lte c with Some hi => Qle_bool x hi | None => true end)
      end
  end.

Definition text_of (col : TextColumn) (r : Row) : option string :=
  match col with
  | productName => Some (r_productName r)
  | quantityPerUnit => r_quantityPerUnit r
  end.

Definition like_holds (r : Row) (c : LikeCond) : bool :=
  match text_of (like_column c) r with
  | Some v => sql_like (like_pattern c) v
  | None => false
  end.

Definition or_matches (c : option (list LikeCond)) (r : Row) : bool :=
  match c with
  | None => true
  | Some alts => existsb (like_holds r) alts
  end.

Definition matches (w : Where) (r : Row) : bool :=
  or_matches (w_Op_or w) r
  && eq_matches (w_categoryId w) (r_categoryId r)
  && eq_matches (w_supplierId w) (r_supplierId r)
  && bool_matches (w_discontinued w) (r_discontinued r)
  && num_matches (w_unitsInStock w) (r_unitsInStock r)
  && price_matches (w_unitPrice w) (r_unitPrice r).

(** The rows a where-clause selects from a table. *)
Definition select (w : Where) (rows : list Row) : list Row :=
  filter (matches w) rows.

End Matching.

(** A single filter of the list endpoint. *)
Inductive Filter :=
| F_search (s : string)
| F_categoryId (n : Z)
| F_supplierId (n : Z)
| F_discontinued (b : BoolParam)
| F_inStock (b : BoolParam)
| F_lowStock (b : BoolParam)
| F_minPrice (p : Q)
| F_maxPrice (p : Q).

(** The query-string parameter a filter is passed in. *)
Definition param_name (f : Filter) : string :=
  match f with
  | F_search _ => "search"
  | F_categoryId _ => "categoryId"
  | F_supplierId _ => "supplierId"
  | F_discontinued _ => "discontinued"
  | F_inStock _ => "inStock"
  | F_lowStock _ => "lowStock"
  | F_minPrice _ => "minPrice"
  | F_maxPrice _ => "maxPrice"
  end.

(** The query string with one more parameter. *)
Definition with_filter (f : Filter) (q : Query) : Query :=
  match f with
  | F_search s =>
      mkQuery (Some s) (categoryId q) (supplierId q) (discontinued q)
              (inStock q) (lowStock q) (minPrice q) (maxPrice q)
  | F_categoryId n =>
      mkQuery (search q) (Some n) (supplierId q) (discontinued q)
              (inStock q) (lowStock q) (minPrice q) (maxPrice q)
  | F_supplierId n =>
      mkQuery (search q) (categoryId q) (Some n) (discontinued q)
              (inStock q) (lowStock q) (minPrice q) (maxPrice q)
  | F_discontinued b =>
      mkQuery (search q) (categoryId q) (supplierId q) (Some b)
              (inStock q) (lowStock q) (minPrice q) (maxPrice q)
  | F_inStock b =>
      mkQuery (search q) (categoryId q) (supplierId q) (discontinued q)
              (Some b) (lowStock q) (minPrice q) (maxPrice q)
  | F_lowStock b =>
      mkQuery (search q) (categoryId q) (supplierId q) (discontinued q)
              (inStock q) (Some b) (minPrice q) (maxPrice q)
  | F_minPrice p =>
      mkQuery (search q) (categoryId q) (supplierId q) (discontinued q)
              (inStock q) (lowStock q) (Some p) (maxPrice q)
  | F_maxPrice p =>
      mkQuery (search q) (categoryId q) (supplierId q) (discontinued q)
              (inStock q) (lowStock q) (minPrice q) (Some p)
  end.

Definition query_of (fs : list Filter) : Query :=
  fold_left (fun q f => with_filter f q) fs no_filter.

(** Whether the request carrying the filters [fs] returns the row. *)
Definition holds (sql_like : string -> string -> bool)
           (fs : list Filter) (r : Row) : bool :=
  matches sql_like (build_where (query_of fs)) r.

(** The pair of parameters that write the same key of the where-clause
    with conditions that are not merged. *)
Definition stock_pair (a b : Filter) : bool :=
  match a, b with
  | F_inStock _, F_lowStock P_true => true
  | F_lowStock P_true, F_inStock _ => true
  | _, _ => false
  end.

(** A letter without its case: the store's LIKE does not tell [A] from
    [a]. *)
Definition fold_case (c : ascii) : ascii :=
  let n := nat_of_ascii c in
  if (65 <=? n)%nat && (n <=? 90)%nat then ascii_of_nat (n + 32) else c.

(** A LIKE with the wildcards [%] and [_]; every other character stands
    for itself, letters in either case. *)
Fixpoint like (pattern : string) : string -> bool :=
  match pattern with
  | EmptyString =>
      fun v => match v with EmptyString => true | _ => false end
  | String c p =>
      if Ascii.eqb c "%" then
        fix any (v : string) : bool :=
          like p v
          || match v with EmptyString => false | String _ v' => any v' end
      else if Ascii.eqb c "_" then
        fun v => match v with EmptyString => false | String _ v' => like p v' end
      else
        fun v =>
          match v with
          | EmptyString => false
          | String c' v' =>
              Ascii.eqb (fold_case c) (fold_case c') && like p v'
          end
  end.

End ProductList.

(** ** The store, its transactions and the handler monad *)

Module Store.

(** The six optional [ship*] strings of an order. *)
Record ShipTo := mkShipTo {
  shipName : option string;
  shipAddress : option string;
  shipCity : option string;
  shipRegion : option string;
  shipPostalCode : option string;
  shipCountry : option string
}.

Definition no_shipTo : ShipTo := mkShipTo None None None None None None.

(** Rows of the SalesOrder table; dates are instants in milliseconds. *)
Record OrderRow := mkOrderRow {
  o_orderId : Z;
  o_custId : Z;
  o_employeeId : option Z;
  o_orderDate : option Z;
  o_requiredDate : option Z;
  o_shippedDate : option Z;
  o_shipperId : Z;
  o_freight : option Q;
  o_shipTo : ShipTo
}.

Record OrderDetailRow := mkOrderDetailRow {
  od_orderId : Z;
  od_productId : Z;
  od_unitPrice : Q;
  od_quantity : Z;
  od_discount : Q
}.

Record ProductRow := mkProductRow {
  p_productId : Z;
  p_productName : string;
  p_categoryId : option Z;
  p_discontinued : bool
}.

Record EmployeeRow := mkEmployeeRow {
  e_employeeId : Z;
  e_mgrId : option Z
}.

(** The tables the handlers touch; customers, shippers and categories
    are read by key only. *)
Record DB := mkDB {
  customers : list Z;
  employees : list EmployeeRow;
  shippers : list Z;
  categories : list Z;
  products : list ProductRow;
  orders : list OrderRow;
  orderDetails : list OrderDetailRow
}.

Definition set_employees (v : list EmployeeRow) (db : DB) : DB :=
  mkDB (customers db) v (shippers db) (categories db) (products db)
       (orders db) (orderDetails db).
Definition set_customers (v : list Z) (db : DB) : DB :=
  mkDB v (employees db) (shippers db) (categories db) (products db)
       (orders db) (orderDetails db).
Definition set_categories (v : list Z) (db : DB) : DB :=
  mkDB (customers db) (employees db) (shippers db) v (products db)
       (orders db) (orderDetails db).
Definition set_products (v : list ProductRow) (db : DB) : DB :=
  mkDB (customers db) (employees db) (shippers db) (categories db) v
       (orders db) (orderDetails db).
Definition set_orders (v : list OrderRow) (db : DB) : DB :=
  mkDB (customers db) (employees db) (shippers db) (categories db)
       (products db) v (orderDetails db).
Definition set_orderDetails (v : list OrderDetailRow) (db : DB) : DB :=
  mkDB (customers db) (employees db) (shippers db) (categories db)
       (products db) (orders db) v.

(** The transaction the handler obtained from [sequelize.transaction()]:
    not begun, open with its own view of the data, or finished by
    [commit()] or by [rollback()]. *)
Inductive TxState :=
| Idle
| Active (view : DB)
| Committed
| RolledBack.

(** [faults] says, call by call, which of the coming store calls throw;
    when it runs out the calls succeed. *)
Record World := mkWorld {
  committed : DB;
  tx : TxState;
  faults : list bool
}.

Definition set_tx (t : TxState) (w : World) : World :=
  mkWorld (committed w) t (faults w).

(** A transaction is released once it is committed or rolled back. *)
Definition released (t : TxState) : bool :=
  match t with
  | Committed | RolledBack => true
  | Idle | Active _ => false
  end.

Definition is_active (t : TxState) : bool :=
  match t with Active _ => true | _ => false end.

(** What the handler sends. *)
Inductive OrderStatus := Shipped | Processing | Pending.

Inductive Payload :=
| NoData
| OrderData (o : option (OrderRow * OrderStatus))
| DeletedData (id : Z) (affected : Z).

Record Response := mkResponse {
  statusCode : Z;
  success : bool;
  message : string;
  field : option string;
  data : Payload
}.

Definition error_response (code : Z) (msg : string) (fld : option string)
  : Response := mkResponse code false msg fld NoData.

Definition ok_response (code : Z) (msg : string) (d : Payload) : Response :=
  mkResponse code true msg None d.

(** How a handler ends: a response was sent, the error went to
    [next(error)], or the handler's promise rejected. *)
Inductive Outcome :=
| Responded (r : Response)
| Forwarded
| Rejected.

(** A step of a [try] block yields a value, leaves through [return], or
    throws. *)
Inductive Result (A : Type) :=
| Val (a : A)
| Ret (r : Response)
| Exn.
Arguments Val {A} a.
Arguments Ret {A} r.
Arguments Exn {A}.

Definition M (A : Type) : Type := World -> Result A * World.

Definition ret {A} (a : A) : M A := fun w => (Val a, w).

Definition bind {A B} (m : M A) (k : A -> M B) : M B :=
  fun w =>
    match m w with
    | (Val a, w') => k a w'
    | (Ret r, w') => (Ret r, w')
    | (Exn, w') => (Exn, w')
    end.

Notation "x <- m ;; k" := (bind m (fun x => k))
  (at level 61, m at next level, right associativity).
Notation "m ;;; k" := (bind m (fun _ => k))
  (at level 61, right associativity).

(** [return res.status(..).json(..)] inside the [try]. *)
Definition return_ {A} (r : Response) : M A := fun w => (Ret r, w).

(** Where a call runs: on the handler's transaction ([{ transaction }]
    was passed) or on a connection of its own, which sees and changes the
    committed data. *)
Inductive Conn := InTx | Auto.

(** A store call: it throws when the fault plan says so, or when it is
    sent on a transaction that is not open. *)
Definition store_call {A} (c : Conn) (f : DB -> A * DB) : M A :=
  fun w =>
    match faults w with
    | true :: rest => (Exn, mkWorld (committed w) (tx w) rest)
    | _ =>
        let w := mkWorld (committed w) (tx w) (tl (faults w)) in
        match c with
        | Auto =>
            let (a, db) := f (committed w) in
            (Val a, mkWorld db (tx w) (faults w))
        | InTx =>
            match tx w with
            | Active view =>
                let (a, view') := f view in
                (Val a, mkWorld (committed w) (Active view') (faults w))
            | _ => (Exn, w)
            end
        end
    end.

Definition query {A} (c : Conn) (f : DB -> A) : M A :=
  store_call c (fun db => (f db, db)).

(** [await transaction.commit()]: a store call like any other.  When
    the COMMIT throws the data stays as it was, and the transaction is
    finished all the same ([finished = 'commit'] is set in every case),
    so that a rollback after it throws. *)
Definition commit : M unit :=
  fun w =>
    match faults w with
    | true :: rest =>
        (Exn,
         mkWorld (committed w)
                 (match tx w with Active _ => Committed | t => t end) rest)
    | _ =>
        match tx w with
        | Active view => (Val tt, mkWorld view Committed (tl (faults w)))
        | _ => (Exn, mkWorld (committed w) (tx w) (tl (faults w)))
        end
    end.

(** [await transaction.rollback()]: discards the view; it throws on a
    transaction that is already finished. *)
Definition rollback : M unit :=
  fun w =>
    match tx w with
    | Active _ => (Val tt, set_tx RolledBack w)
    | _ => (Exn, w)
    end.

Definition Handler : Type := World -> Outcome * World.

(** [const transaction = await sequelize.transaction(); try { body }
    catch (error) { await transaction.rollback(); next(error); }]. *)
Definition with_transaction (body : M Response) : Handler :=
  fun w =>
    let w := set_tx (Active (committed w)) w in
    match body w with
    | (Val r, w') => (Responded r, w')
    | (Ret r, w') => (Responded r, w')
    | (Exn, w') =>
        match rollback w' with
        | (Val _, w'') => (Forwarded, w'')
        | (_, w'') => (Rejected, w'')
        end
    end.

(** [try { body } catch (error) { next(error); }]. *)
Definition without_transaction (body : M Response) : Handler :=
  fun w =>
    match body w with
    | (Val r, w') => (Responded r, w')
    | (Ret r, w') => (Responded r, w')
    | (Exn, w') => (Forwarded, w')
    end.

(** Template literals print a count in decimal. *)
Definition show (n : Z) : string := NilZero.string_of_int (Z.to_int n).

Definition count {A} (f : A -> bool) (l : list A) : Z :=
  Z.of_nat (List.length (filter f l)).

Definition opt_eqb (a : option Z) (b : Z) : bool :=
  match a with Some x => x =? b | None => false end.

(** What a piece of a [try] block does to an open transaction: when it
    yields a value the transaction satisfies [after]; when it leaves
    through [return] the transaction is released; when it throws the
    transaction is still there for the [catch] block. *)
Definition on_open_tx {A} (m : M A) (after : TxState -> Prop) : Prop :=
  forall w,
    is_active (tx w) = true ->
    match m w with
    | (Val _, w') => after (tx w')
    | (Ret _, w') => released (tx w') = true
    | (Exn, w') => tx w' <> Idle
    end.

Definition still_open (t : TxState) : Prop := is_active t = true.
Definition now_released (t : TxState) : Prop := released t = true.

End Store.

(** ** The order model (models/Order.js) *)

Module OrderModel.
  Import Store.

(** An instance's DATE field: [null], or a [Date] object the ORM
    allocated for this instance. *)
Definition date_field (ref : nat) (v : option Z) : Js.value :=
  match v with
  | Some t => Js.DateObject ref t
  | None => Js.Null
  end.

(** [Order.prototype.getOrderStatus]. *)
Definition getOrderStatus (this : OrderRow) : OrderStatus :=
  if Js.truthy (date_field 0 (o_shippedDate this)) then Shipped
  else if Js.truthy (date_field 0 (o_orderDate this))
          && negb (Js.truthy (date_field 0 (o_shippedDate this)))
       then Processing
  else Pending.

(** [findByPk] followed by the [afterFind] hook, which attaches
    [orderStatus] to an instance that was found. *)
Definition findByPk (id : Z) (db : DB) : option OrderRow :=
  find (fun o => o_orderId o =? id) (orders db).

Definition findByPk_with_status (id : Z) (db : DB)
  : option (OrderRow * OrderStatus) :=
  match findByPk id db with
  | Some o => Some (o, getOrderStatus o)
  | None => None
  end.

End OrderModel.

(** ** DELETE handlers with dependents (routes/products.js,
       routes/categories.js, routes/employees.js and the customers
       router, unnamed/part_004) *)

Module DeleteRoutes.
  Import Store Js.

(** The request: [req.params.id] and [req.query.force]. *)
Record Request := mkRequest {
  id : Z;
  force_param : option BoolParam
}.

(** [req.query.force === 'true']. *)
Definition force_of (req : Request) : bool :=
  match force_param req with
  | Some p => is_true_literal p
  | None => false
  end.

Definition product_conflict_message (n : Z) : string :=
  "Cannot delete product with " ++ show n
  ++ " order records. Use force=true to override or consider marking as discontinued.".

Definition category_conflict_message (n : Z) : string :=
  "Cannot delete category with " ++ show n
  ++ " products. Use force=true to override.".

Definition employee_orders_message (n : Z) : string :=
  "Cannot delete employee with " ++ show n
  ++ " orders. Reassign orders first.".

Definition employee_subordinates_message (n : Z) : string :=
  "Cannot delete employee with " ++ show n
  ++ " subordinates. Reassign subordinates first.".

Definition customer_conflict_message (n : Z) : string :=
  "Cannot delete customer with " ++ show n
  ++ " orders. Remove or reassign orders first.".

(** [Model.destroy({ where })]: removes the rows and resolves to their
    number. *)
Definition destroy {A} (hit : A -> bool) (table : list A)
  : Z * list A :=
  (count hit table, filter (fun r => negb (hit r)) table).

(** The queries of the four handlers, by model and where-clause. *)
Definition Product_findByPk (id : Z) (db : DB) : option ProductRow :=
  find (fun p => p_productId p =? id) (products db).

Definition OrderDetail_count_productId (id : Z) (db : DB) : Z :=
  count (fun d => od_productId d =? id) (orderDetails db).

Definition OrderDetail_destroy_productId (id : Z) (db : DB) : Z * DB :=
  let (n, rest) :=
    destroy (fun d => od_productId d =? id) (orderDetails db) in
  (n, set_orderDetails rest db).

Definition Product_destroy (id : Z) (db : DB) : Z * DB :=
  let (n, rest) := destroy (fun p => p_productId p =? id) (products db) in
  (n, set_products rest db).

Definition Category_findByPk (id : Z) (db : DB) : option Z :=
  find (fun c => c =? id) (categories db).

Definition Product_count_categoryId (id : Z) (db : DB) : Z :=
  count (fun p => opt_eqb (p_categoryId p) id) (products db).

(** [Product.update({ categoryId: null }, { where: { categoryId: id } })]. *)
Definition Product_clear_categoryId (id : Z) (db : DB) : unit * DB :=
  (tt, set_products
         (map (fun p =>
                 if opt_eqb (p_categoryId p) id
                 then mkProductRow (p_productId p) (p_productName p) None
                                   (p_discontinued p)
                 else p)
              (products db)) db).

Definition Category_destroy (id : Z) (db : DB) : Z * DB :=
  let (n, rest) := destroy (fun c => c =? id) (categories db) in
  (n, set_categories rest db).

Definition Order_count_employeeId (id : Z) (db : DB) : Z :=
  count (fun o => opt_eqb (o_employeeId o) id) (orders db).

Definition Employee_count_mgrId (id : Z) (db : DB) : Z :=
  count (fun e => opt_eqb (e_mgrId e) id) (employees db).

Definition Employee_destroy (id : Z) (db : DB) : Z * DB :=
  let (n, rest) := destroy (fun e => e_employeeId e =? id) (employees db) in
  (n, set_employees rest db).

Definition Order_count_custId (id : Z) (db : DB) : Z :=
  count (fun o => o_custId o =? id) (orders db).

Definition Customer_destroy (id : Z) (db : DB) : Z * DB :=
  let (n, rest) := destroy (fun c => c =? id) (customers db) in
  (n, set_customers rest db).

(** routes/products.js, [router.delete('/:id')]. *)
Definition delete_product (req : Request) : Handler :=
  with_transaction (
    let force := force_of req in
    product <- query InTx (Product_findByPk (id req)) ;;
    match product with
    | None =>
        rollback ;;;
        return_ (error_response 404 "Product not found" None)
    | Some _ =>
        orderDetailCount <-
          query InTx (OrderDetail_count_productId (id req)) ;;
        if (0 <? orderDetailCount) && negb force then
          rollback ;;;
          return_ (error_response 400
                     (product_conflict_message orderDetailCount) None)
        else
          (if force && (0 <? orderDetailCount) then
             store_call InTx (OrderDetail_destroy_productId (id req))
           else ret 0) ;;;
          store_call InTx (Product_destroy (id req)) ;;;
          commit ;;;
          ret (ok_response 200 "Product deleted successfully"
                 (DeletedData (id req) orderDetailCount))
    end).

(** routes/categories.js, [router.delete('/:id')]. *)
Definition delete_category (req : Request) : Handler :=
  with_transaction (
    let force := force_of req in
    category <- query InTx (Category_findByPk (id req)) ;;
    match category with
    | None =>
        rollback ;;;
        return_ (error_response 404 "Category not found" None)
    | Some _ =>
        productCount <- query InTx (Product_count_categoryId (id req)) ;;
        if (0 <? productCount) && negb force then
          rollback ;;;
          return_ (error_response 400
                     (category_conflict_message productCount) None)
        else
          (if force && (0 <? productCount) then
             store_call InTx (Product_clear_categoryId (id req))
           else ret tt) ;;;
          store_call InTx (Category_destroy (id req)) ;;;
          commit ;;;
          ret (ok_response 200 "Category deleted successfully"
                 (DeletedData (id req) productCount))
    end).

(** routes/employees.js, [router.delete('/:id')]: the handler opens no
    transaction and reads no [force]. *)
Definition delete_employee (req : Request) : Handler :=
  without_transaction (
    orderCount <- query Auto (Order_count_employeeId (id req)) ;;
    if 0 <? orderCount then
      return_ (error_response 400 (employee_orders_message orderCount) None)
    else
      subordinateCount <- query Auto (Employee_count_mgrId (id req)) ;;
      if 0 <? subordinateCount then
        return_ (error_response 400
                   (employee_subordinates_message subordinateCount) None)
      else
        deletedRows <- store_call Auto (Employee_destroy (id req)) ;;
        if deletedRows =? 0 then
          return_ (error_response 404 "Employee not found" None)
        else
          ret (ok_response 200 "Employee deleted successfully" NoData)).

(** The customers router (unnamed/part_004), [router.delete('/:id')]: no
    transaction and no [force] either. *)
Definition delete_customer (req : Request) : Handler :=
  without_transaction (
    orderCount <- query Auto (Order_count_custId (id req)) ;;
    if 0 <? orderCount then
      return_ (error_response 400 (customer_conflict_message orderCount) None)
    else
      deletedRows <- store_call Auto (Customer_destroy (id req)) ;;
      if deletedRows =? 0 then
        return_ (error_response 404 "Customer not found" None)
      else
        ret (ok_response 200 "Customer deleted successfully" NoData)).

End DeleteRoutes.

(** ** Order handlers (the orders router, unnamed/part_004) *)

Module OrderRoutes.
  Import Store Js.

(** A date of the JSON body that passed [isISO8601()]: the string, and
    the instant the store makes of it. *)
Record IsoDate := mkIsoDate {
  iso_text : string;
  iso_instant : Z
}.

(** A body field holding a date, as a JavaScript value. *)
Definition body_date (v : option IsoDate) : value :=
  match v with
  | Some d => Str (iso_text d)
  | None => Undefined
  end.

Definition instant_of (v : option IsoDate) : option Z :=
  match v with
  | Some d => Some (iso_instant d)
  | None => None
  end.

Record DetailBody := mkDetailBody {
  d_productId : Z;
  d_quantity : Z;
  d_unitPrice : Q;
  d_discount : option Q
}.

(** The validated body of POST /orders. *)
Record OrderBody := mkOrderBody {
  b_custId : Z;
  b_employeeId : option Z;
  b_orderDate : option IsoDate;
  b_requiredDate : option IsoDate;
  b_shippedDate : option IsoDate;
  b_shipperId : Z;
  b_freight : option Q;
  b_shipTo : ShipTo;
  b_orderDetails : list DetailBody
}.

(** Truthiness of an optional numeric body field. *)
Definition truthy_number (v : option Z) : bool :=
  match v with
  | Some n => negb (n =? 0)
  | None => false
  end.

(** [detail.discount || 0]. *)
Definition discount_or_0 (v : option Q) : Q :=
  match v with
  | Some d => d
  | None => 0%Q
  end.

(** The next value of the auto-increment key. *)
Definition next_orderId (db : DB) : Z :=
  1 + fold_right Z.max 0 (map o_orderId (orders db)).

Definition discontinued_message (names : list string) : string :=
  "Cannot order discontinued products: " ++ String.concat ", " names.

(** [Order.create(orderData, { transaction })]: the row gets the next
    key, and [freight] its column default when the body has none. *)
Definition Order_create (orderData : OrderBody) (orderDate : option Z)
           (db : DB) : OrderRow * DB :=
  let order :=
    mkOrderRow (next_orderId db) (b_custId orderData)
               (b_employeeId orderData) orderDate
               (instant_of (b_requiredDate orderData))
               (instant_of (b_shippedDate orderData))
               (b_shipperId orderData)
               (match b_freight orderData with
                | Some f => Some f
                | None => Some 0%Q
                end)
               (b_shipTo orderData) in
  (order, set_orders (order :: orders db) db).

(** The orders router, [router.post('/')]; [now] is what [new Date()]
    gives when the default order date is taken. *)
Definition create_order (body : OrderBody) (now : Z) : Handler :=
  with_transaction (
    let orderDetails := b_orderDetails body in
    let orderData := body in
    customer <- query Auto (fun db =>
                  find (fun c => c =? b_custId orderData) (customers db)) ;;
    match customer with
    | None =>
        return_ (error_response 400 "Customer not found" (Some "custId"%string))
    | Some _ =>
    (if truthy_number (b_employeeId orderData) then
       employee <- query Auto (fun db =>
         find (fun e => opt_eqb (b_employeeId orderData) (e_employeeId e))
              (employees db)) ;;
       match employee with
       | None =>
           return_ (error_response 400 "Employee not found"
                      (Some "employeeId"%string))
       | Some _ => ret tt
       end
     else ret tt) ;;;
    shipper <- query Auto (fun db =>
                 find (fun s => s =? b_shipperId orderData) (shippers db)) ;;
    match shipper with
    | None =>
        return_ (error_response 400 "Shipper not found" (Some "shipperId"%string))
    | Some _ =>
    let productIds := map d_productId orderDetails in
    products <- query Auto (fun db =>
      filter (fun p => existsb (Z.eqb (p_productId p)) productIds)
             (products db)) ;;
    if negb (Nat.eqb (List.length products) (List.length productIds)) then
      return_ (error_response 400 "One or more products not found" None)
    else
    let discontinuedProducts := filter p_discontinued products in
    if (0 <? List.length discontinuedProducts)%nat then
      return_ (error_response 400
                 (discontinued_message
                    (map p_productName discontinuedProducts)) None)
    else
    let orderDate :=
      if truthy (body_date (b_orderDate orderData))
      then instant_of (b_orderDate orderData)
      else Some now in
    order <- store_call InTx (Order_create orderData orderDate) ;;
    let detailsWithOrderId :=
      map (fun detail =>
             mkOrderDetailRow (o_orderId order) (d_productId detail)
                              (d_unitPrice detail) (d_quantity detail)
                              (discount_or_0 (d_discount detail)))
          orderDetails in
    store_call InTx (fun db =>
      (tt, set_orderDetails (detailsWithOrderId ++ Store.orderDetails db) db)) ;;;
    commit ;;;
    completeOrder <- query Auto
      (OrderModel.findByPk_with_status (o_orderId order)) ;;
    ret (mkResponse 201 true "Order created successfully" None
           (OrderData completeOrder))
    end
    end).

(** The validated body of PUT /orders/:id; every field is optional. *)
Record UpdateBody := mkUpdateBody {
  u_employeeId : option Z;
  u_requiredDate : option IsoDate;
  u_shippedDate : option IsoDate;
  u_shipperId : option Z;
  u_freight : option Q;
  u_shipTo : ShipTo
}.

Definition or_else {A} (new old : option A) : option A :=
  match new with
  | Some _ => new
  | None => old
  end.

(** [Order.update(req.body, { where: { orderId: id } })] on one row: the
    fields the body carries replace the row's. *)
Definition apply_update (body : UpdateBody) (o : OrderRow) : OrderRow :=
  mkOrderRow (o_orderId o) (o_custId o)
    (or_else (u_employeeId body) (o_employeeId o))
    (o_orderDate o)
    (or_else (instant_of (u_requiredDate body)) (o_requiredDate o))
    (or_else (instant_of (u_shippedDate body)) (o_shippedDate o))
    (match u_shipperId body with Some s => s | None => o_shipperId o end)
    (or_else (u_freight body) (o_freight o))
    (mkShipTo
       (or_else (shipName (u_shipTo body)) (shipName (o_shipTo o)))
       (or_else (shipAddress (u_shipTo body)) (shipAddress (o_shipTo o)))
       (or_else (shipCity (u_shipTo body)) (shipCity (o_shipTo o)))
       (or_else (shipRegion (u_shipTo body)) (shipRegion (o_shipTo o)))
       (or_else (shipPostalCode (u_shipTo body))
                (shipPostalCode (o_shipTo o)))
       (or_else (shipCountry (u_shipTo body)) (shipCountry (o_shipTo o)))).

(** A body without any column. *)
Definition no_column (body : UpdateBody) : bool :=
  match u_employeeId body, u_requiredDate body, u_shippedDate body,
        u_shipperId body, u_freight body,
        shipName (u_shipTo body), shipAddress (u_shipTo body),
        shipCity (u_shipTo body), shipRegion (u_shipTo body),
        shipPostalCode (u_shipTo body), shipCountry (u_shipTo body) with
  | None, None, None, None, None, None, None, None, None, None, None => true
  | _, _, _, _, _, _, _, _, _, _, _ => false
  end.

(** [Order.update(req.body, { where: { orderId: id } })]: the number of
    rows and the table; without a column to set no statement is sent and
    the number is 0. *)
Definition Order_update (body : UpdateBody) (id : Z) (db : DB) : Z * DB :=
  if no_column body then (0, db)
  else
    (count (fun o => o_orderId o =? id) (orders db),
     set_orders
       (map (fun o => if o_orderId o =? id then apply_update body o else o)
            (orders db)) db).

(** The identity of the [Date] object the ORM builds for the instance it
    returns; the body was parsed from JSON and holds no object. *)
Definition instance_ref : nat := 0%nat.

(** The orders router, [router.put('/:id')]. *)
Definition update_order (id : Z) (body : UpdateBody) : Handler :=
  without_transaction (
    existingOrder <- query Auto (OrderModel.findByPk id) ;;
    match existingOrder with
    | None => return_ (error_response 404 "Order not found" None)
    | Some existingOrder =>
    let existing_shippedDate :=
      OrderModel.date_field instance_ref (o_shippedDate existingOrder) in
    if truthy existing_shippedDate
       && negb (strict_eq (body_date (u_shippedDate body))
                          existing_shippedDate)
    then return_ (error_response 400 "Cannot modify shipped orders" None)
    else
    (if truthy_number (u_employeeId body) then
       employee <- query Auto (fun db =>
         find (fun e => opt_eqb (u_employeeId body) (e_employeeId e))
              (employees db)) ;;
       match employee with
       | None =>
           return_ (error_response 400 "Employee not found"
                      (Some "employeeId"%string))
       | Some _ => ret tt
       end
     else ret tt) ;;;
    (if truthy_number (u_shipperId body) then
       shipper <- query Auto (fun db =>
         find (fun s => opt_eqb (u_shipperId body) s) (shippers db)) ;;
       match shipper with
       | None =>
           return_ (error_response 400 "Shipper not found"
                      (Some "shipperId"%string))
       | Some _ => ret tt
       end
     else ret tt) ;;;
    updatedRows <- store_call Auto (Order_update body id) ;;
    if updatedRows =? 0 then
      return_ (error_response 404 "Order not found" None)
    else
      updatedOrder <- query Auto (OrderModel.findByPk_with_status id) ;;
      ret (ok_response 200 "Order updated successfully"
             (OrderData updatedOrder))
    end).

(** The orders router, [router.delete('/:id')]. *)
Definition delete_order (id : Z) : Handler :=
  with_transaction (
    order <- query Auto (OrderModel.findByPk id) ;;
    match order with
    | None => return_ (error_response 404 "Order not found" None)
    | Some order =>
    if truthy (OrderModel.date_field instance_ref (o_shippedDate order))
    then return_ (error_response 400 "Cannot delete shipped orders" None)
    else
      store_call InTx (fun db =>
        let (n, rest) :=
          DeleteRoutes.destroy (fun d => od_orderId d =? id)
                               (orderDetails db) in
        (n, set_orderDetails rest db)) ;;;
      store_call InTx (fun db =>
        let (n, rest) :=
          DeleteRoutes.destroy (fun o => o_orderId o =? id) (orders db) in
        (n, set_orders rest db)) ;;;
      commit ;;;
      ret (ok_response 200 "Order deleted successfully" NoData)
    end).

End OrderRoutes.

(** ** Concrete records used in the examples *)

Module Fixtures.
  Import Store.

(** Five units in stock, reorder level ten, not discontinued. *)
Definition low_and_reorder : ProductData :=
  mkProductData false (Some 5) (Some 10).

(** A product row with five units in stock. *)
Definition five_in_stock : ProductList.Row :=
  ProductList.mkRow 1 "Chai" (Some "10 boxes x 20 bags"%string)
                    (Some 1) (Some 1) false (Some 5) (Some (18 # 1)).

(** unitPrice 10.00, quantity 3, discount 0.10. *)
Definition ten_by_three : OrderTotals.OrderDetail :=
  OrderTotals.mkOrderDetail (Some 1000) (Some 3) (Some 10).

(** unitPrice 0.10, quantity 3, discount 0.00. *)
Definition dime_by_three : OrderTotals.OrderDetail :=
  OrderTotals.mkOrderDetail (Some 10) (Some 3) (Some 0).

(** unitPrice 0.10, quantity 1, discount 0.00. *)
Definition one_dime : OrderTotals.OrderDetail :=
  OrderTotals.mkOrderDetail (Some 10) (Some 1) (Some 0).

(** 15 June 2024, 09:30 local time. *)
Definition today_2024_06_15 : JsDate.Date :=
  JsDate.mkDate 2024 5 15 34200000.

(** 1 January 1990 and 15 June 1990, at midnight. *)
Definition born_1990_01_01 : JsDate.Date := JsDate.mkDate 1990 0 1 0.
Definition born_1990_06_15 : JsDate.Date := JsDate.mkDate 1990 5 15 0.

(** Hired on 7 March 2014; 10 years and 100 days later is 15 June 2024. *)
Definition hired_2014_03_07 : JsDate.Date :=
  JsDate.mkDate 2014 2 7 34200000.

(** A small store: one customer, two employees (2 reports to 1), one
    shipper, one category with two products (the second discontinued),
    order 10 shipped and order 11 not yet, each with one line. *)
Definition chai : ProductRow := mkProductRow 1 "Chai" (Some 1) false.
Definition chang : ProductRow := mkProductRow 2 "Chang" (Some 1) true.

Definition order10 : OrderRow :=
  mkOrderRow 10 1 (Some 2) (Some 1718000000000) None (Some 1718400000000)
             1 (Some (5 # 1)) no_shipTo.
Definition order11 : OrderRow :=
  mkOrderRow 11 1 (Some 2) (Some 1718000000000) None None
             1 (Some (5 # 1)) no_shipTo.

Definition line10 : OrderDetailRow := mkOrderDetailRow 10 1 (18 # 1) 2 0.
Definition line11 : OrderDetailRow := mkOrderDetailRow 11 1 (18 # 1) 1 0.

Definition shop : DB :=
  mkDB [1] [mkEmployeeRow 1 None; mkEmployeeRow 2 (Some 1)] [1] [1]
       [chai; chang] [order10; order11] [line10; line11].

(** The store before a request: no transaction, no store call fails. *)
Definition calm (db : DB) : World := mkWorld db Idle [].

(** POST /orders bodies: one line of Chai, for customer [cust]. *)
Definition one_chai : list OrderRoutes.DetailBody :=
  [OrderRoutes.mkDetailBody 1 3 (18 # 1) None].

Definition order_for (cust : Z) : OrderRoutes.OrderBody :=
  OrderRoutes.mkOrderBody cust None None None None 1 None no_shipTo
                          one_chai.

(** The instant [new Date()] gives in the examples. *)
Definition now : Z := 1718443800000.

(** The order that POST /orders makes of [order_for 1] in [shop]. *)
Definition order12 : OrderRow :=
  mkOrderRow 12 1 None (Some now) None None 1 (Some 0%Q) no_shipTo.

Definition line12 : OrderDetailRow := mkOrderDetailRow 12 1 (18 # 1) 3 0.

(** The example store once that order is committed. *)
Definition shop_with_order12 : DB :=
  mkDB [1] [mkEmployeeRow 1 None; mkEmployeeRow 2 (Some 1)] [1] [1]
       [chai; chang] [order12; order10; order11]
       [line12; line10; line11].

(** A PUT /orders/:id body that changes the freight only. *)
Definition new_freight : OrderRoutes.UpdateBody :=
  OrderRoutes.mkUpdateBody None None None None (Some (7 # 1)) no_shipTo.

End Fixtures.

From Stdlib Require Import Btauto.

(** ** More of the order model (models/Order.js) *)

Module OrderDerived.
Import Store.

(** [Order.prototype.isOverdue], with the instant of [new Date()] passed
    in. *)
Definition isOverdue (this : OrderRow) (now : Z) : bool :=
  if negb (Js.truthy (OrderModel.date_field 0 (o_requiredDate this)))
     || Js.truthy (OrderModel.date_field 0 (o_shippedDate this))
  then false
  else
    match o_requiredDate this with
    | Some required => required <? now
    | None => false
    end.

(** [1000 * 60 * 60 * 24]. *)
Definition MS_PER_DAY : Z := 86400000.

(** [Order.prototype.getDaysToShip]: [null] is [None]; [Math.ceil] of the
    quotient of the two integers is the integer ceiling. *)
Definition getDaysToShip (this : OrderRow) (now : Z) : option Z :=
  if Js.truthy (OrderModel.date_field 0 (o_shippedDate this)) then Some 0
  else
    match o_requiredDate this with
    | None => None
    | Some required =>
        Some (Pagination.Math_ceil_div (required - now) MS_PER_DAY)
    end.

End OrderDerived.

(** ** The where-clause of GET /orders (the orders router,
       unnamed/part_004) *)

Module OrderList.
Import Store.

Inductive Status := pending | processing | shipped | overdue.

(** The validated query string. *)
Record Query := mkQuery {
  custId : option Z;
  employeeId : option Z;
  shipperId : option Z;
  status : option Status;
  fromDate : option OrderRoutes.IsoDate;
  toDate : option OrderRoutes.IsoDate;
  minFreight : option Q;
  maxFreight : option Q;
  shipCountry : option string;
  shipCity : option string
}.

(** A condition on a DATE column: [null], [{ [Op.ne]: null }],
    [{ [Op.lt]: t }], or an object with optional [Op.gte] and [Op.lte]. *)
Inductive DateCond :=
| IsNull
| NotNull
| Op_lt (t : Z)
| Range (Op_gte Op_lte : option Z).

Inductive DateColumn := orderDate | requiredDate | shippedDate.

(** [where.freight]. *)
Record FreightCond := mkFreightCond {
  f_gte : option Q;
  f_lte : option Q
}.

(** The [where] object; [w_Op_and] is the array under [Op.and], each
    entry one column with its condition. *)
Record Where := mkWhere {
  w_custId : option Z;
  w_employeeId : option Z;
  w_shipperId : option Z;
  w_shipCountry : option string;
  w_shipCity : option string;
  w_orderDate : option DateCond;
  w_freight : option FreightCond;
  w_shippedDate : option DateCond;
  w_Op_and : option (list (DateColumn * DateCond))
}.

Definition empty_where : Where :=
  mkWhere None None None None None None None None None.

Definition set_orderDate (c : DateCond) (w : Where) : Where :=
  mkWhere (w_custId w) (w_employeeId w) (w_shipperId w) (w_shipCountry w)
          (w_shipCity w) (Some c) (w_freight w) (w_shippedDate w)
          (w_Op_and w).

Definition set_shippedDate (c : DateCond) (w : Where) : Where :=
  mkWhere (w_custId w) (w_employeeId w) (w_shipperId w) (w_shipCountry w)
          (w_shipCity w) (w_orderDate w) (w_freight w) (Some c)
          (w_Op_and w).

Definition set_Op_and (cs : list (DateColumn * DateCond)) (w : Where)
  : Where :=
  mkWhere (w_custId w) (w_employeeId w) (w_shipperId w) (w_shipCountry w)
          (w_shipCity w) (w_orderDate w) (w_freight w) (w_shippedDate w)
          (Some cs).

(** [new Date(fromDate)] when the parameter is a non-empty string. *)
Definition date_bound (v : option OrderRoutes.IsoDate) : option Z :=
  if Js.truthy (OrderRoutes.body_date v) then OrderRoutes.instant_of v
  else None.

(** The "Build where clause" block of the handler, statement by
    statement; [currentDate] is the instant of [new Date()]. *)
Definition build_where (q : Query) (currentDate : Z) : Where :=
  let where_ :=
    mkWhere (custId q) (employeeId q) (shipperId q)
            (if ProductList.truthy_string (shipCountry q)
             then option_map (fun s => ("%" ++ s ++ "%")%string)
                             (shipCountry q)
             else None)
            (if ProductList.truthy_string (shipCity q)
             then option_map (fun s => ("%" ++ s ++ "%")%string) (shipCity q)
             else None)
            None None None None in
  let where_ :=
    if Js.truthy (OrderRoutes.body_date (fromDate q))
       || Js.truthy (OrderRoutes.body_date (toDate q))
    then set_orderDate (Range (date_bound (fromDate q))
                              (date_bound (toDate q))) where_
    else where_ in
  let where_ :=
    match minFreight q, maxFreight q with
    | None, None => where_
    | lo, hi =>
        mkWhere (w_custId where_) (w_employeeId where_) (w_shipperId where_)
                (w_shipCountry where_) (w_shipCity where_)
                (w_orderDate where_) (Some (mkFreightCond lo hi))
                (w_shippedDate where_) (w_Op_and where_)
    end in
  let where_ :=
    match status q with
    | None => where_
    | Some pending => set_orderDate IsNull where_
    | Some processing =>
        set_Op_and [(orderDate, NotNull); (shippedDate, IsNull)] where_
    | Some shipped => set_shippedDate NotNull where_
    | Some overdue =>
        set_Op_and [(shippedDate, IsNull); (requiredDate, Op_lt currentDate)]
                   where_
    end in
  where_.

(** The store's reading of the clause on a row of SalesOrder. *)
Section Matching.

Variable sql_like : string -> string -> bool.

Definition date_holds (c : DateCond) (v : option Z) : bool :=
  match c, v with
  | IsNull, None => true
  | IsNull, Some _ => false
  | NotNull, Some _ => true
  | NotNull, None => false
  | Op_lt t, Some x => x <? t
  | Op_lt _, None => false
  | Range lo hi, Some x =>
      (match lo with Some l => l <=? x | None => true end)
      && (match hi with Some h => x <=? h | None => true end)
  | Range None None, None => true
  | Range _ _, None => false
  end.

Definition date_matches (c : option DateCond) (v : option Z) : bool :=
  match c with
  | None => true
  | Some c => date_holds c v
  end.

Definition column (col : DateColumn) (r : OrderRow) : option Z :=
  match col with
  | orderDate => o_orderDate r
  | requiredDate => o_requiredDate r
  | shippedDate => o_shippedDate r
  end.

Definition and_matches (cs : option (list (DateColumn * DateCond)))
           (r : OrderRow) : bool :=
  match cs with
  | None => true
  | Some cs => forallb (fun c => date_holds (snd c) (column (fst c) r)) cs
  end.

Definition freight_matches (c : option FreightCond) (v : option Q) : bool :=
  match c with
  | None => true
  | Some c =>
      match v with
      | None =>
          match f_gte c, f_lte c with
          | None, None => true
          | _, _ => false
          end
      | Some x =>
          (match f_gte c with Some lo => Qle_bool lo x | None => true end)
          && (match f_lte c with Some hi => Qle_bool x hi | None => true end)
      end
  end.

Definition like_matches (pattern : option string) (v : option string)
  : bool :=
  match pattern with
  | None => true
  | Some p => match v with Some s => sql_like p s | None => false end
  end.

Definition matches (w : Where) (r : OrderRow) : bool :=
  ProductList.eq_matches (w_custId w) (Some (o_custId r))
  && ProductList.eq_matches (w_employeeId w) (o_employeeId r)
  && ProductList.eq_matches (w_shipperId w) (Some (o_shipperId r))
  && like_matches (w_shipCountry w) (Store.shipCountry (o_shipTo r))
  && like_matches (w_shipCity w) (Store.shipCity (o_shipTo r))
  && date_matches (w_orderDate w) (o_orderDate r)
  && freight_matches (w_freight w) (o_freight r)
  && date_matches (w_shippedDate w) (o_shippedDate r)
  && and_matches (w_Op_and w) r.

End Matching.

(** The query without its status parameter, and without its date range. *)
Definition without_status (q : Query) : Query :=
  mkQuery (custId q) (employeeId q) (shipperId q) None (fromDate q)
          (toDate q) (minFreight q) (maxFreight q) (shipCountry q)
          (shipCity q).

Definition without_dates (q : Query) : Query :=
  mkQuery (custId q) (employeeId q) (shipperId q) (status q) None None
          (minFreight q) (maxFreight q) (shipCountry q) (shipCity q).

End OrderList.

(** ** PATCH /orders/:id/ship (the orders router, unnamed/part_004) *)

Module ShipRoute.
Import Store Js.

(** The validated body: both fields optional. *)
Record ShipBody := mkShipBody {
  s_shippedDate : option OrderRoutes.IsoDate;
  s_shipperId : option Z
}.

(** [req.body.shippedDate || new Date()], as the instant it is stored
    as. *)
Definition shippedDate_of (body : ShipBody) (now : Z) : Z :=
  match s_shippedDate body with
  | Some d =>
      if truthy (OrderRoutes.body_date (Some d))
      then OrderRoutes.iso_instant d
      else now
  | None => now
  end.

(** [updateData] applied to one row: [shippedDate] always, [shipperId]
    when the body has a truthy one. *)
Definition apply_ship (shippedDate : Z) (shipperId : option Z)
           (o : OrderRow) : OrderRow :=
  mkOrderRow (o_orderId o) (o_custId o) (o_employeeId o) (o_orderDate o)
             (o_requiredDate o) (Some shippedDate)
             (if OrderRoutes.truthy_number shipperId
              then match shipperId with
                   | Some s => s
                   | None => o_shipperId o
                   end
              else o_shipperId o)
             (o_freight o) (o_shipTo o).

(** [Order.update(updateData, { where: { orderId: id } })]. *)
Definition Order_ship (shippedDate : Z) (shipperId : option Z) (id : Z)
           (db : DB) : Z * DB :=
  (count (fun o => o_orderId o =? id) (orders db),
   set_orders
     (map (fun o =>
             if o_orderId o =? id then apply_ship shippedDate shipperId o
             else o)
          (orders db)) db).

(** The handler. *)
Definition ship_order (id : Z) (body : ShipBody) (now : Z) : Handler :=
  without_transaction (
    let shippedDate := shippedDate_of body now in
    let shipperId := s_shipperId body in
    order <- query Auto (OrderModel.findByPk id) ;;
    match order with
    | None => return_ (error_response 404 "Order not found" None)
    | Some order =>
    if truthy (OrderModel.date_field OrderRoutes.instance_ref
                                     (o_shippedDate order))
    then return_ (error_response 400 "Order is already shipped" None)
    else
      store_call Auto (Order_ship shippedDate shipperId id) ;;;
      updatedOrder <- query Auto (OrderModel.findByPk_with_status id) ;;
      ret (ok_response 200 "Order shipped successfully"
             (OrderData updatedOrder))
    end).

End ShipRoute.

(** ** POST and PUT /employees (routes/employees.js) *)

Module EmployeeRoutes.
Import Store Js.

(** A date of the body that passed [isISO8601()]: the string and the
    [Date] that [new Date(string)] makes of it. *)
Record BodyDate := mkBodyDate {
  bd_text : string;
  bd_date : JsDate.Date
}.

Definition truthy_date (v : option BodyDate) : bool :=
  match v with
  | Some d => truthy (Str (bd_text d))
  | None => false
  end.

(** The fields of the body that POST /employees reads; the other
    columns go to the store as they are. *)
Record EmployeeBody := mkEmployeeBody {
  b_mgrId : option Z;
  b_birthDate : option BodyDate;
  b_hireDate : option BodyDate
}.

Definition next_employeeId (db : DB) : Z :=
  1 + fold_right Z.max 0 (map e_employeeId (employees db)).

Definition Employee_findByPk (id : Z) (db : DB) : option EmployeeRow :=
  find (fun e => e_employeeId e =? id) (employees db).

(** [Employee.create(req.body)]. *)
Definition Employee_create (body : EmployeeBody) (db : DB)
  : EmployeeRow * DB :=
  let employee := mkEmployeeRow (next_employeeId db) (b_mgrId body) in
  (employee, set_employees (employee :: employees db) db).

(** routes/employees.js, [router.post('/')]. *)
Definition create_employee (body : EmployeeBody) : Handler :=
  without_transaction (
    (if OrderRoutes.truthy_number (b_mgrId body) then
       manager <- query Auto (fun db =>
         find (fun e => opt_eqb (b_mgrId body) (e_employeeId e))
              (employees db)) ;;
       match manager with
       | None =>
           return_ (error_response 400 "Manager not found"
                      (Some "mgrId"%string))
       | Some _ => ret tt
       end
     else ret tt) ;;;
    (match b_birthDate body, b_hireDate body with
     | Some birth, Some hire =>
         if truthy_date (Some birth) && truthy_date (Some hire) then
           let birthDate := bd_date birth in
           let hireDate := bd_date hire in
           let age :=
             JsDate.getFullYear hireDate - JsDate.getFullYear birthDate in
           if age <? 16 then
             return_ (error_response 400
                        "Employee must be at least 16 years old at hire date"
                        None)
           else ret tt
         else ret tt
     | _, _ => ret tt
     end) ;;;
    employee <- store_call Auto (Employee_create body) ;;
    ret (mkResponse 201 true "Employee created successfully" None NoData)).

(** What [isInt({ min: 1 })] lets through and does not convert: a JSON
    number, or a string of digits, which may begin with a sign or with
    zeros. *)
Inductive IntField :=
| Num (n : Z)
| Text (s : string).

(** The integer that a string of digits denotes, as the store and
    [ToNumber] read it. *)
Fixpoint digits_value (s : string) (acc : Z) : Z :=
  match s with
  | EmptyString => acc
  | String c rest =>
      digits_value rest (10 * acc + (Z.of_nat (nat_of_ascii c) - 48))
  end.

Definition int_of_text (s : string) : Z :=
  match s with
  | String "+" rest => digits_value rest 0
  | String "-" rest => - digits_value rest 0
  | _ => digits_value s 0
  end.

(** [isInt({ min: 1 })], which tests the text of the value: an optional
    sign, then digits and at least one of them, that denote a number
    from 1 on.  A JSON number is a double and is tested by its decimal
    text, which is digits only below 10^21. *)
Definition is_digit (c : ascii) : bool :=
  (48 <=? Z.of_nat (nat_of_ascii c)) && (Z.of_nat (nat_of_ascii c) <=? 57).

Fixpoint all_digits (s : string) : bool :=
  match s with
  | EmptyString => true
  | String c rest => is_digit c && all_digits rest
  end.

Definition isInt (s : string) : bool :=
  let digits s := negb (String.eqb s "") && all_digits s in
  match s with
  | String "+" rest => digits rest
  | String "-" rest => digits rest
  | _ => digits s
  end.

Definition isInt_min1 (s : string) : bool :=
  isInt s && (1 <=? int_of_text s).

Definition valid_mgrId (v : option IntField) : bool :=
  match v with
  | Some (Num n) =>
      (1 <=? n) && (n <? 10 ^ 21) && (Pagination.round53 n =? n)
  | Some (Text s) => isInt_min1 s
  | None => true
  end.

Definition int_value (v : IntField) : Z :=
  match v with
  | Num n => n
  | Text s => int_of_text s
  end.

(** [if (req.body.mgrId)]: a number other than 0, a string other than
    the empty one. *)
Definition truthy_field (v : option IntField) : bool :=
  match v with
  | Some (Num n) => negb (n =? 0)
  | Some (Text s) => negb (String.eqb s "")
  | None => false
  end.

(** [==] on two numbers that are not [NaN]. *)
Definition number_eqb (a b : Pagination.Number) : bool :=
  match a, b with
  | Pagination.Finite x, Pagination.Finite y => x =? y
  | Pagination.PosInfinity, Pagination.PosInfinity => true
  | Pagination.NegInfinity, Pagination.NegInfinity => true
  | _, _ => false
  end.

(** [req.body.mgrId == id] where [id] is the string of the path: two
    strings are compared as strings, a number with the number that
    [ToNumber] makes of the string, both doubles. *)
Definition loose_eq (v : option IntField) (id : string) : bool :=
  match v with
  | Some (Num n) =>
      number_eqb (Pagination.double_of n)
                 (Pagination.double_of (int_of_text id))
  | Some (Text s) => String.eqb s id
  | None => false
  end.

(** The body of PUT /employees/:id as the store sees it: [employeeId],
    which no validator looks at, [mgrId], and whether it holds any other
    column of the table. *)
Record EmployeeUpdate := mkEmployeeUpdate {
  eu_employeeId : option Z;
  eu_mgrId : option IntField;
  eu_other_columns : bool
}.

Definition no_column (body : EmployeeUpdate) : bool :=
  match eu_employeeId body, eu_mgrId body with
  | None, None => negb (eu_other_columns body)
  | _, _ => false
  end.

(** One row after the update: the columns of the body replace the
    row's, the key among them. *)
Definition apply_update (body : EmployeeUpdate) (e : EmployeeRow)
  : EmployeeRow :=
  mkEmployeeRow
    (match eu_employeeId body with Some k => k | None => e_employeeId e end)
    (match eu_mgrId body with
     | Some v => Some (int_value v)
     | None => e_mgrId e
     end).

(** [Employee.update(req.body, { where: { employeeId: id } })]: the
    number of rows and the table.  Without a column to set no statement
    is sent and the number is 0; [None] is the error of the store when
    the new key is the key of another row. *)
Definition Employee_update (body : EmployeeUpdate) (id : Z) (db : DB)
  : option (Z * DB) :=
  if no_column body then Some (0, db)
  else
    let hit e := e_employeeId e =? id in
    let taken :=
      match eu_employeeId body with
      | Some k =>
          existsb hit (employees db)
          && (existsb (fun e => negb (hit e) && (e_employeeId e =? k))
                      (employees db)
              || (1 <? count hit (employees db)))
      | None => false
      end in
    if taken then None
    else
      Some (count hit (employees db),
            set_employees
              (map (fun e => if hit e then apply_update body e else e)
                   (employees db)) db).

(** A call of the store that the store may refuse. *)
Definition store_try {A} (f : DB -> option (A * DB)) : M A :=
  fun w =>
    match faults w with
    | true :: rest => (Exn, mkWorld (committed w) (tx w) rest)
    | _ =>
        match f (committed w) with
        | Some (a, db) => (Val a, mkWorld db (tx w) (tl (faults w)))
        | None => (Exn, mkWorld (committed w) (tx w) (tl (faults w)))
        end
    end.

(** routes/employees.js, [router.put('/:id')]; [id] is
    [req.params.id], a string. *)
Definition update_employee (id : string) (body : EmployeeUpdate)
  : Handler :=
  without_transaction (
    existingEmployee <- query Auto (Employee_findByPk (int_of_text id)) ;;
    match existingEmployee with
    | None => return_ (error_response 404 "Employee not found" None)
    | Some _ =>
    (if truthy_field (eu_mgrId body) then
       if loose_eq (eu_mgrId body) id then
         return_ (error_response 400 "Employee cannot be their own manager"
                    (Some "mgrId"%string))
       else
         manager <- query Auto (fun db =>
           match eu_mgrId body with
           | Some v => Employee_findByPk (int_value v) db
           | None => None
           end) ;;
         match manager with
         | None =>
             return_ (error_response 400 "Manager not found"
                        (Some "mgrId"%string))
         | Some _ => ret tt
         end
     else ret tt) ;;;
    updatedRows <- store_try (Employee_update body (int_of_text id)) ;;
    if updatedRows =? 0 then
      return_ (error_response 404 "Employee not found" None)
    else
      updatedEmployee <- query Auto (Employee_findByPk (int_of_text id)) ;;
      ret (ok_response 200 "Employee updated successfully" NoData)
    end).

(** No employee is their own manager. *)
Definition no_self_manager (db : DB) : Prop :=
  forall e, In e (employees db) -> e_mgrId e <> Some (e_employeeId e).

(** The tree of GET /employees/hierarchy: an employee with the trees of
    the employees that report to them. *)
Inductive Tree := Node (employee : EmployeeRow) (subordinates : list Tree).

(** All the results, or nothing when one is missing. *)
Fixpoint all_some {A} (l : list (option A)) : option (list A) :=
  match l with
  | [] => Some []
  | None :: _ => None
  | Some a :: rest =>
      match all_some rest with
      | Some r => Some (a :: r)
      | None => None
      end
  end.

(** [emp.mgrId === managerId], on keys that are numbers or [null]. *)
Definition same_manager (mgrId managerId : option Z) : bool :=
  match mgrId, managerId with
  | None, None => true
  | Some a, Some b => a =? b
  | _, _ => false
  end.

(** [buildHierarchy(employees, managerId)]; the recursion of the source
    has no bound of its own, so the calls still allowed are counted and
    [None] says the count ran out. *)
Fixpoint buildHierarchy (fuel : nat) (employees : list EmployeeRow)
         (managerId : option Z) : option (list Tree) :=
  match fuel with
  | O => None
  | S fuel =>
      all_some
        (map (fun emp =>
                match buildHierarchy fuel employees
                                     (Some (e_employeeId emp)) with
                | Some subordinates => Some (Node emp subordinates)
                | None => None
                end)
             (filter (fun emp => same_manager (e_mgrId emp) managerId)
                     employees))
  end.

(** The employees of a forest, parents before their reports. *)
Fixpoint tree_employees (t : Tree) : list EmployeeRow :=
  match t with
  | Node e subs => e :: flat_map tree_employees subs
  end.

Definition forest_employees (f : list Tree) : list EmployeeRow :=
  flat_map tree_employees f.

(** [descends employees managerId e]: [e] reports to [managerId], directly
    or through a line of managers. *)
Inductive descends (employees : list EmployeeRow) (managerId : option Z)
  : EmployeeRow -> Prop :=
| descends_child (e : EmployeeRow) :
    In e employees ->
    same_manager (e_mgrId e) managerId = true ->
    descends employees managerId e
| descends_step (p c : EmployeeRow) :
    descends employees managerId p ->
    In c employees ->
    e_mgrId c = Some (e_employeeId p) ->
    descends employees managerId c.

(** A line of managers, the lowest employee first and an employee without
    manager last. *)
Inductive chain (employees : list EmployeeRow) : list EmployeeRow -> Prop :=
| chain_root (r : EmployeeRow) :
    In r employees -> e_mgrId r = None -> chain employees [r]
| chain_step (c p : EmployeeRow) (rest : list EmployeeRow) :
    chain employees (p :: rest) ->
    In c employees ->
    e_mgrId c = Some (e_employeeId p) ->
    chain employees (c :: p :: rest).

End EmployeeRoutes.

(** ** The references between the tables *)

Module Integrity.
Import Store.

(** Every foreign key of the schema points at a row that exists: the
    order and the product of an order line, the category of a product,
    the customer, shipper and employee of an order, the manager of an
    employee. *)
Definition referential_integrity (db : DB) : Prop :=
  (forall d, In d (orderDetails db) ->
     (exists o, In o (orders db) /\ o_orderId o = od_orderId d)
     /\ (exists p, In p (products db) /\ p_productId p = od_productId d))
  /\ (forall p c, In p (products db) -> p_categoryId p = Some c ->
        In c (categories db))
  /\ (forall o, In o (orders db) ->
        In (o_custId o) (customers db)
        /\ In (o_shipperId o) (shippers db)
        /\ (forall e, o_employeeId o = Some e ->
              exists r, In r (employees db) /\ e_employeeId r = e))
  /\ (forall e m, In e (employees db) -> e_mgrId e = Some m ->
        exists r, In r (employees db) /\ e_employeeId r = m).

End Integrity.

(** ** Computed product fields and statistics (routes/products.js,
       routes/categories.js) *)

Module ProductLogic.
Import Js.

(** What [product.toJSON()] holds of the columns the helpers read; the
    DECIMAL(10,2) price comes back as a decimal string and is carried as
    its number of hundredths. *)
Record ProductJson := mkProductJson {
  stock_fields : ProductData;
  unitPrice : option OrderTotals.decimal;
  unitsOnOrder : nullable;
  categoryId : nullable;
  supplierId : nullable
}.

(** The flags the list handler of routes/products.js adds to each
    product. *)
Definition isActive (productData : ProductJson) : bool :=
  negb (discontinued (stock_fields productData)).

Definition isLowStock (productData : ProductJson) : bool :=
  (toNumber (unitsInStock (stock_fields productData)) <? 10)
  && (0 <? toNumber (unitsInStock (stock_fields productData))).

Definition isOutOfStock (productData : ProductJson) : bool :=
  strict_eq_zero (unitsInStock (stock_fields productData)).

Definition needsReorder (productData : ProductJson) : bool :=
  toNumber (unitsInStock (stock_fields productData))
  <=? or_default (reorderLevel (stock_fields productData)) 0.

Definition stockStatus (productData : ProductJson) : StockStatus :=
  Products.getProductStockStatus (stock_fields productData).

Definition stockValue (productData : ProductJson) : float :=
  (OrderTotals.parseFloat_or_0 (unitPrice productData)
   * OrderTotals.parseInt_or_0 (unitsInStock (stock_fields productData)))%float.

Definition totalValue (productData : ProductJson) : float :=
  (OrderTotals.parseFloat_or_0 (unitPrice productData)
   * (OrderTotals.parseInt_or_0 (unitsInStock (stock_fields productData))
      + OrderTotals.parseInt_or_0 (unitsOnOrder productData)))%float.

Inductive PriceCategory := Budget | Standard | Premium | Luxury.

(** [productData.unitPrice < 20] and so on: the decimal string is
    compared as the number it denotes, [null] as 0; in hundredths. *)
Definition price_number (v : option OrderTotals.decimal) : Z :=
  match v with Some d => d | None => 0 end.

Definition priceCategory (productData : ProductJson) : PriceCategory :=
  if price_number (unitPrice productData) <? 2000 then Budget
  else if price_number (unitPrice productData) <? 5000 then Standard
  else if price_number (unitPrice productData) <? 10000 then Premium
  else Luxury.

(** [!product.unitPrice || product.unitPrice <= 0]: a decimal string is
    truthy, also ["0.00"], so the test is on its number. *)
Definition no_price (v : option OrderTotals.decimal) : bool :=
  match v with
  | None => true
  | Some d => d <=? 0
  end.

(** routes/products.js, [getProductHealthScore]. *)
Definition getProductHealthScore (product : ProductJson) : Z :=
  let score := 100 in
  if discontinued (stock_fields product) then 0
  else
    let score :=
      if strict_eq_zero (unitsInStock (stock_fields product))
      then score - 50
      else if toNumber (unitsInStock (stock_fields product)) <? 10
           then score - 25
           else score in
    let score := if no_price (unitPrice product) then score - 20 else score in
    let score :=
      if negb (OrderRoutes.truthy_number (categoryId product))
      then score - 15 else score in
    let score :=
      if negb (OrderRoutes.truthy_number (supplierId product))
      then score - 10 else score in
    Z.max 0 score.

(** [prices]: the prices that are above 0. *)
Definition prices (products : list ProductJson) : list float :=
  filter (fun p => (0 <? p)%float)
         (map (fun p => OrderTotals.parseFloat_or_0 (unitPrice p)) products).

(** [l.reduce((a, b) => a + b, 0)]. *)
Definition sum (l : list float) : float :=
  fold_left PrimFloat.add l PrimFloat.zero.

(** [Math.min(...l)] and [Math.max(...l)] on numbers none of which is
    NaN, as [prices] are. *)
Definition Math_min (l : list float) : float :=
  fold_left (fun m x => if (x <? m)%float then x else m) l
            PrimFloat.infinity.

Definition Math_max (l : list float) : float :=
  fold_left (fun m x => if (m <? x)%float then x else m) l
            PrimFloat.neg_infinity.

Definition averagePrice_of (prices : list float) : float :=
  if (0 <? List.length prices)%nat
  then (sum prices
        / OrderTotals.float_of_Z (Z.of_nat (List.length prices)))%float
  else PrimFloat.zero.

Definition minPrice_of (prices : list float) : float :=
  if (0 <? List.length prices)%nat then Math_min prices else PrimFloat.zero.

Definition maxPrice_of (prices : list float) : float :=
  if (0 <? List.length prices)%nat then Math_max prices else PrimFloat.zero.

Definition stockValues (products : list ProductJson) : list float :=
  map stockValue products.

(** The object [calculateProductStatistics] returns; the one it returns
    for no products has no [activeProducts] key. *)
Record ProductStatistics := mkProductStatistics {
  totalProducts : Z;
  activeProducts : option Z;
  discontinuedProducts : Z;
  inStockProducts : Z;
  outOfStockProducts : Z;
  lowStockProducts : Z;
  averagePrice : float;
  minPrice : float;
  maxPrice : float;
  totalStockValue : float
}.

(** routes/products.js, [calculateProductStatistics]. *)
Definition calculateProductStatistics (products : list ProductJson)
  : ProductStatistics :=
  match products with
  | [] =>
      mkProductStatistics 0 None 0 0 0 0 PrimFloat.zero PrimFloat.zero
                          PrimFloat.zero PrimFloat.zero
  | _ =>
      let activeProducts :=
        filter (fun p => negb (discontinued (stock_fields p))) products in
      mkProductStatistics
        (Z.of_nat (List.length products))
        (Some (Z.of_nat (List.length activeProducts)))
        (Z.of_nat (List.length products)
         - Z.of_nat (List.length activeProducts))
        (Store.count
           (fun p => 0 <? toNumber (unitsInStock (stock_fields p))) products)
        (Store.count
           (fun p => strict_eq_zero (unitsInStock (stock_fields p))) products)
        (Store.count
           (fun p => (toNumber (unitsInStock (stock_fields p)) <? 10)
                     && (0 <? toNumber (unitsInStock (stock_fields p))))
           products)
        (averagePrice_of (prices products))
        (minPrice_of (prices products))
        (maxPrice_of (prices products))
        (sum (stockValues products))
  end.

(** The object [calculateCategoryStatistics] returns. *)
Record CategoryStatistics := mkCategoryStatistics {
  c_totalProducts : Z;
  c_averagePrice : float;
  c_minPrice : float;
  c_maxPrice : float;
  c_totalStockValue : float;
  c_activeProducts : Z;
  c_discontinuedProducts : Z;
  c_lowStockProducts : Z
}.

(** routes/categories.js, [calculateCategoryStatistics]. *)
Definition calculateCategoryStatistics (products : list ProductJson)
  : CategoryStatistics :=
  match products with
  | [] =>
      mkCategoryStatistics 0 PrimFloat.zero PrimFloat.zero PrimFloat.zero
                           PrimFloat.zero 0 0 0
  | _ =>
      let activeProducts :=
        filter (fun p => negb (discontinued (stock_fields p))) products in
      mkCategoryStatistics
        (Z.of_nat (List.length products))
        (averagePrice_of (prices products))
        (minPrice_of (prices products))
        (maxPrice_of (prices products))
        (sum (stockValues products))
        (Z.of_nat (List.length activeProducts))
        (Z.of_nat (List.length products)
         - Z.of_nat (List.length activeProducts))
        (Store.count
           (fun p => toNumber (unitsInStock (stock_fields p)) <? 10) products)
  end.

End ProductLogic.

(** ** GET /products/by-category/:categoryId (routes/products.js) *)

Module ByCategory.
Import Js.

Inductive PriceRange := budget | standard | premium | luxury.

(** [where.unitsInStock]: [{ [Op.gt]: 0 }] or the number [0]. *)
Inductive StockCond := Op_gt_0 | Is_0.

(** [where.unitPrice], bounds in hundredths: [Op.gte] and [Op.lt]. *)
Record PriceCond := mkPriceCond {
  Op_gte : option Z;
  Op_lt : option Z
}.

Record Where := mkWhere {
  w_categoryId : Z;
  w_unitsInStock : option StockCond;
  w_unitPrice : option PriceCond
}.

(** The where-clause of the handler, from [req.query.inStock] and
    [req.query.priceRange]. *)
Definition build_where (categoryId : Z) (inStock : option BoolParam)
           (priceRange : option PriceRange) : Where :=
  mkWhere categoryId
    (match inStock with
     | None => None
     | Some p => Some (if is_true_literal p then Op_gt_0 else Is_0)
     end)
    (match priceRange with
     | None => None
     | Some budget => Some (mkPriceCond None (Some 2000))
     | Some standard => Some (mkPriceCond (Some 2000) (Some 5000))
     | Some premium => Some (mkPriceCond (Some 5000) (Some 10000))
     | Some luxury => Some (mkPriceCond (Some 10000) None)
     end).

(** The store's reading of the clause: a comparison with NULL selects
    nothing. *)
Definition stock_matches (c : option StockCond) (v : nullable) : bool :=
  match c, v with
  | None, _ => true
  | Some _, None => false
  | Some Op_gt_0, Some n => 0 <? n
  | Some Is_0, Some n => n =? 0
  end.

Definition price_matches (c : option PriceCond)
           (v : option OrderTotals.decimal) : bool :=
  match c, v with
  | None, _ => true
  | Some _, None => false
  | Some c, Some d =>
      (match Op_gte c with Some lo => lo <=? d | None => true end)
      && (match Op_lt c with Some hi => d <? hi | None => true end)
  end.

Definition matches (w : Where) (p : ProductLogic.ProductJson) : bool :=
  ProductList.eq_matches (Some (w_categoryId w)) (ProductLogic.categoryId p)
  && stock_matches (w_unitsInStock w)
                   (unitsInStock (ProductLogic.stock_fields p))
  && price_matches (w_unitPrice w) (ProductLogic.unitPrice p).

Definition label (r : PriceRange) : ProductLogic.PriceCategory :=
  match r with
  | budget => ProductLogic.Budget
  | standard => ProductLogic.Standard
  | premium => ProductLogic.Premium
  | luxury => ProductLogic.Luxury
  end.

End ByCategory.

(** ** Customer tiers (routes/categories.js) *)

Module Customers.

Inductive Tier := Bronze | Silver | Gold | Platinum.

(** [getCustomerTier(orderCount, totalSpent)]; [totalSpent] is the
    finite double that [parseFloat] made of the SQL sum, taken as the
    rational it is. *)
Definition getCustomerTier (orderCount : Z) (totalSpent : Q) : Tier :=
  if (20 <=? orderCount) && Qle_bool 10000 totalSpent then Platinum
  else if (10 <=? orderCount) && Qle_bool 5000 totalSpent then Gold
  else if (5 <=? orderCount) && Qle_bool 1000 totalSpent then Silver
  else Bronze.

Definition rank (t : Tier) : Z :=
  match t with
  | Bronze => 0
  | Silver => 1
  | Gold => 2
  | Platinum => 3
  end.

End Customers.

(** ** The error middleware (middleware/errorHandler.js) *)

Module ErrorHandler.

(** An item of [err.errors]. *)
Record ErrorItem := mkErrorItem {
  path : option string;
  item_message : string;
  value : Js.value
}.

(** What the handler reads of the error it is given: its classes, and
    the properties [name], [message], [statusCode], [errors], [fields],
    [field], [status], [body] and [stack], each of which may be
    missing. *)
Record Err := mkErr {
  is_ValidationError : bool;
  is_SyntaxError : bool;
  name : option string;
  err_message : option string;
  err_statusCode : option Z;
  errors : option (list ErrorItem);
  fields : option (list string);
  err_field : option string;
  status : option Z;
  has_body : bool;
  stack : option string
}.

(** An entry of [errors] in the answer: rebuilt by the validation block,
    or the item of the error itself, copied by [{ ...err }]. *)
Inductive Reported :=
| Rebuilt (field : option string) (message : string) (value : Js.value)
| Copied (item : ErrorItem).

(** The local [error]. *)
Record Local := mkLocal {
  l_message : option string;
  l_statusCode : option Z;
  l_errors : option (list Reported);
  l_field : option string
}.

(** The JSON body under [error] and the status it is sent with. *)
Record Sent := mkSent {
  http_status : Z;
  message : string;
  statusCode : Z;
  sent_errors : option (list Reported);
  sent_field : option string;
  sent_stack : option string
}.

Definition name_is (err : Err) (n : string) : bool :=
  match name err with
  | Some s => String.eqb s n
  | None => false
  end.

(** [errorHandler(err, req, res, next)]; [development] says whether
    [process.env.NODE_ENV] is ['development'].  [None] is a TypeError
    thrown by the handler itself. *)
Definition errorHandler (err : Err) (development : bool) : option Sent :=
  let error :=
    mkLocal (err_message err) (err_statusCode err)
            (option_map (map Copied) (errors err)) (err_field err) in
  match
    (if is_ValidationError err then
       match errors err with
       | None => None
       | Some items =>
           Some (mkLocal
                   (Some ("Validation Error: "
                          ++ String.concat ", "
                                           (map item_message items))%string)
                   (Some 400)
                   (Some (map (fun e => Rebuilt (path e) (item_message e)
                                                (value e)) items))
                   None)
       end
     else Some error)
  with
  | None => None
  | Some error =>
  match
    (if name_is err "SequelizeUniqueConstraintError" then
       match errors err with
       | Some (first :: _) =>
           Some (mkLocal (Some "Duplicate field value entered"%string)
                         (Some 400) None (path first))
       | _ => None
       end
     else Some error)
  with
  | None => None
  | Some error =>
  let error :=
    if name_is err "SequelizeForeignKeyConstraintError" then
      mkLocal (Some "Invalid reference to related record"%string) (Some 400)
              None
              (match fields err with
               | Some (f :: _) =>
                   if ProductList.truthy_string (Some f) then Some f
                   else Some "unknown"%string
               | _ => Some "unknown"%string
               end)
    else error in
  let error :=
    if name_is err "SequelizeConnectionError" then
      mkLocal (Some "Database connection error"%string) (Some 500) None None
    else error in
  let error :=
    if name_is err "CastError" then
      mkLocal (Some "Resource not found"%string) (Some 404) None None
    else error in
  let error :=
    if is_SyntaxError err
       && match status err with Some s => s =? 400 | None => false end
       && has_body err
    then mkLocal (Some "Invalid JSON format"%string) (Some 400) None None
    else error in
  let statusCode := Js.or_default (l_statusCode error) 500 in
  let message :=
    if ProductList.truthy_string (l_message error)
    then match l_message error with
         | Some m => m
         | None => "Internal Server Error"%string
         end
    else "Internal Server Error"%string in
  Some (mkSent statusCode message statusCode
               (l_errors error)
               (if ProductList.truthy_string (l_field error)
                then l_field error else None)
               (if development then stack err else None))
  end
  end.

End ErrorHandler.

(** ** Login, registration and passwords (routes/login.js and the User
       model, second part of models/Territory.js) *)

Module Auth.

(** A row of Users; [Password] holds what the hooks stored. *)
Record UserRow := mkUserRow {
  PKID : Z;
  UserName : string;
  Password : string;
  admin : Z
}.

(** [User.prototype.toSafeObject]. *)
Record SafeUser := mkSafeUser {
  s_PKID : Z;
  s_UserName : string;
  s_admin : Z
}.

Definition toSafeObject (this : UserRow) : SafeUser :=
  mkSafeUser (PKID this) (UserName this) (admin this).

(** What a controller sends. *)
Record Answer := mkAnswer {
  status : Z;
  success : bool;
  error : option string;
  message : option string;
  details : option (list string);
  token : option string;
  user : option SafeUser
}.

Definition failure (code : Z) (msg : string) : Answer :=
  mkAnswer code false (Some msg) None None None None.

(** The errors the catch blocks tell apart, by [error.name]. *)
Inductive Error :=
| SequelizeValidationError (messages : list string)
| SequelizeUniqueConstraintError
| OtherError.

(** The table, and which of the coming store calls throw what. *)
Record World := mkWorld {
  users : list UserRow;
  faults : list (option Error)
}.

Inductive Result (A : Type) :=
| Val (a : A)
| Ret (r : Answer)
| Exn (e : Error).
Arguments Val {A} a.
Arguments Ret {A} r.
Arguments Exn {A} e.

Definition M (A : Type) : Type := World -> Result A * World.

Definition ret {A} (a : A) : M A := fun w => (Val a, w).

Definition bind {A B} (m : M A) (k : A -> M B) : M B :=
  fun w =>
    match m w with
    | (Val a, w') => k a w'
    | (Ret r, w') => (Ret r, w')
    | (Exn e, w') => (Exn e, w')
    end.

Notation "x <- m ;; k" := (bind m (fun x => k))
  (at level 61, m at next level, right associativity).
Notation "m ;;; k" := (bind m (fun _ => k))
  (at level 61, right associativity).

Definition return_ {A} (r : Answer) : M A := fun w => (Ret r, w).

Definition throw {A} (e : Error) : M A := fun w => (Exn e, w).

(** A call to the store: it throws when the plan says so. *)
Definition store_call {A} (f : list UserRow -> A * list UserRow) : M A :=
  fun w =>
    match faults w with
    | Some e :: rest => (Exn e, mkWorld (users w) rest)
    | _ =>
        let (a, users') := f (users w) in
        (Val a, mkWorld users' (tl (faults w)))
    end.

Definition query {A} (f : list UserRow -> A) : M A :=
  store_call (fun us => (f us, us)).

(** [try { body } catch (error) { handler }]. *)
Definition try_catch (body : M Answer) (handler : Error -> Answer)
  : World -> Answer * World :=
  fun w =>
    match body w with
    | (Val r, w') => (r, w')
    | (Ret r, w') => (r, w')
    | (Exn e, w') => (handler e, w')
    end.

Record Credentials := mkCredentials {
  c_UserName : option string;
  c_Password : option string
}.

Record Registration := mkRegistration {
  r_UserName : option string;
  r_Password : option string;
  r_admin : bool
}.

Record PasswordChange := mkPasswordChange {
  currentPassword : option string;
  newPassword : option string
}.

Definition text (v : option string) : string :=
  match v with Some s => s | None => ""%string end.

Section Controllers.

(** The libraries and the store's own rules, left open: how the store
    compares user names, [bcrypt.hash] with the salt it draws,
    [bcrypt.compare], [jwt.sign] on the payload with the secret, the
    life time and the clock it stamps the token with ([None] when it
    throws), and the messages of the model's validators for a user name
    and for a plain password. *)
Variable name_eqb : string -> string -> bool.
Variable bcrypt_hash : string -> string -> string.
Variable bcrypt_compare : string -> string -> bool.
Variable jwt_sign :
  SafeUser -> option string -> string -> Z -> option string.
Variable validate_UserName : string -> list string.
Variable validate_Password : string -> list string.

(** [process.env.JWT_SECRET] and [process.env.JWT_EXPIRES_IN]. *)
Variable JWT_SECRET : option string.
Variable JWT_EXPIRES_IN : option string.

Definition expiresIn : string :=
  if ProductList.truthy_string JWT_EXPIRES_IN then text JWT_EXPIRES_IN
  else "24h"%string.

(** [jwt.sign({ id, UserName, admin }, process.env.JWT_SECRET,
    { expiresIn })] at the instant [now]. *)
Definition sign (u : UserRow) (now : Z) : M string :=
  match jwt_sign (toSafeObject u) JWT_SECRET expiresIn now with
  | Some token => ret token
  | None => throw OtherError
  end.

(** [User.findByUserName] and [User.findByPk]. *)
Definition findByUserName (userName : string) (us : list UserRow)
  : option UserRow :=
  find (fun u => name_eqb (UserName u) userName) us.

Definition findByPk (id : Z) (us : list UserRow) : option UserRow :=
  find (fun u => PKID u =? id) us.

(** [user.validatePassword(password)]. *)
Definition validatePassword (this : UserRow) (password : string) : bool :=
  bcrypt_compare password (Password this).

Definition next_PKID (us : list UserRow) : Z :=
  1 + fold_right Z.max 0 (map PKID us).

(** [User.create({ UserName, Password, admin })]: the validators run on
    the plain values, then the [beforeCreate] hook hashes the password,
    then the row is stored. *)
Definition User_create (userName password : string) (admin : Z)
           (salt : string) : M UserRow :=
  match validate_UserName userName ++ validate_Password password with
  | [] =>
      let stored :=
        if ProductList.truthy_string (Some password)
        then bcrypt_hash password salt
        else password in
      store_call (fun us =>
        let row := mkUserRow (next_PKID us) userName stored admin in
        (row, us ++ [row]))
  | messages => throw (SequelizeValidationError messages)
  end.

(** [user.update({ Password: newPassword })]: nothing happens when the
    value is the one the row holds; otherwise the validators run on the
    plain password, the [beforeUpdate] hook hashes it and the row is
    stored. *)
Definition User_update_Password (this : UserRow) (newPassword : string)
           (salt : string) : M unit :=
  if String.eqb newPassword (Password this) then ret tt
  else
    match validate_Password newPassword with
    | [] =>
        let stored := bcrypt_hash newPassword salt in
        store_call (fun us =>
          (tt, map (fun u => if PKID u =? PKID this
                             then mkUserRow (PKID u) (UserName u) stored
                                            (admin u)
                             else u) us))
    | messages => throw (SequelizeValidationError messages)
    end.

(** routes/login.js, [login]; [now] is the instant of the request. *)
Definition login (body : Credentials) (now : Z)
  : World -> Answer * World :=
  try_catch (
    if negb (ProductList.truthy_string (c_UserName body))
       || negb (ProductList.truthy_string (c_Password body))
    then return_ (failure 400 "UserName and Password are required")
    else
      user <- query (findByUserName (text (c_UserName body))) ;;
      match user with
      | None => return_ (failure 401 "Invalid credentials")
      | Some user =>
          if negb (validatePassword user (text (c_Password body)))
          then return_ (failure 401 "Invalid credentials")
          else
            token <- sign user now ;;
            ret (mkAnswer 200 true None (Some "Login successful"%string)
                          None (Some token) (Some (toSafeObject user)))
      end)
    (fun _ => failure 500 "Login failed").

(** routes/login.js, [register]; [salt] is the salt [bcrypt.hash]
    draws, [now] the instant of the request. *)
Definition register (body : Registration) (salt : string) (now : Z)
  : World -> Answer * World :=
  try_catch (
    if negb (ProductList.truthy_string (r_UserName body))
       || negb (ProductList.truthy_string (r_Password body))
    then return_ (failure 400 "UserName and Password are required")
    else
      existingUser <- query (findByUserName (text (r_UserName body))) ;;
      match existingUser with
      | Some _ => return_ (failure 409 "User already exists")
      | None =>
          newUser <- User_create (text (r_UserName body))
                                 (text (r_Password body))
                                 (if r_admin body then 1 else 0) salt ;;
          token <- sign newUser now ;;
          ret (mkAnswer 201 true None
                        (Some "User registered successfully"%string)
                        None (Some token) (Some (toSafeObject newUser)))
      end)
    (fun error =>
       match error with
       | SequelizeValidationError messages =>
           mkAnswer 400 false (Some "Validation failed"%string) None
                    (Some messages) None None
       | SequelizeUniqueConstraintError => failure 409 "User already exists"
       | OtherError => failure 500 "Registration failed"
       end).

(** routes/login.js, [changePassword]; [pkid] is [req.user.PKID]. *)
Definition changePassword (pkid : Z) (body : PasswordChange)
           (salt : string) : World -> Answer * World :=
  try_catch (
    if negb (ProductList.truthy_string (currentPassword body))
       || negb (ProductList.truthy_string (newPassword body))
    then return_ (failure 400
                    "Current password and new password are required")
    else
      user <- query (findByPk pkid) ;;
      match user with
      | None => return_ (failure 404 "User not found")
      | Some user =>
          if negb (validatePassword user (text (currentPassword body)))
          then return_ (failure 400 "Current password is incorrect")
          else
            User_update_Password user (text (newPassword body)) salt ;;;
            ret (mkAnswer 200 true None
                          (Some "Password changed successfully"%string)
                          None None None)
      end)
    (fun _ => failure 500 "Failed to change password").

End Controllers.

End Auth.

(** ** More examples *)

Module Examples.
Import Store.

(** GET /orders?status=pending&fromDate=2024-06-01. *)
Definition pending_since_june : OrderList.Query :=
  OrderList.mkQuery None None None (Some OrderList.pending)
    (Some (OrderRoutes.mkIsoDate "2024-06-01" 1717200000000)) None
    None None None None.

(** Five employees: 1 is at the top, 2 and 3 report to 1, and 4 and 5
    report to each other. *)
Definition staff : list EmployeeRow :=
  [mkEmployeeRow 1 None; mkEmployeeRow 2 (Some 1); mkEmployeeRow 3 (Some 1);
   mkEmployeeRow 4 (Some 5); mkEmployeeRow 5 (Some 4)].

(** A product of category 1 priced 18.00, with 39 units in stock, and
    one without price, out of stock and discontinued. *)
Definition chai_json : ProductLogic.ProductJson :=
  ProductLogic.mkProductJson (mkProductData false (Some 39) (Some 10))
                             (Some 1800) (Some 0) (Some 1) (Some 1).

(** A product on sale whose unitsInStock is null. *)
Definition null_stock_json : ProductLogic.ProductJson :=
  ProductLogic.mkProductJson (mkProductData false None (Some 10))
                             (Some 1800) None (Some 1) (Some 1).

Definition old_stock_json : ProductLogic.ProductJson :=
  ProductLogic.mkProductJson (mkProductData true (Some 0) None)
                             None None (Some 1) None.

(** Stand-ins for the libraries of the login routes: a hash that marks
    the password, a token that names the user, validators that ask for
    six characters. *)
Definition mark_hash (password salt : string) : string :=
  ("$" ++ password)%string.

Definition mark_compare (password hashed : string) : bool :=
  String.eqb hashed ("$" ++ password)%string.

Definition name_token (u : Auth.SafeUser) (secret : option string)
           (expiresIn : string) (now : Z) : option string :=
  if ProductList.truthy_string secret
  then Some ("token-for-" ++ Auth.s_UserName u ++ "-at-"
             ++ Store.show now)%string
  else None.

Definition any_name (userName : string) : list string := [].

Definition six_characters (password : string) : list string :=
  if (String.length password <? 6)%nat
  then ["Validation len on Password failed"%string]
  else [].

Definition ann : Auth.Registration :=
  Auth.mkRegistration (Some "ann@example.com"%string)
                      (Some "secret1"%string) false.

Definition ann_row : Auth.UserRow :=
  Auth.mkUserRow 1 "ann@example.com" "$secret1" 0.

(** A unique-constraint error as the ORM raises it for a user name that
    is taken: it is a validation error too, with one item. *)
Definition name_taken : ErrorHandler.Err :=
  ErrorHandler.mkErr true false (Some "SequelizeUniqueConstraintError"%string)
    (Some "Validation error"%string) None
    (Some [ErrorHandler.mkErrorItem (Some "UserName"%string)
             "UserName must be unique" (Js.Str "ann@example.com")])
    None None None false None.

(** The same without items. *)
Definition no_items : ErrorHandler.Err :=
  ErrorHandler.mkErr true false (Some "SequelizeUniqueConstraintError"%string)
    (Some "Validation error"%string) None (Some []) None None None false
    None.

End Examples.

(** * Properties *)

(** ** Stock status *)

(** C2, as the code has it.  Each ladder is characterised by what holds of
    the product for every status it can return: routes/products.js tests
    Low Stock (fewer than 10 units) before Reorder Required, so Reorder
    Required is returned only from 10 units up; routes/categories.js has no
    Reorder Required rung; the model's own getStockStatus calls Low Stock
    what is at or below the reorder level and never returns Reorder
    Required.  On the two ladders of the routes, a discontinued product is
    always Discontinued and a product that is not discontinued with 0
    units is always Out of Stock. *)
Theorem stockStatus_ladders :
  (forall p : ProductData,
      match Products.getProductStockStatus p with
      | Discontinued => discontinued p = true
      | OutOfStock => discontinued p = false /\ unitsInStock p = Some 0
      | LowStock =>
          discontinued p = false /\ unitsInStock p <> Some 0
          /\ Js.toNumber (unitsInStock p) < 10
      | ReorderRequired =>
          discontinued p = false
          /\ 10 <= Js.toNumber (unitsInStock p)
             <= Js.or_default (reorderLevel p) 0
      | InStock =>
          discontinued p = false
          /\ 10 <= Js.toNumber (unitsInStock p)
          /\ Js.or_default (reorderLevel p) 0 < Js.toNumber (unitsInStock p)
      end)
  /\ (forall p : ProductData,
      match Categories.getProductStockStatus p with
      | Discontinued => discontinued p = true
      | OutOfStock => discontinued p = false /\ unitsInStock p = Some 0
      | LowStock =>
          discontinued p = false /\ unitsInStock p <> Some 0
          /\ Js.toNumber (unitsInStock p) < 10
      | ReorderRequired => False
      | InStock =>
          discontinued p = false /\ 10 <= Js.toNumber (unitsInStock p)
      end)
  /\ (forall p : ProductData,
      match ProductModel.getStockStatus p with
      | Discontinued => discontinued p = true
      | OutOfStock =>
          discontinued p = false /\ Js.or_default (unitsInStock p) 0 = 0
      | LowStock =>
          discontinued p = false
          /\ 0 < Js.or_default (unitsInStock p) 0
              <= Js.or_default (reorderLevel p) 0
      | ReorderRequired => False
      | InStock =>
          discontinued p = false
          /\ Js.or_default (unitsInStock p) 0 <> 0
          /\ (Js.or_default (unitsInStock p) 0 <= 0
              \/ Js.or_default (reorderLevel p) 0
                 < Js.or_default (unitsInStock p) 0)
      end)
  /\ (forall units reorder,
         Products.getProductStockStatus (mkProductData true units reorder)
         = Discontinued
         /\ Categories.getProductStockStatus (mkProductData true units reorder)
            = Discontinued)
  /\ (forall reorder,
         Products.getProductStockStatus (mkProductData false (Some 0) reorder)
         = OutOfStock
         /\ Categories.getProductStockStatus
              (mkProductData false (Some 0) reorder)
            = OutOfStock).
Proof.
  split; [|split; [|split; [|split]]].
  - intros [d u r]. unfold Products.getProductStockStatus. cbn.
    destruct d; [reflexivity|].
    destruct u as [u|]; cbn.
    + destruct (Z.eqb_spec u 0) as [->|Hu]; [auto|].
      destruct (Z.ltb_spec u 10).
      * split; [reflexivity|]. split; [congruence | assumption].
      * destruct (Z.leb_spec u (Js.or_default r 0)).
        -- split; [reflexivity | lia].
        -- split; [reflexivity | lia].
    + split; [reflexivity|]. split; [discriminate | lia].
  - intros [d u r]. unfold Categories.getProductStockStatus. cbn.
    destruct d; [reflexivity|].
    destruct u as [u|]; cbn.
    + destruct (Z.eqb_spec u 0) as [->|Hu]; [auto|].
      destruct (Z.ltb_spec u 10).
      * split; [reflexivity|]. split; [congruence | assumption].
      * split; [reflexivity | assumption].
    + split; [reflexivity|]. split; [discriminate | lia].
  - intros [d u r].
    unfold ProductModel.getStockStatus, ProductModel.isDiscontinued,
      ProductModel.isOutOfStock, ProductModel.isLowStock,
      ProductModel.stock, ProductModel.reorder.
    cbn [discontinued unitsInStock reorderLevel].
    destruct d; [reflexivity|].
    destruct (Z.eqb_spec (Js.or_default u 0) 0) as [Hz|Hz]; [auto|].
    destruct (Z.leb_spec (Js.or_default u 0) (Js.or_default r 0));
      destruct (Z.ltb_spec 0 (Js.or_default u 0)); cbn [andb];
      repeat split; try assumption; lia.
  - intros units reorder. split; reflexivity.
  - intros reorder. split; reflexivity.
Qed.

(** C2, the claim as worded: five units with a reorder level of ten is
    Reorder Required on the canonical ladder, and Low Stock on both
    ladders of the routes. *)
Lemma stockStatus_low_before_reorder :
  canonical_stockStatus Fixtures.low_and_reorder = ReorderRequired
  /\ Products.getProductStockStatus Fixtures.low_and_reorder = LowStock
  /\ Categories.getProductStockStatus Fixtures.low_and_reorder = LowStock
  /\ ProductModel.getStockStatus Fixtures.low_and_reorder = LowStock
  /\ Products.getProductStockStatus Fixtures.low_and_reorder
     <> canonical_stockStatus Fixtures.low_and_reorder.
Proof.
  split; [reflexivity|]. split; [reflexivity|]. split; [reflexivity|].
  split; [reflexivity|]. discriminate.
Qed.

(** ** Pagination *)

Lemma Math_ceil_div_bounds (count limit : Z) :
  0 < limit ->
  (Pagination.Math_ceil_div count limit - 1) * limit < count
  /\ count <= Pagination.Math_ceil_div count limit * limit.
Proof.
  intros Hl. unfold Pagination.Math_ceil_div.
  pose proof (Z.div_mod (- count) limit ltac:(lia)) as Hdm.
  pose proof (Z.mod_pos_bound (- count) limit Hl) as Hm.
  split; nia.
Qed.

Lemma double_of_exact (z : Z) :
  0 <= z < 2 ^ 53 -> Pagination.double_of z = Pagination.Finite z.
Proof.
  intros [H0 H53]. unfold Pagination.double_of, Pagination.round53.
  destruct (Z.ltb_spec z 0); [lia|].
  destruct (Z.ltb_spec z (2 ^ 53)); [|lia].
  destruct (Z.leb_spec (2 ^ 1024) z); [|reflexivity].
  assert (2 ^ 53 < 2 ^ 1024) by (apply Z.pow_lt_mono_r; lia). lia.
Qed.

Lemma page_of_valid (query_page : option Z) :
  Pagination.valid_page query_page ->
  match query_page with Some p => p | None => 1 end < 2 ^ 53 ->
  Pagination.page_of query_page
  = Pagination.Finite (match query_page with Some p => p | None => 1 end).
Proof.
  unfold Pagination.page_of, Pagination.parseInt.
  destruct query_page as [p|]; cbn [Pagination.valid_page];
    [|reflexivity].
  intros Hp H53. rewrite double_of_exact by lia.
  destruct p; cbn; first [lia | reflexivity].
Qed.

Lemma limit_of_valid (query_limit : option Z) :
  Pagination.valid_limit query_limit ->
  Pagination.limit_of query_limit
  = match query_limit with Some l => l | None => 10 end.
Proof.
  destruct query_limit as [l|]; cbn; [|reflexivity].
  intros Hl. destruct (Z.eqb_spec l 0); [lia | reflexivity].
Qed.

(** [round53] against the doubles of the machine, at integers around
    the powers of two where the rounding changes: the integer and its
    rounding are the same double, and the rounding is not rounded
    again. *)
Lemma round53_is_the_double :
  forallb
    (fun z =>
       PrimFloat.eqb (OrderTotals.float_of_Z z)
                     (OrderTotals.float_of_Z (Pagination.round53 z))
       && (Pagination.round53 (Pagination.round53 z)
           =? Pagination.round53 z))
    [1; 100; 2 ^ 53 - 1; 2 ^ 53; 2 ^ 53 + 1; 2 ^ 53 + 2; 2 ^ 53 + 3;
     2 ^ 54 + 1; 2 ^ 54 + 2; 2 ^ 54 + 3; 2 ^ 54 + 5; 2 ^ 54 + 6;
     27021597764222973; 27021597764222974; 123456789012345678;
     999999999999999999; 2 ^ 62 + 2 ^ 9; 2 ^ 62 + 2 ^ 9 + 1;
     2 ^ 62 + 3 * 2 ^ 9; 2 ^ 63 - 1025; 2 ^ 63 - 513]
  = true.
Proof. vm_compute. reflexivity. Qed.

(** C5, as the code has it.  For a validated page (absent or >= 1) and
    limit (absent or in [1,100]), with page and offset below 2^53, and
    the count the store returned, a number of rows below 2^53: the
    envelope carries the requested page and limit (1 and 10 when absent)
    and the count; its [pages] is the ceiling of count / limit, that is
    the least number of pages of [limit] rows that hold [count] rows;
    [pages] is 0 exactly when the count is 0; and the offset of the
    store query is (page - 1) * limit. *)
Theorem pagination_envelope
        (query_page query_limit : option Z) (count : Z) :
  Pagination.valid_page query_page ->
  Pagination.valid_limit query_limit ->
  Pagination.below_2_53 query_page query_limit ->
  0 <= count < 2 ^ 53 ->
  let e := Pagination.envelope query_page query_limit count in
  let page := match query_page with Some p => p | None => 1 end in
  Pagination.page e = Pagination.Finite page
  /\ Pagination.limit e = match query_limit with Some l => l | None => 10 end
  /\ 1 <= page
  /\ 1 <= Pagination.limit e <= 100
  /\ Pagination.total e = count
  /\ (Pagination.pages e - 1) * Pagination.limit e < count
     <= Pagination.pages e * Pagination.limit e
  /\ (Pagination.pages e = 0 <-> count = 0)
  /\ Pagination.offset_of query_page query_limit
     = Pagination.Finite ((page - 1) * Pagination.limit e).
Proof.
  intros Hp Hl [Hpage Hoffset] Hc e page. subst e page.
  unfold Pagination.envelope, Pagination.offset_of.
  cbn [Pagination.page Pagination.limit Pagination.total Pagination.pages].
  rewrite (page_of_valid _ Hp Hpage), (limit_of_valid _ Hl).
  assert (Hp1 : 1 <= match query_page with Some p => p | None => 1 end)
    by (destruct query_page; cbn in *; lia).
  assert (Hl1 : 1 <= match query_limit with Some l => l | None => 10 end <= 100)
    by (destruct query_limit; cbn in *; lia).
  set (p := match query_page with Some p => p | None => 1 end) in *.
  set (l := match query_limit with Some l => l | None => 10 end) in *.
  destruct (Math_ceil_div_bounds count l ltac:(lia)) as [Hlo Hhi].
  repeat (split; [first [reflexivity | lia | assumption]|]).
  split; [split; intros H; [rewrite H in *; lia | nia]|].
  cbn [Pagination.minus Pagination.times].
  rewrite double_of_exact by lia.
  cbn [Pagination.times]. apply double_of_exact. nia.
Qed.

(** A request for page 3 with 10 rows per page over 25 rows. *)
Lemma pagination_envelope_witness :
  let e := Pagination.envelope (Some 3) (Some 10) 25 in
  Pagination.page e = Pagination.Finite 3
  /\ Pagination.limit e = 10
  /\ 1 <= 3
  /\ 1 <= Pagination.limit e <= 100
  /\ Pagination.total e = 25
  /\ (Pagination.pages e - 1) * Pagination.limit e < 25
     <= Pagination.pages e * Pagination.limit e
  /\ (Pagination.pages e = 0 <-> 25 = 0)
  /\ Pagination.offset_of (Some 3) (Some 10)
     = Pagination.Finite ((3 - 1) * Pagination.limit e).
Proof.
  apply (pagination_envelope (Some 3) (Some 10) 25);
    unfold Pagination.below_2_53; cbn; lia.
Defined.

(** C5, the claim as worded.  The page 2^53 + 1 passes the validator,
    and [parseInt] makes the double 2^53 of it: the envelope reports
    page 9007199254740992, and with 3 rows per page the offset sent to
    the store is 27021597764222972, which is neither (page - 1) * limit
    for the page asked for nor for the page reported.  The doubles of
    the machine give the same figures. *)
Theorem pagination_beyond_2_53 :
  Pagination.valid_page (Some (2 ^ 53 + 1))
  /\ Pagination.valid_limit (Some 3)
  /\ Pagination.page (Pagination.envelope (Some (2 ^ 53 + 1)) (Some 3) 0)
     = Pagination.Finite 9007199254740992
  /\ Pagination.offset_of (Some (2 ^ 53 + 1)) (Some 3)
     = Pagination.Finite 27021597764222972
  /\ Pagination.offset_of (Some (2 ^ 53 + 1)) (Some 3)
     <> Pagination.Finite ((2 ^ 53 + 1 - 1) * 3)
  /\ Pagination.offset_of (Some (2 ^ 53 + 1)) (Some 3)
     <> Pagination.Finite ((9007199254740992 - 1) * 3)
  /\ OrderTotals.float_of_Z (2 ^ 53 + 1)
     = OrderTotals.float_of_Z 9007199254740992
  /\ ((OrderTotals.float_of_Z (2 ^ 53 + 1) - OrderTotals.float_of_Z 1)
      * OrderTotals.float_of_Z 3)%float
     = OrderTotals.float_of_Z 27021597764222972.
Proof.
  split; [cbn; lia|]. split; [cbn; lia|].
  split; [vm_compute; reflexivity|]. split; [vm_compute; reflexivity|].
  split; [vm_compute; discriminate|]. split; [vm_compute; discriminate|].
  split; vm_compute; reflexivity.
Qed.

(** ** Years of service *)

Lemma days_before_year_decade (y : Z) :
  3651 <= JsDate.days_before_year (y + 10) - JsDate.days_before_year y <= 3653.
Proof.
  unfold JsDate.days_before_year.
  Z.to_euclidean_division_equations. lia.
Qed.

Lemma getTime_plus_decade (d : JsDate.Date) :
  3651 * JsDate.MS_PER_DAY
  <= JsDate.getTime (JsDate.plus_years d 10) - JsDate.getTime d
  <= 3653 * JsDate.MS_PER_DAY.
Proof.
  unfold JsDate.getTime, JsDate.plus_years, JsDate.days_from_civil.
  cbn [JsDate.year JsDate.month JsDate.day JsDate.msOfDay].
  replace (JsDate.MS_PER_DAY) with 86400000 by reflexivity.
  destruct (JsDate.month d <=? 1).
  - pose proof (days_before_year_decade (JsDate.year d - 1)) as H.
    replace (JsDate.year d - 1 + 10) with (JsDate.year d + 10 - 1) in H by lia.
    lia.
  - pose proof (days_before_year_decade (JsDate.year d)) as H. lia.
Qed.

(** C7.  With a hire date, yearsOfService is the floor of the elapsed
    milliseconds over the milliseconds of 365.25 days: the one integer y
    with y * 365.25 days <= now - hireDate < (y + 1) * 365.25 days, whatever
    the calendar says; and when now is 10 calendar years and 100 days after
    the hire date, it is 10. *)
Theorem yearsOfService_floor (hireDate today : JsDate.Date) :
  (exists y,
      Employees.getYearsOfService (Some hireDate) today = Some y
      /\ y * Employees.MS_PER_YEAR
         <= JsDate.getTime today - JsDate.getTime hireDate
         < (y + 1) * Employees.MS_PER_YEAR)
  /\ Employees.MS_PER_YEAR * 4 = 1461 * JsDate.MS_PER_DAY
  /\ (JsDate.getTime today
      = JsDate.getTime (JsDate.plus_years hireDate 10)
        + 100 * JsDate.MS_PER_DAY ->
      Employees.getYearsOfService (Some hireDate) today = Some 10).
Proof.
  split; [|split].
  - eexists. split; [reflexivity|].
    unfold Employees.MS_PER_YEAR.
    set (diff := JsDate.getTime today - JsDate.getTime hireDate).
    pose proof (Z.div_mod diff 31557600000 ltac:(lia)).
    pose proof (Z.mod_pos_bound diff 31557600000 ltac:(lia)).
    lia.
  - reflexivity.
  - intros Hnow. unfold Employees.getYearsOfService. f_equal.
    pose proof (getTime_plus_decade hireDate) as H.
    unfold Employees.MS_PER_YEAR.
    replace (JsDate.MS_PER_DAY) with 86400000 in * by reflexivity.
    symmetry. apply Z.div_unique with
      (r := JsDate.getTime today - JsDate.getTime hireDate - 315576000000);
      lia.
Qed.

(** Hired on 7 March 2014, seen on 15 June 2024 at the same time of day. *)
Lemma yearsOfService_floor_witness :
  Employees.getYearsOfService (Some Fixtures.hired_2014_03_07)
                              Fixtures.today_2024_06_15
  = Some 10.
Proof.
  apply (yearsOfService_floor Fixtures.hired_2014_03_07
                              Fixtures.today_2024_06_15).
  reflexivity.
Defined.

(** ** The calendar and the age filter *)

Section Calendar.
Import JsDate Employees.

Lemma days_before_year_succ (y : Z) :
  days_before_year (y + 1) - days_before_year y
  = 365 + (if is_leap (y + 1) then 1 else 0).
Proof.
  unfold days_before_year, is_leap.
  destruct (Z.eqb_spec ((y + 1) mod 4) 0) as [H4|H4];
    destruct (Z.eqb_spec ((y + 1) mod 100) 0) as [H100|H100];
    destruct (Z.eqb_spec ((y + 1) mod 400) 0) as [H400|H400];
    cbn [andb orb negb];
    Z.to_euclidean_division_equations; lia.
Qed.

Lemma days_before_year_mono (y1 y2 : Z) :
  y1 <= y2 -> days_before_year y1 <= days_before_year y2.
Proof.
  unfold days_before_year. intros H.
  Z.to_euclidean_division_equations. lia.
Qed.


Ltac split_month m :=
  assert (m = 0 \/ m = 1 \/ m = 2 \/ m = 3 \/ m = 4 \/ m = 5 \/ m = 6
          \/ m = 7 \/ m = 8 \/ m = 9 \/ m = 10 \/ m = 11) as Hsplit by lia;
  repeat (destruct Hsplit as [Hsplit|Hsplit]; [subst m|]); [..|subst m].

Lemma days_from_civil_bounds (y m d : Z) :
  0 <= m <= 11 -> 1 <= d <= days_in_month y m ->
  (2 <= m ->
   days_before_year y - 719468 <= days_from_civil y m d
   <= days_before_year y - 719468 + 305)
  /\ (m <= 1 ->
      days_before_year y - 719468 - 59 - (if is_leap y then 1 else 0)
      <= days_from_civil y m d
      < days_before_year y - 719468).
Proof.
  intros Hm Hd. unfold days_from_civil.
  pose proof (days_before_year_succ (y - 1)) as Hy.
  replace (y - 1 + 1) with y in Hy by lia.
  split_month m; unfold days_in_month in Hd; cbn in Hd |- *;
    destruct (is_leap y); split; intros; lia.
Qed.

Lemma days_from_civil_same_year (y m1 d1 m2 d2 : Z) :
  0 <= m1 <= 11 -> 1 <= d1 <= days_in_month y m1 ->
  0 <= m2 <= 11 -> 1 <= d2 <= days_in_month y m2 ->
  m1 < m2 \/ (m1 = m2 /\ d1 < d2) ->
  days_from_civil y m1 d1 < days_from_civil y m2 d2.
Proof.
  intros Hm1 Hd1 Hm2 Hd2 Hlt. unfold days_from_civil.
  pose proof (days_before_year_succ (y - 1)) as Hy.
  replace (y - 1 + 1) with y in Hy by lia.
  split_month m1; split_month m2;
    try (exfalso; lia);
    unfold days_in_month in Hd1, Hd2; cbn in Hd1, Hd2 |- *;
    destruct (is_leap y); lia.
Qed.

Lemma days_from_civil_lt (y1 m1 d1 y2 m2 d2 : Z) :
  0 <= m1 <= 11 -> 1 <= d1 <= days_in_month y1 m1 ->
  0 <= m2 <= 11 -> 1 <= d2 <= days_in_month y2 m2 ->
  y1 < y2 \/ (y1 = y2 /\ (m1 < m2 \/ (m1 = m2 /\ d1 < d2))) ->
  days_from_civil y1 m1 d1 < days_from_civil y2 m2 d2.
Proof.
  intros Hm1 Hd1 Hm2 Hd2 [Hy|[-> Hlt]].
  - destruct (days_from_civil_bounds y1 m1 d1 Hm1 Hd1) as [Ha1 Hb1].
    destruct (days_from_civil_bounds y2 m2 d2 Hm2 Hd2) as [Ha2 Hb2].
    pose proof (days_before_year_mono (y1 + 1) y2 ltac:(lia)) as Hmono.
    pose proof (days_before_year_succ y1) as Hs1.
    pose proof (days_before_year_succ (y2 - 1)) as Hs2.
    replace (y2 - 1 + 1) with y2 in Hs2 by lia.
    pose proof (days_before_year_mono y1 (y2 - 1) ltac:(lia)) as Hmono'.
    destruct (Z_le_gt_dec m1 1), (Z_le_gt_dec m2 1);
      destruct (is_leap (y1 + 1)), (is_leap y2); lia.
  - apply days_from_civil_same_year; assumption.
Qed.

Lemma valid_fields (d : Date) :
  valid d = true ->
  0 <= month d <= 11
  /\ 1 <= day d <= days_in_month (year d) (month d)
  /\ 0 <= msOfDay d < MS_PER_DAY.
Proof.
  unfold valid. intros H.
  repeat (apply andb_prop in H; destruct H as [H ?]).
  lia.
Qed.

(** On dates of the calendar, the order of instants is the calendar
    order. *)
Lemma leb_is_civil_leb (a b : Date) :
  valid a = true -> valid b = true -> leb a b = civil_leb a b.
Proof.
  intros Ha Hb.
  destruct (valid_fields a Ha) as (Hma & Hda & Hta).
  destruct (valid_fields b Hb) as (Hmb & Hdb & Htb).
  unfold leb, civil_leb, getTime.
  replace MS_PER_DAY with 86400000 in * by reflexivity.
  pose proof (days_from_civil_lt (year a) (month a) (day a)
                (year b) (month b) (day b) Hma Hda Hmb Hdb) as Hab.
  pose proof (days_from_civil_lt (year b) (month b) (day b)
                (year a) (month a) (day a) Hmb Hdb Hma Hda) as Hba.
  destruct (Z.ltb_spec (year a) (year b));
    [apply Z.leb_le; lia|].
  destruct (Z.ltb_spec (year b) (year a));
    [apply Z.leb_gt; lia|].
  destruct (Z.ltb_spec (month a) (month b));
    [apply Z.leb_le; lia|].
  destruct (Z.ltb_spec (month b) (month a));
    [apply Z.leb_gt; lia|].
  destruct (Z.ltb_spec (day a) (day b));
    [apply Z.leb_le; lia|].
  destruct (Z.ltb_spec (day b) (day a));
    [apply Z.leb_gt; lia|].
  replace (year b) with (year a) by lia.
  replace (month b) with (month a) by lia.
  replace (day b) with (day a) by lia.
  destruct (Z.leb_spec (msOfDay a) (msOfDay b));
    [apply Z.leb_le | apply Z.leb_gt]; lia.
Qed.

Lemma make_plain (y m d : Z) :
  ~ (0 <= y <= 99) -> d <= days_in_month y m -> make y m d = mkDate y m d 0.
Proof.
  intros Hy Hd. unfold make.
  destruct (Z.leb_spec 0 y), (Z.leb_spec y 99); cbn [andb]; try lia;
    destruct (Z.leb_spec d (days_in_month y m)); try lia; reflexivity.
Qed.

Lemma valid_years_ago (today : Date) (n : Z) :
  valid today = true ->
  day today <= days_in_month (year today - n) (month today) ->
  valid (mkDate (year today - n) (month today) (day today) 0) = true.
Proof.
  intros Hv Hd. destruct (valid_fields today Hv) as (Hm & Hd' & Ht).
  unfold valid. cbn [year month day msOfDay].
  repeat (apply andb_true_intro; split); try (apply Z.leb_le; lia).
  reflexivity.
Qed.

(** The [minAge] bound keeps exactly the employees whose age is at least
    [minAge]. *)
Lemma minAge_filter_is_age_bound (today b : Date) (minAge : Z) :
  valid today = true -> valid b = true -> msOfDay b = 0 ->
  ~ (0 <= getFullYear today - minAge <= 99) ->
  getDate today <= days_in_month (getFullYear today - minAge) (getMonth today) ->
  birthDate_matches (age_where (Some minAge) None today) (Some b) = true
  <-> exists a, getAge (Some b) today = Some a /\ minAge <= a.
Proof.
  intros Hv Hb Hmid Hy Hd.
  unfold getFullYear, getMonth, getDate in *.
  unfold age_where, birthDate_matches, getFullYear, getMonth, getDate.
  cbn [gte lte andb].
  rewrite (make_plain _ _ _ Hy Hd).
  rewrite (leb_is_civil_leb _ _ Hb (valid_years_ago today minAge Hv Hd)).
  unfold civil_leb, getAge, getFullYear, getMonth, getDate.
  cbn [year month day msOfDay]. rewrite Hmid.
  destruct (Z.ltb_spec (year b) (year today - minAge));
    destruct (Z.ltb_spec (year today - minAge) (year b));
    destruct (Z.ltb_spec (month b) (month today));
    destruct (Z.ltb_spec (month today) (month b));
    destruct (Z.ltb_spec (day b) (day today));
    destruct (Z.ltb_spec (day today) (day b));
    destruct (Z.ltb_spec (month today - month b) 0);
    destruct (Z.eqb_spec (month today - month b) 0);
    cbn [orb andb]; try lia;
    (split; [intros Hyes;
             first [discriminate Hyes | eexists; split; [reflexivity|lia]]
            | intros (a & Ha & Hle); injection Ha as <-;
              first [reflexivity | lia]]).
Qed.

(** The [maxAge] bound keeps the employees younger than [maxAge], and of
    those aged exactly [maxAge] only the ones whose birthday is today. *)
Lemma maxAge_filter_is_strict (today b : Date) (maxAge : Z) :
  valid today = true -> valid b = true -> msOfDay b = 0 ->
  ~ (0 <= getFullYear today - maxAge <= 99) ->
  getDate today <= days_in_month (getFullYear today - maxAge) (getMonth today) ->
  birthDate_matches (age_where None (Some maxAge) today) (Some b) = true
  <-> exists a,
      getAge (Some b) today = Some a
      /\ (a < maxAge
          \/ (a = maxAge /\ getMonth b = getMonth today
              /\ getDate b = getDate today)).
Proof.
  intros Hv Hb Hmid Hy Hd.
  unfold getFullYear, getMonth, getDate in *.
  unfold age_where, birthDate_matches, getFullYear, getMonth, getDate.
  cbn [gte lte andb].
  rewrite (make_plain _ _ _ Hy Hd), andb_true_r.
  rewrite (leb_is_civil_leb _ _ (valid_years_ago today maxAge Hv Hd) Hb).
  unfold civil_leb, getAge, getFullYear, getMonth, getDate.
  cbn [year month day msOfDay]. rewrite Hmid.
  destruct (Z.ltb_spec (year b) (year today - maxAge));
    destruct (Z.ltb_spec (year today - maxAge) (year b));
    destruct (Z.ltb_spec (month b) (month today));
    destruct (Z.ltb_spec (month today) (month b));
    destruct (Z.ltb_spec (day b) (day today));
    destruct (Z.ltb_spec (day today) (day b));
    destruct (Z.ltb_spec (month today - month b) 0);
    destruct (Z.eqb_spec (month today - month b) 0);
    cbn [orb andb]; try lia;
    (split; [intros Hyes;
             first [discriminate Hyes | eexists; split; [reflexivity|lia]]
            | intros (a & Ha & Hle); injection Ha as <-;
              first [reflexivity | lia]]).
Qed.

End Calendar.

(** ** The age filter *)

(** An employee born exactly [maxAge] years before today, at midnight,
    passes the [maxAge] filter. *)
Lemma maxAge_filter_includes_birthday_today
      (currentDate : JsDate.Date) (maxAge : Z) :
  Employees.birthDate_matches
    (Employees.age_where None (Some maxAge) currentDate)
    (Some (JsDate.make (JsDate.getFullYear currentDate - maxAge)
                       (JsDate.getMonth currentDate)
                       (JsDate.getDate currentDate)))
  = true.
Proof.
  unfold Employees.age_where, Employees.birthDate_matches.
  cbn [Employees.gte Employees.lte].
  unfold JsDate.leb. rewrite Z.leb_refl. reflexivity.
Qed.




(** ** Line totals and order totals *)

(** Two doubles that the IEEE comparison tells apart are different
    values. *)
Lemma float_distinct (a b : float) :
  PrimFloat.eqb a b = false -> PrimFloat.eqb b b = true -> a <> b.
Proof. intros H1 H2 E. subst b. congruence. Qed.

(** C4, as the code has it.  The line total is computed on IEEE doubles,
    as parseFloat(unitPrice) * parseInt(quantity) * (1 - parseFloat(discount)).
    For unitPrice 10.00, quantity 3 and discount 0.10 every step is exact
    or rounds back to the decimal value: the line total is the double 27,
    the sum of 1000 such line totals is the double 27000, and an order of
    that one line with freight 0.00 totals 27. *)
Theorem lineTotal_ten_by_three :
  OrderTotals.getLineTotal Fixtures.ten_by_three = 27%float
  /\ OrderTotals.subtotal (repeat Fixtures.ten_by_three 1000) = 27000%float
  /\ OrderTotals.orderTotal [Fixtures.ten_by_three] (Some 0) = 27%float
  /\ OrderTotals.getLineTotal Fixtures.ten_by_three
     = OrderTotals.nearest_double
         (OrderTotals.exact_lineTotal Fixtures.ten_by_three).
Proof. repeat split; vm_compute; reflexivity. Qed.

(** C4, the claim as worded.  Doubles are not decimal arithmetic: for
    unitPrice 0.10, quantity 3 and no discount the exact line total is
    0.30, and the line total computed is not the double nearest to 0.30
    but the next one up (0.30000000000000004); an order of one line of
    0.10 with freight 0.20 totals the same double instead of 0.30; and ten
    line totals of 0.10 sum to a double below 1. *)
Lemma lineTotal_not_decimal :
  OrderTotals.exact_lineTotal Fixtures.dime_by_three = 3000
  /\ OrderTotals.getLineTotal Fixtures.dime_by_three
     <> OrderTotals.nearest_double
          (OrderTotals.exact_lineTotal Fixtures.dime_by_three)
  /\ OrderTotals.getLineTotal Fixtures.dime_by_three
     = 0x1.3333333333334p-2%float
  /\ OrderTotals.orderTotal [Fixtures.one_dime] (Some 20)
     <> OrderTotals.nearest_double
          (OrderTotals.exact_orderTotal [Fixtures.one_dime] (Some 20))
  /\ OrderTotals.subtotal (repeat Fixtures.one_dime 10)
     <> OrderTotals.nearest_double
          (OrderTotals.exact_orderTotal (repeat Fixtures.one_dime 10) None).
Proof.
  split; [reflexivity|].
  split; [apply float_distinct; vm_compute; reflexivity|].
  split; [vm_compute; reflexivity|].
  split; apply float_distinct; vm_compute; reflexivity.
Qed.

(** ** Composition of the product filters *)

Section FilterComposition.
  Import ProductList Js.

Variable sql_like : string -> string -> bool.

(** Two filters passed in different parameters select the rows both
    select, unless one is [inStock] and the other [lowStock=true]. *)
Lemma filters_intersect (a b : Filter) (r : Row) :
  param_name a <> param_name b ->
  stock_pair a b = false ->
  holds sql_like [a; b] r = holds sql_like [a] r && holds sql_like [b] r.
Proof.
  intros Hname Hpair.
  destruct a, b; try (exfalso; apply Hname; reflexivity);
    unfold holds, query_of, build_where, matches, like_holds, text_of;
    cbn -[String.eqb append];
    repeat match goal with
           | b : BoolParam |- _ => destruct b; try discriminate Hpair
           end;
    cbn -[String.eqb append];
    repeat match goal with
           | |- context [String.eqb ?s ""] =>
               destruct (String.eqb s ""); cbn -[String.eqb append]
           end;
    repeat match goal with
           | |- context [match ?x with _ => _ end] =>
               destruct x; cbn -[String.eqb append]
           end;
    try reflexivity;
    repeat match goal with
           | |- context [like_holds ?f ?x ?c] =>
               destruct (like_holds f x c); cbn
           | |- context [sql_like ?p ?v] => destruct (sql_like p v); cbn
           | |- context [Z.eqb ?p ?v] => destruct (Z.eqb p v); cbn
           | |- context [Z.ltb ?p ?v] => destruct (Z.ltb p v); cbn
           | |- context [Qle_bool ?p ?v] => destruct (Qle_bool p v); cbn
           | |- context [Bool.eqb ?p ?v] => destruct (Bool.eqb p v); cbn
           end;
    reflexivity.
Qed.

(** On any table, the rows such a pair selects are the rows each of the
    two selects. *)
Lemma filters_select_intersection (a b : Filter) (rows : list Row) (r : Row) :
  param_name a <> param_name b ->
  stock_pair a b = false ->
  In r (select sql_like (build_where (query_of [a; b])) rows)
  <-> In r (select sql_like (build_where (query_of [a])) rows)
      /\ In r (select sql_like (build_where (query_of [b])) rows).
Proof.
  intros Hname Hpair. unfold select. rewrite !filter_In.
  pose proof (filters_intersect a b r Hname Hpair) as H.
  unfold holds in H. rewrite H, andb_true_iff. tauto.
Qed.

End FilterComposition.

(** C3, at a concrete request.  With inStock=false and lowStock=true the
    second parameter replaces the condition the first one set on
    unitsInStock: the where-clause asks for 0 < unitsInStock < 10 only,
    and a product with five units is returned, although inStock=false
    alone does not return it.  The order of the parameters does not
    matter. *)
Theorem inStock_lowStock_overwrite :
  ProductList.build_where
    (ProductList.query_of
       [ProductList.F_inStock Js.P_false; ProductList.F_lowStock Js.P_true])
  = ProductList.set_unitsInStock
      (ProductList.Op_and [ProductList.Op_gt 0; ProductList.Op_lt 10])
      ProductList.empty_where
  /\ ProductList.select ProductList.like
       (ProductList.build_where
          (ProductList.query_of
             [ProductList.F_inStock Js.P_false;
              ProductList.F_lowStock Js.P_true]))
       [Fixtures.five_in_stock]
     = [Fixtures.five_in_stock]
  /\ ProductList.select ProductList.like
       (ProductList.build_where
          (ProductList.query_of [ProductList.F_inStock Js.P_false]))
       [Fixtures.five_in_stock]
     = []
  /\ ProductList.select ProductList.like
       (ProductList.build_where
          (ProductList.query_of [ProductList.F_lowStock Js.P_true]))
       [Fixtures.five_in_stock]
     = [Fixtures.five_in_stock]
  /\ ProductList.select ProductList.like
       (ProductList.build_where
          (ProductList.query_of
             [ProductList.F_lowStock Js.P_true;
              ProductList.F_inStock Js.P_false]))
       [Fixtures.five_in_stock]
     = [Fixtures.five_in_stock].
Proof. repeat split. Qed.

(** ** Transactions of the handlers *)

Section TransactionLogic.
  Import Store.

Lemma active_not_idle (t : TxState) : is_active t = true -> t <> Idle.
Proof. destruct t; cbn; congruence. Qed.

Lemma on_open_tx_ret {A} (a : A) : on_open_tx (ret a) still_open.
Proof. intros w H. exact H. Qed.

Lemma on_open_tx_bind {A B} (m : M A) (k : A -> M B) after :
  on_open_tx m still_open ->
  (forall a, on_open_tx (k a) after) ->
  on_open_tx (bind m k) after.
Proof.
  intros Hm Hk w Hw. unfold bind. specialize (Hm w Hw).
  destruct (m w) as [[a|r|] w']; try assumption.
  apply Hk, Hm.
Qed.

Lemma on_open_tx_store_call {A} (c : Conn) (f : DB -> A * DB) :
  on_open_tx (store_call c f) still_open.
Proof.
  intros w Hw. unfold store_call.
  destruct (faults w) as [|[|] rest]; cbn [tx tl faults committed];
    try (apply active_not_idle; exact Hw);
    destruct c; cbn [tx tl faults committed].
  all: try (destruct (f (committed w)); exact Hw).
  all: destruct (tx w) as [|view| |]; try discriminate Hw;
    destruct (f view); reflexivity.
Qed.

Lemma on_open_tx_query {A} (c : Conn) (f : DB -> A) :
  on_open_tx (query c f) still_open.
Proof. apply on_open_tx_store_call. Qed.

Lemma on_open_tx_commit_ret {A} (a : A) :
  on_open_tx (bind commit (fun _ => ret a)) now_released.
Proof.
  intros w Hw. unfold bind, commit, ret.
  destruct (tx w); try discriminate Hw.
  destruct (faults w) as [|[|] rest]; cbn [tx];
    first [discriminate | reflexivity].
Qed.

Lemma on_open_tx_rollback_return {A} (r : Response) after :
  on_open_tx (A := A) (bind rollback (fun _ => return_ r)) after.
Proof.
  intros w Hw. unfold bind, rollback, return_.
  destruct (tx w); try discriminate Hw. reflexivity.
Qed.

Lemma on_open_tx_if {A} (b : bool) (m1 m2 : M A) after :
  on_open_tx m1 after -> on_open_tx m2 after ->
  on_open_tx (if b then m1 else m2) after.
Proof. destruct b; auto. Qed.

(** A handler whose [try] block releases the transaction on every way
    out of it ends with the transaction released, whatever the store
    calls do. *)
Lemma with_transaction_releases (body : M Response) :
  on_open_tx body now_released ->
  forall w, released (tx (snd (with_transaction body w))) = true.
Proof.
  intros Hb w. unfold with_transaction.
  specialize (Hb (set_tx (Active (committed w)) w) eq_refl).
  destruct (body _) as [[r|r|] w']; cbn [snd]; try exact Hb.
  unfold rollback. destruct (tx w') eqn:Ht; cbn [snd tx set_tx];
    try reflexivity; try congruence.
  all: rewrite Ht; reflexivity.
Qed.

(** DELETE /products/:id and DELETE /categories/:id release their
    transaction on every path: not found, blocked by dependents,
    deleted, or a store call that throws. *)
Lemma delete_product_releases (req : DeleteRoutes.Request) (w : World) :
  released (tx (snd (DeleteRoutes.delete_product req w))) = true.
Proof.
  apply with_transaction_releases.
  apply on_open_tx_bind; [apply on_open_tx_query|].
  intros [p|]; [|apply on_open_tx_rollback_return].
  apply on_open_tx_bind; [apply on_open_tx_query|]. intros n.
  apply on_open_tx_if; [apply on_open_tx_rollback_return|].
  apply on_open_tx_bind.
  { apply on_open_tx_if;
      [apply on_open_tx_store_call | apply on_open_tx_ret]. }
  intros _. apply on_open_tx_bind; [apply on_open_tx_store_call|].
  intros _. apply on_open_tx_commit_ret.
Qed.

Lemma delete_category_releases (req : DeleteRoutes.Request) (w : World) :
  released (tx (snd (DeleteRoutes.delete_category req w))) = true.
Proof.
  apply with_transaction_releases.
  apply on_open_tx_bind; [apply on_open_tx_query|].
  intros [c|]; [|apply on_open_tx_rollback_return].
  apply on_open_tx_bind; [apply on_open_tx_query|]. intros n.
  apply on_open_tx_if; [apply on_open_tx_rollback_return|].
  apply on_open_tx_bind.
  { apply on_open_tx_if;
      [apply on_open_tx_store_call | apply on_open_tx_ret]. }
  intros _. apply on_open_tx_bind; [apply on_open_tx_store_call|].
  intros _. apply on_open_tx_commit_ret.
Qed.

End TransactionLogic.

(** ** Deleting an entity that has dependents *)

Section DeleteDependents.
  Import Store DeleteRoutes.

Lemma find_after_destroy {A} (hit : A -> bool) (l : list A) :
  find hit (snd (destroy hit l)) = None.
Proof.
  cbn. induction l as [|x l IH]; cbn; [reflexivity|].
  destruct (hit x) eqn:Hx; cbn; [exact IH|]. rewrite Hx. exact IH.
Qed.

Lemma count_after_destroy {A} (hit : A -> bool) (l : list A) :
  count hit (snd (destroy hit l)) = 0.
Proof.
  unfold count. cbn. induction l as [|x l IH]; cbn; [reflexivity|].
  destruct (hit x) eqn:Hx; cbn; [exact IH|]. rewrite Hx. exact IH.
Qed.

Lemma count_nonneg {A} (hit : A -> bool) (l : list A) : 0 <= count hit l.
Proof. unfold count. lia. Qed.

(** After a forced product delete neither the product nor any of its
    order lines is left. *)
Lemma forced_product_delete_cascades (id : Z) (db : DB) :
  let db' := snd (Product_destroy id
                    (snd (OrderDetail_destroy_productId id db))) in
  Product_findByPk id db' = None
  /\ OrderDetail_count_productId id db' = 0
  /\ orders db' = orders db.
Proof.
  cbn. split; [|split; [|reflexivity]].
  - apply (find_after_destroy (fun p => p_productId p =? id)).
  - apply (count_after_destroy (fun d => od_productId d =? id)).
Qed.

(** After a forced category delete the category is gone, no product
    refers to it, and every product is still there. *)
Lemma forced_category_delete_nullifies (id : Z) (db : DB) :
  let db' := snd (Category_destroy id
                    (snd (Product_clear_categoryId id db))) in
  Category_findByPk id db' = None
  /\ Product_count_categoryId id db' = 0
  /\ map p_productId (products db') = map p_productId (products db).
Proof.
  cbn. split; [|split].
  - apply (find_after_destroy (fun c => c =? id)).
  - unfold Product_count_categoryId, count. cbn.
    induction (products db) as [|p l IH]; cbn; [reflexivity|].
    destruct (opt_eqb (p_categoryId p) id) eqn:Hp; cbn; [exact IH|].
    rewrite Hp. exact IH.
  - induction (products db) as [|p l IH]; cbn; [reflexivity|].
    rewrite IH. destruct (opt_eqb (p_categoryId p) id); reflexivity.
Qed.

Lemma delete_product_with_lines (db : DB) (req : Request) (n : Z) :
  0 < n ->
  Product_findByPk (id req) db <> None ->
  OrderDetail_count_productId (id req) db = n ->
  delete_product req (mkWorld db Idle [])
  = if force_of req
    then (Responded (ok_response 200 "Product deleted successfully"
                       (DeletedData (id req) n)),
          mkWorld (snd (Product_destroy (id req)
                          (snd (OrderDetail_destroy_productId (id req) db))))
                  Committed [])
    else (Responded (error_response 400 (product_conflict_message n) None),
          mkWorld db RolledBack []).
Proof.
  intros Hn Hfind Hcount.
  unfold delete_product, with_transaction, bind, query, store_call.
  cbn [faults tx committed set_tx tl].
  destruct (Product_findByPk (id req) db) as [p|]; [|congruence].
  cbn [faults tx committed set_tx tl].
  rewrite Hcount. destruct (Z.ltb_spec 0 n) as [_|]; [|lia].
  destruct (force_of req); cbn [andb negb]; [|reflexivity].
  cbn [faults tx committed set_tx tl].
  destruct (OrderDetail_destroy_productId (id req) db) as [k db1].
  cbn [faults tx committed set_tx tl snd].
  destruct (Product_destroy (id req) db1) as [k' db2].
  reflexivity.
Qed.

Lemma delete_category_with_products (db : DB) (req : Request) (n : Z) :
  0 < n ->
  Category_findByPk (id req) db <> None ->
  Product_count_categoryId (id req) db = n ->
  delete_category req (mkWorld db Idle [])
  = if force_of req
    then (Responded (ok_response 200 "Category deleted successfully"
                       (DeletedData (id req) n)),
          mkWorld (snd (Category_destroy (id req)
                          (snd (Product_clear_categoryId (id req) db))))
                  Committed [])
    else (Responded (error_response 400 (category_conflict_message n) None),
          mkWorld db RolledBack []).
Proof.
  intros Hn Hfind Hcount.
  unfold delete_category, with_transaction, bind, query, store_call.
  cbn [faults tx committed set_tx tl].
  destruct (Category_findByPk (id req) db) as [p|]; [|congruence].
  cbn [faults tx committed set_tx tl].
  rewrite Hcount. destruct (Z.ltb_spec 0 n) as [_|]; [|lia].
  destruct (force_of req); cbn [andb negb]; [|reflexivity].
  cbn [faults tx committed set_tx tl Product_clear_categoryId snd].
  destruct (Category_destroy (id req) _) as [k' db2].
  reflexivity.
Qed.

Lemma delete_employee_with_orders (db : DB) (req : Request) (n : Z) :
  0 < n ->
  Order_count_employeeId (id req) db = n ->
  delete_employee req (mkWorld db Idle [])
  = (Responded (error_response 400 (employee_orders_message n) None),
     mkWorld db Idle []).
Proof.
  intros Hn Hcount.
  unfold delete_employee, without_transaction, bind, query, store_call.
  cbn [faults tx committed set_tx tl].
  rewrite Hcount. destruct (Z.ltb_spec 0 n) as [_|]; [|lia].
  reflexivity.
Qed.

Lemma delete_customer_with_orders (db : DB) (req : Request) (n : Z) :
  0 < n ->
  Order_count_custId (id req) db = n ->
  delete_customer req (mkWorld db Idle [])
  = (Responded (error_response 400 (customer_conflict_message n) None),
     mkWorld db Idle []).
Proof.
  intros Hn Hcount.
  unfold delete_customer, without_transaction, bind, query, store_call.
  cbn [faults tx committed set_tx tl].
  rewrite Hcount. destruct (Z.ltb_spec 0 n) as [_|]; [|lia].
  reflexivity.
Qed.

End DeleteDependents.

(** C8, as the code has it.  With [n] > 0 dependent rows and no store
    failure: DELETE /products/:id and DELETE /categories/:id without
    force=true answer 400 with a message that carries [n], roll back, and
    leave the data as it was; with force=true they answer 200, the order
    lines of the product are deleted with it, the products of the category
    are kept with categoryId set to null, and the change is committed.
    DELETE /employees/:id and DELETE /customers/:id have no override: with
    [n] > 0 orders they answer 400 with [n] in the message and delete
    nothing, whatever [force] says. *)
Theorem delete_with_dependents
        (db : Store.DB) (req : DeleteRoutes.Request) (n : Z) :
  0 < n ->
  (DeleteRoutes.Product_findByPk (DeleteRoutes.id req) db <> None ->
   DeleteRoutes.OrderDetail_count_productId (DeleteRoutes.id req) db = n ->
   DeleteRoutes.delete_product req (Store.mkWorld db Store.Idle [])
   = if DeleteRoutes.force_of req
     then (Store.Responded
             (Store.ok_response 200 "Product deleted successfully"
                (Store.DeletedData (DeleteRoutes.id req) n)),
           Store.mkWorld
             (snd (DeleteRoutes.Product_destroy (DeleteRoutes.id req)
                     (snd (DeleteRoutes.OrderDetail_destroy_productId
                             (DeleteRoutes.id req) db))))
             Store.Committed [])
     else (Store.Responded
             (Store.error_response 400
                (DeleteRoutes.product_conflict_message n) None),
           Store.mkWorld db Store.RolledBack []))
  /\ (DeleteRoutes.Category_findByPk (DeleteRoutes.id req) db <> None ->
      DeleteRoutes.Product_count_categoryId (DeleteRoutes.id req) db = n ->
      DeleteRoutes.delete_category req (Store.mkWorld db Store.Idle [])
      = if DeleteRoutes.force_of req
        then (Store.Responded
                (Store.ok_response 200 "Category deleted successfully"
                   (Store.DeletedData (DeleteRoutes.id req) n)),
              Store.mkWorld
                (snd (DeleteRoutes.Category_destroy (DeleteRoutes.id req)
                        (snd (DeleteRoutes.Product_clear_categoryId
                                (DeleteRoutes.id req) db))))
                Store.Committed [])
        else (Store.Responded
                (Store.error_response 400
                   (DeleteRoutes.category_conflict_message n) None),
              Store.mkWorld db Store.RolledBack []))
  /\ (DeleteRoutes.Order_count_employeeId (DeleteRoutes.id req) db = n ->
      DeleteRoutes.delete_employee req (Store.mkWorld db Store.Idle [])
      = (Store.Responded
           (Store.error_response 400
              (DeleteRoutes.employee_orders_message n) None),
         Store.mkWorld db Store.Idle []))
  /\ (DeleteRoutes.Order_count_custId (DeleteRoutes.id req) db = n ->
      DeleteRoutes.delete_customer req (Store.mkWorld db Store.Idle [])
      = (Store.Responded
           (Store.error_response 400
              (DeleteRoutes.customer_conflict_message n) None),
         Store.mkWorld db Store.Idle []))
  /\ (let db' :=
        snd (DeleteRoutes.Product_destroy (DeleteRoutes.id req)
               (snd (DeleteRoutes.OrderDetail_destroy_productId
                       (DeleteRoutes.id req) db))) in
      DeleteRoutes.Product_findByPk (DeleteRoutes.id req) db' = None
      /\ DeleteRoutes.OrderDetail_count_productId (DeleteRoutes.id req) db' = 0
      /\ Store.orders db' = Store.orders db)
  /\ (let db' :=
        snd (DeleteRoutes.Category_destroy (DeleteRoutes.id req)
               (snd (DeleteRoutes.Product_clear_categoryId
                       (DeleteRoutes.id req) db))) in
      DeleteRoutes.Category_findByPk (DeleteRoutes.id req) db' = None
      /\ DeleteRoutes.Product_count_categoryId (DeleteRoutes.id req) db' = 0
      /\ map Store.p_productId (Store.products db')
         = map Store.p_productId (Store.products db)).
Proof.
  intros Hn.
  split; [intros; apply delete_product_with_lines; assumption|].
  split; [intros; apply delete_category_with_products; assumption|].
  split; [intros; apply delete_employee_with_orders; assumption|].
  split; [intros; apply delete_customer_with_orders; assumption|].
  split; [apply forced_product_delete_cascades
         | apply forced_category_delete_nullifies].
Qed.

(** Product 1 of the example store has two order lines: without force the
    delete is refused with the count 2 and nothing changes; with
    force=true the product and both lines go. *)
Lemma delete_with_dependents_witness :
  DeleteRoutes.delete_product (DeleteRoutes.mkRequest 1 None)
                              (Fixtures.calm Fixtures.shop)
  = (Store.Responded
       (Store.error_response 400
          "Cannot delete product with 2 order records. Use force=true to override or consider marking as discontinued."
          None),
     Store.mkWorld Fixtures.shop Store.RolledBack [])
  /\ DeleteRoutes.delete_product (DeleteRoutes.mkRequest 1 (Some Js.P_true))
                                 (Fixtures.calm Fixtures.shop)
     = (Store.Responded
          (Store.ok_response 200 "Product deleted successfully"
             (Store.DeletedData 1 2)),
        Store.mkWorld
          (Store.mkDB [1] (Store.employees Fixtures.shop) [1] [1]
                      [Fixtures.chang]
                      [Fixtures.order10; Fixtures.order11] [])
          Store.Committed []).
Proof.
  split.
  - apply (delete_with_dependents Fixtures.shop
             (DeleteRoutes.mkRequest 1 None) 2); [lia | discriminate | reflexivity].
  - apply (delete_with_dependents Fixtures.shop
             (DeleteRoutes.mkRequest 1 (Some Js.P_true)) 2);
      [lia | discriminate | reflexivity].
Defined.

(** C8, the claim as worded: employee 2 of the example store has two
    orders, and DELETE /employees/2?force=true is refused like the delete
    without force; the employee and the orders are still there. *)
Lemma delete_employee_ignores_force :
  DeleteRoutes.delete_employee (DeleteRoutes.mkRequest 2 (Some Js.P_true))
                               (Fixtures.calm Fixtures.shop)
  = (Store.Responded
       (Store.error_response 400
          "Cannot delete employee with 2 orders. Reassign orders first."
          None),
     Fixtures.calm Fixtures.shop)
  /\ DeleteRoutes.force_of (DeleteRoutes.mkRequest 2 (Some Js.P_true)) = true
  /\ DeleteRoutes.delete_customer (DeleteRoutes.mkRequest 1 (Some Js.P_true))
                                  (Fixtures.calm Fixtures.shop)
     = (Store.Responded
          (Store.error_response 400
             "Cannot delete customer with 2 orders. Remove or reassign orders first."
             None),
        Fixtures.calm Fixtures.shop).
Proof. repeat split. Qed.

(** ** Orders: shipped orders and new orders *)

Section OrderHandlers.
  Import Store OrderRoutes.

(** No value of a JSON body is identical to the [Date] object of an
    instance. *)
Lemma body_date_never_identical (v : option IsoDate) (ref : nat) (t : Z) :
  Js.strict_eq (body_date v) (Js.DateObject ref t) = false.
Proof. destruct v; reflexivity. Qed.

Lemma findByPk_created (id : Z) (o : OrderRow) (os : list OrderRow)
      (ds : list OrderDetailRow) (db : DB) :
  o_orderId o = id ->
  OrderModel.findByPk_with_status id
    (set_orderDetails ds (set_orders (o :: os) db))
  = Some (o, OrderModel.getOrderStatus o).
Proof.
  intros <-.
  unfold OrderModel.findByPk_with_status, OrderModel.findByPk.
  cbn [orders set_orderDetails set_orders find].
  rewrite Z.eqb_refl. reflexivity.
Qed.

(** The status of a row by its two dates. *)
Lemma getOrderStatus_cases (o : OrderRow) :
  OrderModel.getOrderStatus o
  = match o_shippedDate o, o_orderDate o with
    | Some _, _ => Shipped
    | None, Some _ => Processing
    | None, None => Pending
    end.
Proof.
  unfold OrderModel.getOrderStatus.
  destruct (o_shippedDate o), (o_orderDate o); reflexivity.
Qed.

(** The order date POST /orders stores is never NULL. *)
Lemma default_orderDate_is_set (v : option IsoDate) (now : Z) :
  (if Js.truthy (body_date v) then instant_of v else Some now) <> None
  /\ (v = None ->
      (if Js.truthy (body_date v) then instant_of v else Some now)
      = Some now).
Proof.
  destruct v as [d|]; cbn; [|split; [discriminate | reflexivity]].
  destruct (negb (iso_text d =? "")%string); split; try discriminate.
Qed.

End OrderHandlers.

(** One step through a handler run [H]: split on what the next store call
    or test does, and drop the runs that do not end in the outcome. *)
Ltac handler_dead H H201 :=
  first [ discriminate H
        | injection H as <- <-; cbn in H201; discriminate H201 ].

Ltac handler_step H H201 :=
  match type of H with
  | context [match Store.faults ?w with _ => _ end] =>
      destruct (Store.faults w) as [|[|] ?]
  | context [match ?l with _ => _ end] =>
      is_var l;
      match type of l with list bool => destruct l as [|[|] ?] end
  | context [match find ?f ?l with _ => _ end] =>
      destruct (find f l) eqn:?
  | context [if ?b then _ else _] =>
      destruct b eqn:?
  end;
  cbn [Store.faults Store.tx Store.committed Store.set_tx tl] in H;
  try handler_dead H H201.


(** POST /orders does answer 201: with no store failure, a customer and a
    shipper that exist, an employee that exists when one is given, and
    order lines that name distinct products that exist and are not
    discontinued, the order is created and committed. *)
Lemma create_order_succeeds
      (db : Store.DB) (body : OrderRoutes.OrderBody) (now : Z) :
  find (fun c => c =? OrderRoutes.b_custId body) (Store.customers db)
  <> None ->
  (OrderRoutes.truthy_number (OrderRoutes.b_employeeId body) = true ->
   find (fun e => Store.opt_eqb (OrderRoutes.b_employeeId body)
                                (Store.e_employeeId e))
        (Store.employees db) <> None) ->
  find (fun s => s =? OrderRoutes.b_shipperId body) (Store.shippers db)
  <> None ->
  List.length
    (filter (fun p => existsb (Z.eqb (Store.p_productId p))
                              (map OrderRoutes.d_productId
                                   (OrderRoutes.b_orderDetails body)))
            (Store.products db))
  = List.length (OrderRoutes.b_orderDetails body) ->
  filter Store.p_discontinued
    (filter (fun p => existsb (Z.eqb (Store.p_productId p))
                              (map OrderRoutes.d_productId
                                   (OrderRoutes.b_orderDetails body)))
            (Store.products db))
  = [] ->
  exists r w',
    OrderRoutes.create_order body now (Store.mkWorld db Store.Idle [])
    = (Store.Responded r, w')
    /\ Store.statusCode r = 201
    /\ Store.tx w' = Store.Committed.
Proof.
  intros Hc He Hs Hlen Hdisc.
  unfold OrderRoutes.create_order, Store.with_transaction.
  unfold Store.bind, Store.query, Store.store_call, Store.commit, Store.ret,
    Store.return_, Store.rollback, OrderRoutes.Order_create.
  cbn [Store.faults Store.tx Store.committed Store.set_tx tl].
  assert (Hfound :
            forall A (f : A -> bool) (l : list A) (d : A),
              find f l <> None -> exists a, find f l = Some a).
  { intros A f l d Hf. destruct (find f l) as [a|]; [exists a; reflexivity|].
    congruence. }
  destruct (Hfound _ _ _ 0 Hc) as [c ->].
  destruct (Hfound _ _ _ 0 Hs) as [s Hs'].
  cbn [Store.faults Store.tx Store.committed Store.set_tx tl].
  destruct (OrderRoutes.truthy_number (OrderRoutes.b_employeeId body)).
  - cbn [Store.faults Store.tx Store.committed Store.set_tx tl].
    destruct (Hfound _ _ _ (Store.mkEmployeeRow 0 None) (He eq_refl))
      as [e ->].
    cbn [Store.faults Store.tx Store.committed Store.set_tx tl].
    rewrite Hs'.
    cbn [Store.faults Store.tx Store.committed Store.set_tx tl].
    rewrite Hdisc, length_map, Hlen, Nat.eqb_refl.
    cbn [negb List.length Nat.ltb Nat.leb].
    cbn [Store.faults Store.tx Store.committed Store.set_tx tl].
    eexists. eexists. split; [reflexivity|]. split; reflexivity.
  - cbn [Store.faults Store.tx Store.committed Store.set_tx tl].
    rewrite Hs'.
    cbn [Store.faults Store.tx Store.committed Store.set_tx tl].
    rewrite Hdisc, length_map, Hlen, Nat.eqb_refl.
    cbn [negb List.length Nat.ltb Nat.leb].
    cbn [Store.faults Store.tx Store.committed Store.set_tx tl].
    eexists. eexists. split; [reflexivity|]. split; reflexivity.
Qed.


(** C9.  For an order whose shippedDate is set, PUT /orders/:id and
    DELETE /orders/:id never change the committed data, whatever the body
    and whichever store call fails; and when the lookup of the order does
    not fail, PUT answers 400 'Cannot modify shipped orders' and DELETE
    answers 400 'Cannot delete shipped orders'.  The body's shippedDate is
    a string or absent and the order's is a Date object, so no body
    carries "the same" shippedDate and the PUT guard holds for every
    body. *)
Theorem shipped_order_is_immutable
        (w : Store.World) (id : Z) (o : Store.OrderRow) (t : Z)
        (body : OrderRoutes.UpdateBody) :
  OrderModel.findByPk id (Store.committed w) = Some o ->
  Store.o_shippedDate o = Some t ->
  Store.committed (snd (OrderRoutes.update_order id body w))
  = Store.committed w
  /\ Store.committed (snd (OrderRoutes.delete_order id w))
     = Store.committed w
  /\ (hd false (Store.faults w) = false ->
      OrderRoutes.update_order id body w
      = (Store.Responded
           (Store.error_response 400 "Cannot modify shipped orders" None),
         Store.mkWorld (Store.committed w) (Store.tx w)
                       (tl (Store.faults w)))
      /\ OrderRoutes.delete_order id w
         = (Store.Responded
              (Store.error_response 400 "Cannot delete shipped orders" None),
            Store.mkWorld (Store.committed w)
                          (Store.Active (Store.committed w))
                          (tl (Store.faults w)))).
Proof.
  intros Hfind Hshipped.
  unfold OrderRoutes.update_order, OrderRoutes.delete_order,
    Store.without_transaction, Store.with_transaction.
  unfold Store.bind, Store.query, Store.store_call, Store.return_,
    Store.rollback.
  cbn [Store.faults Store.tx Store.committed Store.set_tx tl].
  destruct (Store.faults w) as [|[|] rest];
    cbn [Store.faults Store.tx Store.committed Store.set_tx tl snd hd];
    rewrite ?Hfind; cbn [Store.faults Store.tx Store.committed tl];
    rewrite ?Hshipped; cbn [OrderModel.date_field Js.truthy andb];
    rewrite ?body_date_never_identical; cbn [negb snd Store.committed].
  - split; [reflexivity|]. split; [reflexivity|]. intros _.
    split; reflexivity.
  - split; [reflexivity|]. split; [reflexivity|]. intros H. discriminate H.
  - split; [reflexivity|]. split; [reflexivity|]. intros _.
    split; reflexivity.
Qed.

(** Order 10 of the example store is shipped: a PUT that changes its
    freight and a DELETE are both refused and the store is as before. *)
Lemma shipped_order_is_immutable_witness :
  OrderRoutes.update_order 10 Fixtures.new_freight
                           (Fixtures.calm Fixtures.shop)
  = (Store.Responded
       (Store.error_response 400 "Cannot modify shipped orders" None),
     Fixtures.calm Fixtures.shop)
  /\ OrderRoutes.delete_order 10 (Fixtures.calm Fixtures.shop)
     = (Store.Responded
          (Store.error_response 400 "Cannot delete shipped orders" None),
        Store.mkWorld Fixtures.shop (Store.Active Fixtures.shop) []).
Proof.
  apply (shipped_order_is_immutable
           (Fixtures.calm Fixtures.shop) 10 Fixtures.order10 1718400000000
           Fixtures.new_freight);
    reflexivity.
Defined.

(** ** Transactions of the order handlers *)

(** Whenever POST /orders answers 400, the transaction it opened is
    still open when the handler ends. *)
Lemma create_order_refusal_leaves_tx_open
      (body : OrderRoutes.OrderBody) (now : Z)
      (w w' : Store.World) (r : Store.Response) :
  OrderRoutes.create_order body now w = (Store.Responded r, w') ->
  Store.statusCode r = 400 ->
  Store.is_active (Store.tx w') = true.
Proof.
  intros H H400.
  unfold OrderRoutes.create_order, Store.with_transaction in H.
  unfold Store.bind, Store.query, Store.store_call, Store.commit, Store.ret,
    Store.return_, Store.rollback, OrderRoutes.Order_create in H.
  cbn [Store.faults Store.tx Store.committed Store.set_tx tl] in H.
  repeat handler_step H H400.
  all: injection H as <- <-; reflexivity.
Qed.

(** Whenever DELETE /orders/:id answers 404 or 400, the transaction it
    opened is still open when the handler ends. *)
Lemma delete_order_refusal_leaves_tx_open
      (id : Z) (w w' : Store.World) (r : Store.Response) :
  OrderRoutes.delete_order id w = (Store.Responded r, w') ->
  Store.statusCode r <> 200 ->
  Store.is_active (Store.tx w') = true.
Proof.
  intros H Hnot.
  unfold OrderRoutes.delete_order, Store.with_transaction in H.
  unfold Store.bind, Store.query, Store.store_call, Store.commit, Store.ret,
    Store.return_, Store.rollback, OrderModel.findByPk,
    DeleteRoutes.destroy in H.
  cbn [Store.faults Store.tx Store.committed Store.set_tx tl] in H.
  repeat (handler_step H Hnot;
          try (injection H as <- <-; first [reflexivity
                                           | exfalso; apply Hnot; reflexivity])).
Qed.

(** C1, at concrete requests.  POST /orders for a customer that does not
    exist answers 400 'Customer not found' from inside the [try] block
    without touching the transaction it opened, which is still open when
    the handler ends; the same holds for an order of a discontinued
    product, and for DELETE /orders/:id of an order that does not exist
    or is shipped.  The two lemmas above say so of every refusal of these
    two handlers; DELETE /products/:id and DELETE /categories/:id roll
    back before each such answer ([delete_product_releases],
    [delete_category_releases]). *)
Theorem order_handlers_leave_tx_open :
  OrderRoutes.create_order (Fixtures.order_for 99) Fixtures.now
                           (Fixtures.calm Fixtures.shop)
  = (Store.Responded
       (Store.error_response 400 "Customer not found" (Some "custId"%string)),
     Store.mkWorld Fixtures.shop (Store.Active Fixtures.shop) [])
  /\ OrderRoutes.create_order
       (OrderRoutes.mkOrderBody 1 None None None None 1 None Store.no_shipTo
          [OrderRoutes.mkDetailBody 2 1 (19 # 1) None])
       Fixtures.now (Fixtures.calm Fixtures.shop)
     = (Store.Responded
          (Store.error_response 400
             "Cannot order discontinued products: Chang" None),
        Store.mkWorld Fixtures.shop (Store.Active Fixtures.shop) [])
  /\ OrderRoutes.delete_order 99 (Fixtures.calm Fixtures.shop)
     = (Store.Responded (Store.error_response 404 "Order not found" None),
        Store.mkWorld Fixtures.shop (Store.Active Fixtures.shop) [])
  /\ OrderRoutes.delete_order 10 (Fixtures.calm Fixtures.shop)
     = (Store.Responded
          (Store.error_response 400 "Cannot delete shipped orders" None),
        Store.mkWorld Fixtures.shop (Store.Active Fixtures.shop) [])
  /\ Store.released (Store.Active Fixtures.shop) = false.
Proof. repeat split. Qed.

(** * Further properties *)

(** ** Derived order fields *)

(** X1.  A shipped order is never overdue and shows 0 days to ship.  For
    an order that is not shipped and has a required date, daysToShip is
    the number of days, rounded up, from now to the required date, and the
    order is overdue exactly when the required date is before now; so an
    overdue order never shows a positive daysToShip, and a negative
    daysToShip means the order is overdue.  Without a required date an
    unshipped order is not overdue and daysToShip is null. *)
Theorem overdue_and_daysToShip (o : Store.OrderRow) (now : Z) :
  (Store.o_shippedDate o <> None ->
   OrderDerived.isOverdue o now = false
   /\ OrderDerived.getDaysToShip o now = Some 0)
  /\ (Store.o_shippedDate o = None ->
      forall required,
        Store.o_requiredDate o = Some required ->
        exists d,
          OrderDerived.getDaysToShip o now = Some d
          /\ (d - 1) * OrderDerived.MS_PER_DAY < required - now
             <= d * OrderDerived.MS_PER_DAY
          /\ (OrderDerived.isOverdue o now = true <-> required < now)
          /\ (OrderDerived.isOverdue o now = true -> d <= 0)
          /\ (d < 0 -> OrderDerived.isOverdue o now = true))
  /\ (Store.o_shippedDate o = None ->
      Store.o_requiredDate o = None ->
      OrderDerived.isOverdue o now = false
      /\ OrderDerived.getDaysToShip o now = None).
Proof.
  unfold OrderDerived.isOverdue, OrderDerived.getDaysToShip.
  destruct (Store.o_shippedDate o) as [s|]; cbn.
  - split; [intros _; rewrite orb_true_r; auto|].
    split; intros H; discriminate H.
  - split; [intros H; congruence|].
    split.
    + intros _ required ->. cbn.
      pose proof (Math_ceil_div_bounds (required - now)
                    OrderDerived.MS_PER_DAY eq_refl) as [Hlo Hhi].
      eexists. split; [reflexivity|].
      split; [split; assumption|].
      unfold OrderDerived.MS_PER_DAY in *.
      destruct (Z.ltb_spec required now); repeat split;
        intros; try lia; try discriminate; try reflexivity.
    + intros _ ->. cbn. auto.
Qed.

(** Order 11 of the example store, required two days after the instant
    of the examples. *)
Lemma overdue_and_daysToShip_witness :
  exists d,
    OrderDerived.getDaysToShip
      (Store.mkOrderRow 11 1 (Some 2) (Some 1718000000000)
         (Some (Fixtures.now + 172800000)) None 1 None Store.no_shipTo)
      Fixtures.now = Some d
    /\ (d - 1) * OrderDerived.MS_PER_DAY
       < Fixtures.now + 172800000 - Fixtures.now
       <= d * OrderDerived.MS_PER_DAY
    /\ (OrderDerived.isOverdue
          (Store.mkOrderRow 11 1 (Some 2) (Some 1718000000000)
             (Some (Fixtures.now + 172800000)) None 1 None Store.no_shipTo)
          Fixtures.now = true
        <-> Fixtures.now + 172800000 < Fixtures.now)
    /\ (OrderDerived.isOverdue
          (Store.mkOrderRow 11 1 (Some 2) (Some 1718000000000)
             (Some (Fixtures.now + 172800000)) None 1 None Store.no_shipTo)
          Fixtures.now = true -> d <= 0)
    /\ (d < 0 ->
        OrderDerived.isOverdue
          (Store.mkOrderRow 11 1 (Some 2) (Some 1718000000000)
             (Some (Fixtures.now + 172800000)) None 1 None Store.no_shipTo)
          Fixtures.now = true).
Proof.
  apply (overdue_and_daysToShip
           (Store.mkOrderRow 11 1 (Some 2) (Some 1718000000000)
              (Some (Fixtures.now + 172800000)) None 1 None Store.no_shipTo)
           Fixtures.now); reflexivity.
Defined.

(** ** The status filter of GET /orders *)

Section OrderStatusFilter.
Import Store OrderList.

Variable sql_like : string -> string -> bool.

Lemma build_where_status (q : Query) (currentDate : Z) :
  build_where q currentDate
  = let base := build_where (without_status q) currentDate in
    match status q with
    | None => base
    | Some pending => set_orderDate IsNull base
    | Some processing =>
        set_Op_and [(orderDate, NotNull); (shippedDate, IsNull)] base
    | Some shipped => set_shippedDate NotNull base
    | Some overdue =>
        set_Op_and [(shippedDate, IsNull); (requiredDate, Op_lt currentDate)]
                   base
    end.
Proof. destruct q as [c e s [st|] fd td mf xf sc sy]; reflexivity. Qed.

Lemma where_without_status (q : Query) (currentDate : Z) :
  w_Op_and (build_where (without_status q) currentDate) = None
  /\ w_shippedDate (build_where (without_status q) currentDate) = None.
Proof.
  destruct q as [c e s st fd td mf xf sc sy].
  unfold build_where, without_status.
  cbn [status fromDate toDate minFreight maxFreight].
  destruct (Js.truthy (OrderRoutes.body_date fd)
            || Js.truthy (OrderRoutes.body_date td));
    destruct mf, xf; split; reflexivity.
Qed.

Lemma where_without_dates (q : Query) (currentDate : Z) (c : DateCond) :
  set_orderDate c (build_where (without_status q) currentDate)
  = set_orderDate c
      (build_where (without_status (without_dates q)) currentDate)
  /\ w_orderDate
       (build_where (without_status (without_dates q)) currentDate)
     = None.
Proof.
  destruct q as [cu e s st fd td mf xf sc sy].
  unfold build_where, without_status, without_dates.
  cbn [status fromDate toDate minFreight maxFreight custId employeeId
       shipperId shipCountry shipCity OrderRoutes.body_date Js.truthy orb].
  destruct (Js.truthy (OrderRoutes.body_date fd)
            || Js.truthy (OrderRoutes.body_date td));
    destruct mf, xf; split; reflexivity.
Qed.

Lemma matches_set_Op_and (w : Where) cs (r : OrderRow) :
  w_Op_and w = None ->
  matches sql_like (set_Op_and cs w) r
  = matches sql_like w r && and_matches (Some cs) r.
Proof.
  destruct w; cbn. intros ->. unfold matches; cbn.
  rewrite andb_true_r. reflexivity.
Qed.

Lemma matches_set_shippedDate (w : Where) c (r : OrderRow) :
  w_shippedDate w = None ->
  matches sql_like (set_shippedDate c w) r
  = matches sql_like w r && date_holds c (o_shippedDate r).
Proof.
  destruct w; cbn. intros ->. unfold matches; cbn. btauto.
Qed.

Lemma matches_set_orderDate (w : Where) c (r : OrderRow) :
  w_orderDate w = None ->
  matches sql_like (set_orderDate c w) r
  = matches sql_like w r && date_holds c (o_orderDate r).
Proof.
  destruct w; cbn. intros ->. unfold matches; cbn. btauto.
Qed.

(** X2.  The status parameters processing, shipped and overdue add one
    condition to whatever the other parameters select, and that condition
    is the derived field of the order model: orderStatus 'Processing',
    orderStatus 'Shipped', and isOverdue at the instant of the request. *)
Theorem status_filter_is_derived_status
        (q : Query) (currentDate : Z) (r : OrderRow) :
  match status q with
  | Some processing =>
      matches sql_like (build_where q currentDate) r
      = matches sql_like (build_where (without_status q) currentDate) r
        && match OrderModel.getOrderStatus r with
           | Processing => true
           | _ => false
           end
  | Some shipped =>
      matches sql_like (build_where q currentDate) r
      = matches sql_like (build_where (without_status q) currentDate) r
        && match OrderModel.getOrderStatus r with
           | Shipped => true
           | _ => false
           end
  | Some overdue =>
      matches sql_like (build_where q currentDate) r
      = matches sql_like (build_where (without_status q) currentDate) r
        && OrderDerived.isOverdue r currentDate
  | Some pending | None => True
  end.
Proof.
  rewrite (build_where_status q currentDate).
  destruct (where_without_status q currentDate) as [Hand Hship].
  cbv zeta.
  destruct (status q) as [[| | |]|]; try exact I.
  - rewrite (matches_set_Op_and _ _ _ Hand). f_equal.
    rewrite getOrderStatus_cases. cbn.
    destruct (o_orderDate r), (o_shippedDate r); reflexivity.
  - rewrite (matches_set_shippedDate _ _ _ Hship). f_equal.
    rewrite getOrderStatus_cases. cbn.
    destruct (o_shippedDate r), (o_orderDate r); reflexivity.
  - rewrite (matches_set_Op_and _ _ _ Hand). f_equal.
    unfold OrderDerived.isOverdue. cbn.
    destruct (o_requiredDate r), (o_shippedDate r); cbn;
      rewrite ?andb_true_r; reflexivity.
Qed.

(** X3.  The status parameter pending replaces the condition on orderDate:
    a date range given with fromDate and toDate is dropped, and the rows
    returned are those the other parameters select whose orderDate is
    null.  Every order whose orderStatus is 'Pending' is among them. *)
Theorem pending_filter_replaces_date_range
        (q : Query) (currentDate : Z) (r : OrderRow) :
  status q = Some pending ->
  matches sql_like (build_where q currentDate) r
  = matches sql_like
      (build_where (without_status (without_dates q)) currentDate) r
    && match o_orderDate r with None => true | Some _ => false end
  /\ (OrderModel.getOrderStatus r = Pending -> o_orderDate r = None).
Proof.
  intros Hst. split.
  - rewrite (build_where_status q currentDate), Hst. cbv zeta.
    destruct (where_without_dates q currentDate IsNull) as [-> Hnone].
    rewrite (matches_set_orderDate _ _ _ Hnone). f_equal.
  - rewrite getOrderStatus_cases.
    destruct (o_shippedDate r), (o_orderDate r); congruence.
Qed.

End OrderStatusFilter.

(** Pending orders since 1 June 2024, against order 11 of the example
    store, which has an order date. *)
Lemma pending_filter_replaces_date_range_witness :
  OrderList.matches ProductList.like
    (OrderList.build_where Examples.pending_since_june Fixtures.now)
    Fixtures.order11
  = OrderList.matches ProductList.like
      (OrderList.build_where
         (OrderList.without_status
            (OrderList.without_dates Examples.pending_since_june))
         Fixtures.now)
      Fixtures.order11
    && match Store.o_orderDate Fixtures.order11 with
       | None => true
       | Some _ => false
       end
  /\ (OrderModel.getOrderStatus Fixtures.order11 = Store.Pending ->
      Store.o_orderDate Fixtures.order11 = None).
Proof.
  apply (pending_filter_replaces_date_range ProductList.like
           Examples.pending_since_june Fixtures.now Fixtures.order11).
  reflexivity.
Defined.

(** ** Shipping an order *)

Lemma find_after_update (id : Z) (g : Store.OrderRow -> Store.OrderRow)
      (l : list Store.OrderRow) :
  (forall o, Store.o_orderId (g o) = Store.o_orderId o) ->
  find (fun o => Store.o_orderId o =? id)
       (map (fun o => if Store.o_orderId o =? id then g o else o) l)
  = option_map g (find (fun o => Store.o_orderId o =? id) l).
Proof.
  intros Hg. induction l as [|x l IH]; [reflexivity|]. cbn.
  destruct (Store.o_orderId x =? id) eqn:Hx.
  - rewrite Hg, Hx. reflexivity.
  - rewrite Hx. exact IH.
Qed.

(** X4.  PATCH /orders/:id/ship on an order that exists and is not
    shipped, with no store failure, answers 200 with the order as stored:
    its shippedDate is the body's, or the instant of the request when the
    body has none, and its status is Shipped.  From then on the order is
    closed: shipping it again, PUT and DELETE all answer 400 and leave
    the data as it is. *)
Theorem ship_order_ships
        (db : Store.DB) (id : Z) (body : ShipRoute.ShipBody) (now : Z)
        (o : Store.OrderRow) :
  OrderModel.findByPk id db = Some o ->
  Store.o_shippedDate o = None ->
  let o' :=
    ShipRoute.apply_ship (ShipRoute.shippedDate_of body now)
                         (ShipRoute.s_shipperId body) o in
  let db' :=
    snd (ShipRoute.Order_ship (ShipRoute.shippedDate_of body now)
                              (ShipRoute.s_shipperId body) id db) in
  ShipRoute.ship_order id body now (Store.mkWorld db Store.Idle [])
  = (Store.Responded
       (Store.ok_response 200 "Order shipped successfully"
          (Store.OrderData (Some (o', Store.Shipped)))),
     Store.mkWorld db' Store.Idle [])
  /\ OrderModel.findByPk id db' = Some o'
  /\ Store.o_shippedDate o' = Some (ShipRoute.shippedDate_of body now)
  /\ (ShipRoute.s_shippedDate body = None ->
      Store.o_shippedDate o' = Some now)
  /\ (forall body2 now2,
         ShipRoute.ship_order id body2 now2 (Store.mkWorld db' Store.Idle [])
         = (Store.Responded
              (Store.error_response 400 "Order is already shipped" None),
            Store.mkWorld db' Store.Idle []))
  /\ (forall update,
         OrderRoutes.update_order id update (Store.mkWorld db' Store.Idle [])
         = (Store.Responded
              (Store.error_response 400 "Cannot modify shipped orders" None),
            Store.mkWorld db' Store.Idle []))
  /\ OrderRoutes.delete_order id (Store.mkWorld db' Store.Idle [])
     = (Store.Responded
          (Store.error_response 400 "Cannot delete shipped orders" None),
        Store.mkWorld db' (Store.Active db') []).
Proof.
  intros Hfind Hopen o' db'.
  assert (Hfind' : OrderModel.findByPk id db' = Some o').
  { unfold OrderModel.findByPk, db', ShipRoute.Order_ship.
    cbn [snd Store.orders Store.set_orders].
    rewrite find_after_update by reflexivity.
    unfold OrderModel.findByPk in Hfind. rewrite Hfind. reflexivity. }
  split; [|split; [exact Hfind'|split; [reflexivity|split]]].
  - unfold ShipRoute.ship_order, Store.without_transaction, Store.bind,
      Store.query, Store.store_call, Store.return_, Store.ret.
    cbn [Store.faults Store.tx Store.committed tl].
    rewrite Hfind, Hopen. cbn [OrderModel.date_field Js.truthy].
    cbn [Store.faults Store.tx Store.committed tl].
    unfold OrderModel.findByPk_with_status.
    unfold db', ShipRoute.Order_ship in Hfind' |- *. cbn [snd] in Hfind' |- *.
    cbn [Store.faults Store.tx Store.committed tl].
    rewrite Hfind'. reflexivity.
  - intros Hnone. unfold o', ShipRoute.shippedDate_of. rewrite Hnone.
    reflexivity.
  - assert (Hshipped : Store.o_shippedDate o'
                       = Some (ShipRoute.shippedDate_of body now))
      by reflexivity.
    split; [|split].
    + intros body2 now2.
      unfold ShipRoute.ship_order, Store.without_transaction, Store.bind,
        Store.query, Store.store_call, Store.return_.
      cbn [Store.faults Store.tx Store.committed tl].
      rewrite Hfind', Hshipped. reflexivity.
    + intros update.
      unfold OrderRoutes.update_order, Store.without_transaction,
        Store.bind, Store.query, Store.store_call, Store.return_.
      cbn [Store.faults Store.tx Store.committed tl].
      rewrite Hfind', Hshipped. cbn [OrderModel.date_field Js.truthy andb].
      rewrite body_date_never_identical. reflexivity.
    + unfold OrderRoutes.delete_order, Store.with_transaction, Store.bind,
        Store.query, Store.store_call, Store.return_.
      cbn [Store.faults Store.tx Store.committed Store.set_tx tl].
      rewrite Hfind', Hshipped. reflexivity.
Qed.

(** Order 11 of the example store, shipped with an empty body. *)
Lemma ship_order_ships_witness :
  ShipRoute.ship_order 11 (ShipRoute.mkShipBody None None) Fixtures.now
                       (Fixtures.calm Fixtures.shop)
  = (Store.Responded
       (Store.ok_response 200 "Order shipped successfully"
          (Store.OrderData
             (Some (ShipRoute.apply_ship Fixtures.now None Fixtures.order11,
                    Store.Shipped)))),
     Store.mkWorld
       (snd (ShipRoute.Order_ship Fixtures.now None 11 Fixtures.shop))
       Store.Idle []).
Proof.
  apply (ship_order_ships Fixtures.shop 11 (ShipRoute.mkShipBody None None)
                          Fixtures.now Fixtures.order11); reflexivity.
Defined.

(** ** Age *)

(** X5.  With a birth date, age is the number of birthdays reached: the
    [a]-th birthday is on or before today's date and the next one is after
    it, in the order of year, month and day; [a] is the only such number.
    The time of day plays no part. *)
Theorem getAge_counts_birthdays (birthDate today : JsDate.Date) :
  exists a,
    Employees.getAge (Some birthDate) today = Some a
    /\ JsDate.civil_leb
         (JsDate.mkDate (JsDate.year birthDate + a) (JsDate.month birthDate)
                        (JsDate.day birthDate) 0)
         (JsDate.mkDate (JsDate.year today) (JsDate.month today)
                        (JsDate.day today) 0)
       = true
    /\ JsDate.civil_leb
         (JsDate.mkDate (JsDate.year birthDate + a + 1)
                        (JsDate.month birthDate) (JsDate.day birthDate) 0)
         (JsDate.mkDate (JsDate.year today) (JsDate.month today)
                        (JsDate.day today) 0)
       = false
    /\ (forall a',
           JsDate.civil_leb
             (JsDate.mkDate (JsDate.year birthDate + a')
                            (JsDate.month birthDate) (JsDate.day birthDate) 0)
             (JsDate.mkDate (JsDate.year today) (JsDate.month today)
                            (JsDate.day today) 0)
           = true ->
           a' <= a).
Proof.
  unfold Employees.getAge, JsDate.getFullYear, JsDate.getMonth,
    JsDate.getDate, JsDate.civil_leb.
  cbn [JsDate.year JsDate.month JsDate.day JsDate.msOfDay].
  destruct birthDate as [by_ bm bd bt], today as [ty tm td tt].
  cbn [JsDate.year JsDate.month JsDate.day JsDate.msOfDay].
  destruct (Z.ltb_spec (tm - bm) 0); destruct (Z.eqb_spec (tm - bm) 0);
    destruct (Z.ltb_spec td bd); cbn [orb andb];
    eexists; (split; [reflexivity|]);
    (split; [|split; [|intros a']]);
    repeat match goal with
           | |- context [Z.ltb ?x ?y] => destruct (Z.ltb_spec x y)
           | |- context [Z.leb ?x ?y] => destruct (Z.leb_spec x y)
           end; try reflexivity; try lia; try (intros; lia);
    try (intros Hf; discriminate Hf).
Qed.

(** Born on 15 June 1990, on 15 June 2024. *)
Lemma getAge_counts_birthdays_witness :
  exists a,
    Employees.getAge (Some Fixtures.born_1990_06_15)
                     Fixtures.today_2024_06_15 = Some a
    /\ (forall a',
           JsDate.civil_leb
             (JsDate.mkDate (1990 + a') 5 15 0) (JsDate.mkDate 2024 5 15 0)
           = true ->
           a' <= a).
Proof.
  destruct (getAge_counts_birthdays Fixtures.born_1990_06_15
                                    Fixtures.today_2024_06_15)
    as (a & Hage & _ & _ & Hmax).
  exists a. split; [exact Hage|exact Hmax].
Defined.

(** ** Creating and updating employees *)

(** One step through a handler run in the goal: split on what the next
    store call or test does. *)
Ltac run_step :=
  match goal with
  | |- context [match Store.faults ?w with _ => _ end] =>
      destruct (Store.faults w) as [|[|] ?]
  | |- context [match ?l with _ => _ end] =>
      is_var l;
      match type of l with list bool => destruct l as [|[|] ?] end
  | |- context [match find ?f ?l with _ => _ end] =>
      destruct (find f l) eqn:?
  | |- context [if ?b then _ else _] =>
      destruct b eqn:?
  end;
  cbn [Store.faults Store.tx Store.committed Store.set_tx tl snd fst].

(** X6.  When POST /employees answers 201 for a body with a birth date
    and a hire date, the hire year is at least 16 years after the birth
    year; the age at the hire date, counted in birthdays, is then at least
    15 (the check compares the years only). *)
Theorem hired_employee_year_check
        (body : EmployeeRoutes.EmployeeBody)
        (w w' : Store.World) (r : Store.Response)
        (birth hire : EmployeeRoutes.BodyDate) :
  EmployeeRoutes.create_employee body w = (Store.Responded r, w') ->
  Store.statusCode r = 201 ->
  EmployeeRoutes.b_birthDate body = Some birth ->
  EmployeeRoutes.b_hireDate body = Some hire ->
  EmployeeRoutes.bd_text birth <> ""%string ->
  EmployeeRoutes.bd_text hire <> ""%string ->
  16 <= JsDate.getFullYear (EmployeeRoutes.bd_date hire)
        - JsDate.getFullYear (EmployeeRoutes.bd_date birth)
  /\ exists a,
      Employees.getAge (Some (EmployeeRoutes.bd_date birth))
                       (EmployeeRoutes.bd_date hire) = Some a
      /\ 15 <= a.
Proof.
  intros H H201 Hb Hh Hbt Hht.
  assert (Hyears : 16 <= JsDate.getFullYear (EmployeeRoutes.bd_date hire)
                         - JsDate.getFullYear (EmployeeRoutes.bd_date birth)).
  { unfold EmployeeRoutes.create_employee, Store.without_transaction in H.
    unfold Store.bind, Store.query, Store.store_call, Store.ret,
      Store.return_, EmployeeRoutes.Employee_create in H.
    rewrite Hb, Hh in H.
    assert (Ht : EmployeeRoutes.truthy_date (Some birth)
                 && EmployeeRoutes.truthy_date (Some hire) = true).
    { unfold EmployeeRoutes.truthy_date, Js.truthy.
      destruct (String.eqb_spec (EmployeeRoutes.bd_text birth) "");
        [contradiction|].
      destruct (String.eqb_spec (EmployeeRoutes.bd_text hire) "");
        [contradiction|]. reflexivity. }
    rewrite Ht in H.
    destruct (Z.ltb_spec
                (JsDate.getFullYear (EmployeeRoutes.bd_date hire)
                 - JsDate.getFullYear (EmployeeRoutes.bd_date birth)) 16)
      as [Hlt|Hge]; [|exact Hge].
    exfalso.
    cbn [Store.faults Store.tx Store.committed Store.set_tx tl] in H.
    repeat handler_step H H201. }
  split; [exact Hyears|].
  unfold Employees.getAge.
  destruct (_ || _); eexists; (split; [reflexivity|]); lia.
Qed.

(** Born on 31 December 2000 and hired on 1 January 2016: accepted, at
    the age of 15. *)
Lemma hired_employee_year_check_witness :
  16 <= 2016 - 2000
  /\ exists a,
      Employees.getAge (Some (JsDate.mkDate 2000 11 31 0))
                       (JsDate.mkDate 2016 0 1 0) = Some a
      /\ 15 <= a.
Proof.
  apply (hired_employee_year_check
           (EmployeeRoutes.mkEmployeeBody
              None
              (Some (EmployeeRoutes.mkBodyDate "2000-12-31"
                       (JsDate.mkDate 2000 11 31 0)))
              (Some (EmployeeRoutes.mkBodyDate "2016-01-01"
                       (JsDate.mkDate 2016 0 1 0))))
           (Fixtures.calm Fixtures.shop)
           (Store.mkWorld
              (Store.set_employees
                 (Store.mkEmployeeRow 3 None
                  :: Store.employees Fixtures.shop) Fixtures.shop)
              Store.Idle [])
           (Store.mkResponse 201 true "Employee created successfully" None
                             Store.NoData)
           (EmployeeRoutes.mkBodyDate "2000-12-31"
              (JsDate.mkDate 2000 11 31 0))
           (EmployeeRoutes.mkBodyDate "2016-01-01"
              (JsDate.mkDate 2016 0 1 0)));
    first [reflexivity | discriminate].
Defined.

Lemma number_eqb_double_of (z : Z) :
  EmployeeRoutes.number_eqb (Pagination.double_of z) (Pagination.double_of z)
  = true.
Proof.
  unfold Pagination.double_of.
  destruct (z <? 0);
    [destruct (2 ^ 1024 <=? Pagination.round53 (- z))
    |destruct (2 ^ 1024 <=? Pagination.round53 z)];
    cbn [EmployeeRoutes.number_eqb]; try reflexivity; apply Z.eqb_refl.
Qed.

(** X7.  PUT /employees/:id and DELETE /employees/:id against the rule
    that no employee is their own manager.  A PUT keeps the rule,
    whichever store call fails, when the id and the mgrId are what the
    validators let through, the body does not carry employeeId, and the
    mgrId is a JSON number, or a string that is spelled as the id of
    the path whenever it denotes the same number (the handler compares
    the two strings as strings).  A DELETE always keeps it. *)
Theorem no_self_manager_is_kept (w : Store.World) :
  EmployeeRoutes.no_self_manager (Store.committed w) ->
  (forall id body,
      EmployeeRoutes.isInt_min1 id = true ->
      EmployeeRoutes.valid_mgrId (EmployeeRoutes.eu_mgrId body) = true ->
      EmployeeRoutes.eu_employeeId body = None ->
      match EmployeeRoutes.eu_mgrId body with
      | Some (EmployeeRoutes.Text s) =>
          EmployeeRoutes.int_of_text s = EmployeeRoutes.int_of_text id ->
          s = id
      | _ => True
      end ->
      EmployeeRoutes.no_self_manager
        (Store.committed (snd (EmployeeRoutes.update_employee id body w))))
  /\ (forall req,
         EmployeeRoutes.no_self_manager
           (Store.committed (snd (DeleteRoutes.delete_employee req w)))).
Proof.
  intros Hinv. split.
  - intros id body Hvalid_id Hvalid_mgrId Hkey Hspelled.
    assert (Hid : EmployeeRoutes.int_of_text id <> 0).
    { unfold EmployeeRoutes.isInt_min1 in Hvalid_id.
      apply andb_true_iff in Hvalid_id. destruct Hvalid_id as [_ Hmin].
      apply Z.leb_le in Hmin. lia. }
    clear Hvalid_id Hvalid_mgrId.
    unfold EmployeeRoutes.update_employee, Store.without_transaction,
      Store.bind, Store.query, Store.store_call, EmployeeRoutes.store_try,
      Store.ret, Store.return_, EmployeeRoutes.Employee_update,
      EmployeeRoutes.Employee_findByPk.
    rewrite Hkey.
    cbn [Store.faults Store.tx Store.committed Store.set_tx tl snd fst].
    repeat run_step; try exact Hinv.
    all: intros row Hrow; cbn [Store.employees Store.set_employees] in Hrow;
      apply in_map_iff in Hrow; destruct Hrow as (old & <- & Hin);
      specialize (Hinv old Hin);
      destruct (Store.e_employeeId old =? EmployeeRoutes.int_of_text id)
        eqn:Hid0; [|exact Hinv];
      apply Z.eqb_eq in Hid0;
      unfold EmployeeRoutes.apply_update; rewrite Hkey;
      cbn [Store.e_mgrId Store.e_employeeId].
    all: destruct (EmployeeRoutes.eu_mgrId body) as [[n|s]|] eqn:Hk;
      cbn [EmployeeRoutes.int_value EmployeeRoutes.truthy_field
           EmployeeRoutes.loose_eq] in *;
      try exact Hinv.
    all: intros [= Hself].
    all: repeat match goal with
                | Hf : negb _ = false |- _ => apply negb_false_iff in Hf
                | Hf : negb _ = true |- _ => apply negb_true_iff in Hf
                | Hf : EmployeeRoutes.number_eqb
                         (Pagination.double_of ?n) (Pagination.double_of ?m)
                       = false |- _ =>
                    assert (n <> m)
                      by (intros ->; rewrite number_eqb_double_of in Hf;
                          discriminate Hf);
                    clear Hf
                | Hf : (_ =? _) = true |- _ => apply Z.eqb_eq in Hf
                | Hf : (_ =? _) = false |- _ => apply Z.eqb_neq in Hf
                | Hf : String.eqb _ _ = false |- _ =>
                    apply String.eqb_neq in Hf
                | Hf : String.eqb _ _ = true |- _ =>
                    apply String.eqb_eq in Hf
                end.
    all: first [lia | congruence
               | (assert (s = id) by (apply Hspelled; lia); congruence)
               | (subst s; cbn in Hself; lia)].
  - intros req.
    unfold DeleteRoutes.delete_employee, Store.without_transaction,
      Store.bind, Store.query, Store.store_call, Store.ret, Store.return_,
      DeleteRoutes.Employee_destroy, DeleteRoutes.destroy.
    cbn [Store.faults Store.tx Store.committed Store.set_tx tl snd fst].
    repeat run_step; try exact Hinv.
    all: intros row Hrow; cbn [Store.employees Store.set_employees] in Hrow;
      apply filter_In in Hrow; apply Hinv, Hrow.
Qed.

(** In the example store nobody manages themselves; employee 1 is put
    under employee 2 by number. *)
Lemma no_self_manager_is_kept_witness :
  EmployeeRoutes.no_self_manager
    (Store.committed
       (snd (EmployeeRoutes.update_employee "1"
               (EmployeeRoutes.mkEmployeeUpdate
                  None (Some (EmployeeRoutes.Num 2)) false)
               (Fixtures.calm Fixtures.shop)))).
Proof.
  apply (no_self_manager_is_kept (Fixtures.calm Fixtures.shop)).
  - intros e [<-|[<-|[]]]; discriminate.
  - reflexivity.
  - reflexivity.
  - reflexivity.
  - exact I.
Defined.

(** ** The hierarchy of GET /employees/hierarchy *)

Section Hierarchy.
Import Store EmployeeRoutes.

Variable employees : list EmployeeRow.

Lemma same_manager_Some (m : option Z) (id : Z) :
  same_manager m (Some id) = true <-> m = Some id.
Proof.
  destruct m as [a|]; cbn; [|split; discriminate].
  rewrite Z.eqb_eq. split; congruence.
Qed.

Lemma same_manager_None (m : option Z) :
  same_manager m None = true <-> m = None.
Proof. destruct m; cbn; split; congruence. Qed.

Lemma all_some_total {A B} (g : A -> option B) (l : list A) :
  (forall x, In x l -> exists y, g x = Some y) ->
  exists r, all_some (map g l) = Some r.
Proof.
  induction l as [|x l IH]; intros H; cbn; [eauto|].
  destruct (H x (or_introl eq_refl)) as [y ->].
  destruct IH as [r ->]; [intros; apply H; right; assumption|]. eauto.
Qed.

Lemma all_some_ext {A B} (g h : A -> option B) (l : list A) (r : list B) :
  (forall x y, In x l -> g x = Some y -> h x = Some y) ->
  all_some (map g l) = Some r -> all_some (map h l) = Some r.
Proof.
  revert r. induction l as [|x l IH]; intros r H; cbn; [auto|].
  destruct (g x) as [y|] eqn:Hg; [|discriminate].
  rewrite (H x y (or_introl eq_refl) Hg).
  destruct (all_some (map g l)) as [r'|]; [|discriminate].
  rewrite (IH r'); [auto| |reflexivity].
  intros; apply H; [right|]; assumption.
Qed.

Lemma all_some_In {A B} (g : A -> option B) (l : list A) (r : list B) :
  all_some (map g l) = Some r ->
  forall y, In y r <-> exists x, In x l /\ g x = Some y.
Proof.
  revert r. induction l as [|x l IH]; intros r; cbn.
  - intros [= <-] y. split; [intros []|intros (x & [] & _)].
  - destruct (g x) as [y0|] eqn:Hg; [|discriminate].
    destruct (all_some (map g l)) as [r'|]; [|discriminate].
    intros [= <-] y. cbn. rewrite (IH r' eq_refl y). split.
    + intros [<-|(x' & Hin & Hx')]; eauto.
    + intros (x' & [<-|Hin] & Hx'); [left; congruence|eauto].
Qed.

(** More of the bound changes nothing. *)
Lemma buildHierarchy_more_fuel (fuel : nat) :
  forall managerId forest,
    buildHierarchy fuel employees managerId = Some forest ->
    buildHierarchy (S fuel) employees managerId = Some forest.
Proof.
  induction fuel as [|fuel IH]; intros managerId forest; [discriminate|].
  intros H. cbn [buildHierarchy] in H |- *.
  revert H. apply all_some_ext. intros emp t _.
  destruct (buildHierarchy fuel employees (Some (e_employeeId emp)))
    as [subs|] eqn:Hsubs; [|discriminate].
  apply IH in Hsubs. cbn [buildHierarchy] in Hsubs. rewrite Hsubs. auto.
Qed.

Lemma buildHierarchy_fuel_le (fuel fuel' : nat) managerId forest :
  (fuel <= fuel')%nat ->
  buildHierarchy fuel employees managerId = Some forest ->
  buildHierarchy fuel' employees managerId = Some forest.
Proof.
  induction 1 as [|fuel' _ IH]; [auto|].
  intros H. apply buildHierarchy_more_fuel, IH, H.
Qed.

(** Who is in the forest. *)
Lemma descends_under (managerId : option Z) (e : EmployeeRow) :
  descends employees managerId e <->
  exists emp,
    In emp employees
    /\ same_manager (e_mgrId emp) managerId = true
    /\ (e = emp \/ descends employees (Some (e_employeeId emp)) e).
Proof.
  split.
  - induction 1 as [e Hin Hm|p c Hp IH Hin Hc].
    + exists e. auto.
    + destruct IH as (emp & Hemp & Hm & [->|Hd]); exists emp;
        (split; [assumption|split; [assumption|right]]).
      * apply descends_child; [assumption|].
        apply same_manager_Some; assumption.
      * eapply descends_step; eassumption.
  - intros (emp & Hemp & Hm & [->|Hd]); [apply descends_child; assumption|].
    induction Hd as [e Hin He|p c Hp IH Hin Hc].
    + apply same_manager_Some in He.
      apply (descends_step _ _ emp e);
        [apply descends_child; assumption|assumption|assumption].
    + eapply descends_step; eassumption.
Qed.

Lemma hierarchy_members (fuel : nat) :
  forall managerId forest,
    buildHierarchy fuel employees managerId = Some forest ->
    forall e,
      In e (forest_employees forest) <-> descends employees managerId e.
Proof.
  induction fuel as [|fuel IH]; intros managerId forest; [discriminate|].
  cbn [buildHierarchy]. intros H e.
  pose proof (all_some_In _ _ _ H) as Hforest.
  rewrite descends_under. unfold forest_employees. rewrite in_flat_map.
  split.
  - intros (t & Ht & He). apply Hforest in Ht.
    destruct Ht as (emp & Hemp & Hbuild).
    apply filter_In in Hemp. destruct Hemp as [Hemp Hm].
    destruct (buildHierarchy fuel employees (Some (e_employeeId emp)))
      as [subs|] eqn:Hsubs; [|discriminate].
    injection Hbuild as <-. exists emp. split; [assumption|].
    split; [assumption|]. cbn in He. destruct He as [<-|He]; [auto|].
    right. apply (IH _ _ Hsubs). exact He.
  - intros (emp & Hemp & Hm & He).
    assert (Hf : In emp (filter
                           (fun emp => same_manager (e_mgrId emp) managerId)
                           employees))
      by (apply filter_In; auto).
    destruct (buildHierarchy fuel employees (Some (e_employeeId emp)))
      as [subs|] eqn:Hsubs.
    + exists (Node emp subs). split.
      * apply Hforest. exists emp. rewrite Hsubs. auto.
      * cbn. destruct He as [->|He]; [auto|].
        right. apply (IH _ _ Hsubs). exact He.
    + exfalso.
      destruct (all_some_In _ _ _ H (Node emp [])) as [_ Hx].
      clear Hx.
      assert (Hnone : exists r, all_some
                (map (fun emp =>
                        match buildHierarchy fuel employees
                                (Some (e_employeeId emp)) with
                        | Some subordinates => Some (Node emp subordinates)
                        | None => None
                        end)
                     (filter (fun emp => same_manager (e_mgrId emp) managerId)
                             employees)) = Some r) by eauto.
      clear H Hforest. revert Hnone Hf.
      induction (filter (fun emp => same_manager (e_mgrId emp) managerId)
                        employees) as [|x l IHl]; [intros _ []|].
      cbn. intros [r Hr] [->|Hin].
      * rewrite Hsubs in Hr. discriminate.
      * destruct (buildHierarchy fuel employees (Some (e_employeeId x)));
          [|discriminate].
        destruct (all_some _) as [r'|] eqn:Hr'; [|discriminate].
        apply IHl; eauto.
Qed.

Lemma descends_chain (e : EmployeeRow) :
  descends employees None e <-> exists rest, chain employees (e :: rest).
Proof.
  split.
  - induction 1 as [e Hin Hm|p c Hp [rest IH] Hin Hc].
    + apply same_manager_None in Hm. exists []. constructor; assumption.
    + exists (p :: rest). constructor; assumption.
  - intros [rest H]. remember (e :: rest) as l eqn:Hl.
    revert e rest Hl.
    induction H as [r Hr Hroot|c p rest' Hrest IH Hc Hm];
      intros e rest [= <- <-].
    + apply descends_child; [assumption|].
      apply same_manager_None; assumption.
    + apply (descends_step _ _ p c); [|assumption|assumption].
      apply (IH p rest' eq_refl).
Qed.

Hypothesis ids_distinct : NoDup (map e_employeeId employees).

Lemma same_id_same_row (a b : EmployeeRow) :
  In a employees -> In b employees ->
  e_employeeId a = e_employeeId b -> a = b.
Proof.
  clear -ids_distinct. revert ids_distinct.
  induction employees as [|x l IH]; cbn; [intros _ []|].
  intros Hnd. inversion Hnd as [|? ? Hx Hl]; subst.
  intros [->|Ha] [->|Hb] Heq; auto.
  - exfalso. apply Hx. rewrite Heq. apply in_map. assumption.
  - exfalso. apply Hx. rewrite <- Heq. apply in_map. assumption.
Qed.

Lemma chain_incl (l : list EmployeeRow) :
  chain employees l -> forall e, In e l -> In e employees.
Proof.
  induction 1 as [r Hr _|c p rest _ IH Hc _]; intros e; cbn.
  - intros [<-|[]]. assumption.
  - intros [<-|He]; [assumption|]. apply IH. exact He.
Qed.

(** A line of managers is fixed by the employee it starts from. *)
Lemma chain_unique (l1 : list EmployeeRow) :
  chain employees l1 ->
  forall l2, chain employees l2 -> hd_error l1 = hd_error l2 -> l1 = l2.
Proof.
  induction 1 as [r Hr Hroot|c p rest Hrest IH Hc Hm];
    intros l2 H2 Hhd; destruct H2 as [r' Hr' Hroot'|c' p' rest' Hrest' Hc' Hm'];
    cbn in Hhd; injection Hhd as <-.
  - reflexivity.
  - congruence.
  - congruence.
  - f_equal. apply IH; [assumption|]. cbn. f_equal.
    apply same_id_same_row.
    + apply (chain_incl _ Hrest). left. reflexivity.
    + apply (chain_incl _ Hrest'). left. reflexivity.
    + congruence.
Qed.

Lemma chain_suffix (l : list EmployeeRow) :
  chain employees l ->
  forall e, In e l ->
  exists t,
    chain employees (e :: t)
    /\ (List.length (e :: t) <= List.length l)%nat.
Proof.
  induction 1 as [r Hr Hroot|c p rest Hrest IH Hc Hm]; intros e.
  - intros [<-|[]]. exists []. split; [constructor; assumption|auto].
  - intros [<-|He].
    + exists (p :: rest). split; [constructor; assumption|auto].
    + destruct (IH e He) as (t & Ht & Hlen). exists t.
      split; [assumption|]. cbn in *. lia.
Qed.

Lemma chain_NoDup (l : list EmployeeRow) :
  chain employees l -> NoDup l.
Proof.
  induction 1 as [r Hr Hroot|c p rest Hrest IH Hc Hm].
  - constructor; [intros []|constructor].
  - constructor; [|assumption]. intros Hin.
    destruct (chain_suffix _ Hrest c Hin) as (t & Ht & Hlen).
    assert (Heq : c :: t = c :: p :: rest).
    { apply chain_unique; [assumption| |reflexivity].
      constructor; assumption. }
    injection Heq as ->. cbn in Hlen. lia.
Qed.

Lemma chain_length (l : list EmployeeRow) :
  chain employees l -> (List.length l <= List.length employees)%nat.
Proof.
  intros H. apply NoDup_incl_length; [apply chain_NoDup; assumption|].
  intros e. apply chain_incl. assumption.
Qed.

Lemma buildHierarchy_under_chain (fuel : nat) :
  forall p rest,
    chain employees (p :: rest) ->
    (List.length employees < List.length (p :: rest) + fuel)%nat ->
    exists forest,
      buildHierarchy fuel employees (Some (e_employeeId p)) = Some forest.
Proof.
  induction fuel as [|fuel IH]; intros p rest Hchain Hlen.
  - apply chain_length in Hchain. lia.
  - cbn [buildHierarchy]. apply all_some_total. intros emp Hemp.
    apply filter_In in Hemp. destruct Hemp as [Hemp Hm].
    apply same_manager_Some in Hm.
    destruct (IH emp (p :: rest)) as [subs ->]; [|cbn in *; lia|eauto].
    constructor; assumption.
Qed.

End Hierarchy.

(** X8.  When the employee ids are distinct, [buildHierarchy] returns:
    the recursion is never deeper than the number of employees, also when
    employees manage each other in a circle, and every bound above that
    number gives the same forest. *)
Theorem hierarchy_is_built (employees : list Store.EmployeeRow) :
  NoDup (map Store.e_employeeId employees) ->
  exists forest,
    forall fuel,
      (List.length employees < fuel)%nat ->
      EmployeeRoutes.buildHierarchy fuel employees None = Some forest.
Proof.
  intros Hids.
  assert (H : exists forest,
             EmployeeRoutes.buildHierarchy (S (List.length employees))
                                           employees None = Some forest).
  { cbn [EmployeeRoutes.buildHierarchy]. apply all_some_total.
    intros emp Hemp. apply filter_In in Hemp. destruct Hemp as [Hemp Hm].
    apply same_manager_None in Hm.
    destruct (buildHierarchy_under_chain employees Hids
                (List.length employees) emp [])
      as [subs ->]; [constructor; assumption|cbn; lia|eauto]. }
  destruct H as [forest H]. exists forest. intros fuel Hfuel.
  apply (buildHierarchy_fuel_le employees (S (List.length employees)));
    [lia|exact H].
Qed.

(** Five employees, two of them managing each other. *)
Lemma hierarchy_is_built_witness :
  exists forest,
    forall fuel,
      (List.length Examples.staff < fuel)%nat ->
      EmployeeRoutes.buildHierarchy fuel Examples.staff None = Some forest.
Proof.
  apply (hierarchy_is_built Examples.staff).
  repeat constructor; cbn; intuition discriminate.
Defined.

(** X9.  The forest that [buildHierarchy] returns for a manager holds the
    employees that report to that manager, directly or through a line of
    managers, and no others.  From [null] these are the employees whose
    line of managers ends at an employee without manager: employees that
    manage each other in a circle are left out. *)
Theorem hierarchy_holds_the_reports
        (employees : list Store.EmployeeRow) (fuel : nat)
        (managerId : option Z) (forest : list EmployeeRoutes.Tree) :
  EmployeeRoutes.buildHierarchy fuel employees managerId = Some forest ->
  (forall e,
      In e (EmployeeRoutes.forest_employees forest)
      <-> EmployeeRoutes.descends employees managerId e)
  /\ (managerId = None ->
      forall e,
        In e (EmployeeRoutes.forest_employees forest)
        <-> exists rest, EmployeeRoutes.chain employees (e :: rest)).
Proof.
  intros H. split.
  - apply (hierarchy_members employees fuel). exact H.
  - intros -> e. rewrite <- descends_chain.
    apply (hierarchy_members employees fuel). exact H.
Qed.

(** The forest of the five employees holds 1, 2 and 3. *)
Lemma hierarchy_holds_the_reports_witness :
  (forall e,
      In e [Store.mkEmployeeRow 1 None; Store.mkEmployeeRow 2 (Some 1);
            Store.mkEmployeeRow 3 (Some 1)]
      <-> EmployeeRoutes.descends Examples.staff None e)
  /\ (@None Z = None ->
      forall e,
        In e [Store.mkEmployeeRow 1 None; Store.mkEmployeeRow 2 (Some 1);
              Store.mkEmployeeRow 3 (Some 1)]
        <-> exists rest, EmployeeRoutes.chain Examples.staff (e :: rest)).
Proof.
  apply (hierarchy_holds_the_reports Examples.staff 6 None
           [EmployeeRoutes.Node (Store.mkEmployeeRow 1 None)
              [EmployeeRoutes.Node (Store.mkEmployeeRow 2 (Some 1)) [];
               EmployeeRoutes.Node (Store.mkEmployeeRow 3 (Some 1)) []]]).
  reflexivity.
Defined.

(** ** Deleting keeps the references whole *)

Section KeepsIntegrity.
Import Store DeleteRoutes Integrity.

Lemma count_zero_none {A} (hit : A -> bool) (l : list A) :
  count hit l <= 0 -> forall x, In x l -> hit x = false.
Proof.
  unfold count. intros H x Hx.
  destruct (hit x) eqn:Hhit; [|reflexivity].
  assert (Hin : In x (filter hit l)) by (apply filter_In; auto).
  destruct (filter hit l); [destruct Hin|cbn in H; lia].
Qed.

Lemma integrity_without_product (id : Z) (db : DB) :
  referential_integrity db ->
  (forall d, In d (orderDetails db) -> (od_productId d =? id) = false) ->
  referential_integrity (snd (Product_destroy id db)).
Proof.
  intros (Hd & Hp & Ho & He) Hfree. cbn.
  split; [|split; [|split]]; cbn; try assumption.
  - intros d Hin. destruct (Hd d Hin) as [Hord (p & Hpin & Hpid)].
    split; [assumption|]. exists p. split; [|assumption].
    apply filter_In. split; [assumption|].
    rewrite Hpid, (Hfree d Hin). reflexivity.
  - intros p c Hin. apply filter_In in Hin. apply Hp, Hin.
Qed.

Lemma integrity_without_lines (hit : OrderDetailRow -> bool) (db : DB) :
  referential_integrity db ->
  referential_integrity
    (set_orderDetails (snd (destroy hit (orderDetails db))) db).
Proof.
  intros (Hd & Hp & Ho & He).
  split; [|split; [|split]]; cbn; try assumption.
  intros d Hin. apply filter_In in Hin. apply Hd, Hin.
Qed.

Lemma lines_after_destroy (hit : OrderDetailRow -> bool)
      (l : list OrderDetailRow) :
  forall d, In d (snd (destroy hit l)) -> hit d = false.
Proof.
  cbn. intros d Hin. apply filter_In in Hin.
  destruct Hin as [_ H]. destruct (hit d); [discriminate|reflexivity].
Qed.

Lemma integrity_cleared_category (id : Z) (db : DB) :
  referential_integrity db ->
  referential_integrity (snd (Product_clear_categoryId id db))
  /\ (forall p, In p (products (snd (Product_clear_categoryId id db))) ->
        opt_eqb (p_categoryId p) id = false).
Proof.
  intros (Hd & Hp & Ho & He). cbn.
  split; [split; [|split; [|split]]|]; cbn; try assumption.
  - intros d Hin. destruct (Hd d Hin) as [Hord (p & Hpin & Hpid)].
    split; [assumption|].
    exists (if opt_eqb (p_categoryId p) id
            then mkProductRow (p_productId p) (p_productName p) None
                              (p_discontinued p)
            else p).
    split; [|destruct (opt_eqb (p_categoryId p) id); assumption].
    apply in_map_iff. exists p. auto.
  - intros p c Hin. apply in_map_iff in Hin.
    destruct Hin as (q & <- & Hq).
    destruct (opt_eqb (p_categoryId q) id); [discriminate|]. apply Hp, Hq.
  - intros p Hin. apply in_map_iff in Hin.
    destruct Hin as (q & <- & Hq).
    destruct (opt_eqb (p_categoryId q) id) eqn:Hc; [reflexivity|exact Hc].
Qed.

Lemma integrity_without_category (id : Z) (db : DB) :
  referential_integrity db ->
  (forall p, In p (products db) -> opt_eqb (p_categoryId p) id = false) ->
  referential_integrity (snd (Category_destroy id db)).
Proof.
  intros (Hd & Hp & Ho & He) Hfree. cbn.
  split; [|split; [|split]]; cbn; try assumption.
  intros p c Hin Hc. apply filter_In. split; [apply (Hp p c Hin Hc)|].
  specialize (Hfree p Hin). rewrite Hc in Hfree. cbn in Hfree.
  rewrite Hfree. reflexivity.
Qed.

Lemma integrity_without_employee (id : Z) (db : DB) :
  referential_integrity db ->
  (forall o, In o (orders db) -> opt_eqb (o_employeeId o) id = false) ->
  (forall e, In e (employees db) -> opt_eqb (e_mgrId e) id = false) ->
  referential_integrity (snd (Employee_destroy id db)).
Proof.
  intros (Hd & Hp & Ho & He) Hord Hsub. cbn.
  split; [|split; [|split]]; cbn; try assumption.
  - intros o Hin. destruct (Ho o Hin) as (Hc & Hs & Hemp).
    split; [assumption|split; [assumption|]].
    intros e Heq. destruct (Hemp e Heq) as (r & Hr & Hid).
    exists r. split; [|assumption]. apply filter_In. split; [assumption|].
    specialize (Hord o Hin). rewrite Heq in Hord. cbn in Hord.
    rewrite Hid, Hord. reflexivity.
  - intros e m Hin Hm. apply filter_In in Hin. destruct Hin as [Hin _].
    destruct (He e m Hin Hm) as (r & Hr & Hid).
    exists r. split; [|assumption]. apply filter_In. split; [assumption|].
    specialize (Hsub e Hin). rewrite Hm in Hsub. cbn in Hsub.
    rewrite Hid, Hsub. reflexivity.
Qed.

Lemma integrity_without_customer (id : Z) (db : DB) :
  referential_integrity db ->
  (forall o, In o (orders db) -> (o_custId o =? id) = false) ->
  referential_integrity (snd (Customer_destroy id db)).
Proof.
  intros (Hd & Hp & Ho & He) Hord. cbn.
  split; [|split; [|split]]; cbn; try assumption.
  intros o Hin. destruct (Ho o Hin) as (Hc & Hs & Hemp).
  split; [|split; assumption].
  apply filter_In. split; [assumption|]. rewrite (Hord o Hin). reflexivity.
Qed.

Lemma integrity_without_order (id : Z) (db : DB) :
  referential_integrity db ->
  (forall d, In d (orderDetails db) -> (od_orderId d =? id) = false) ->
  referential_integrity
    (set_orders (snd (destroy (fun o => o_orderId o =? id) (orders db))) db).
Proof.
  intros (Hd & Hp & Ho & He) Hfree.
  split; [|split; [|split]]; cbn; try assumption.
  - intros d Hin. destruct (Hd d Hin) as [(o & Hoin & Hoid) Hprod].
    split; [|assumption]. exists o. split; [|assumption].
    apply filter_In. split; [assumption|].
    rewrite Hoid, (Hfree d Hin). reflexivity.
  - intros o Hin. apply filter_In in Hin. apply Ho, Hin.
Qed.

(** From the two tests on a count of dependents: none is left. *)
Lemma no_dependents (force : bool) (n : Z) :
  (0 <? n) && negb force = false ->
  force && (0 <? n) = false ->
  n <= 0.
Proof.
  destruct (Z.ltb_spec 0 n); [|lia]. destruct force; discriminate.
Qed.

End KeepsIntegrity.

(** X10.  The delete handlers keep the references between the tables
    whole.  When every order line has its order and its product, every
    product its category, every order its customer, shipper and employee
    and every employee their manager, this is still so after
    DELETE /products/:id, /categories/:id, /employees/:id, /customers/:id
    and /orders/:id, with or without force=true, and whichever store call
    fails on the way. *)
Theorem deletes_keep_references (w : Store.World) :
  Integrity.referential_integrity (Store.committed w) ->
  (forall req,
      Integrity.referential_integrity
        (Store.committed (snd (DeleteRoutes.delete_product req w))))
  /\ (forall req,
         Integrity.referential_integrity
           (Store.committed (snd (DeleteRoutes.delete_category req w))))
  /\ (forall req,
         Integrity.referential_integrity
           (Store.committed (snd (DeleteRoutes.delete_employee req w))))
  /\ (forall req,
         Integrity.referential_integrity
           (Store.committed (snd (DeleteRoutes.delete_customer req w))))
  /\ (forall id,
         Integrity.referential_integrity
           (Store.committed (snd (OrderRoutes.delete_order id w)))).
Proof.
  intros Hinv. split; [|split; [|split; [|split]]].
  - intros req.
    unfold DeleteRoutes.delete_product, Store.with_transaction,
      Store.bind, Store.query, Store.store_call, Store.ret, Store.return_,
      Store.commit, Store.rollback, DeleteRoutes.OrderDetail_destroy_productId,
      DeleteRoutes.Product_destroy, DeleteRoutes.destroy.
    cbn [Store.faults Store.tx Store.committed Store.set_tx tl snd fst].
    repeat run_step; try exact Hinv.
    all: match goal with
         | |- Integrity.referential_integrity
                (Store.set_products _ (Store.set_orderDetails _ ?db)) =>
             apply (integrity_without_product _
                      (snd (DeleteRoutes.OrderDetail_destroy_productId
                              (DeleteRoutes.id req) db)));
             [apply (integrity_without_lines
                       (fun d => Store.od_productId d =? DeleteRoutes.id req)
                       db);
              exact Hinv
             |apply lines_after_destroy]
         | |- Integrity.referential_integrity (Store.set_products _ ?db) =>
             apply (integrity_without_product _ db); [exact Hinv|];
             apply count_zero_none;
             eapply no_dependents; eassumption
         end.
  - intros req.
    unfold DeleteRoutes.delete_category, Store.with_transaction,
      Store.bind, Store.query, Store.store_call, Store.ret, Store.return_,
      Store.commit, Store.rollback, DeleteRoutes.Product_clear_categoryId,
      DeleteRoutes.Category_destroy, DeleteRoutes.destroy.
    cbn [Store.faults Store.tx Store.committed Store.set_tx tl snd fst].
    repeat run_step; try exact Hinv.
    all: match goal with
         | |- Integrity.referential_integrity
                (Store.set_categories _ (Store.set_products _ ?db)) =>
             destruct (integrity_cleared_category (DeleteRoutes.id req) db
                         Hinv) as [Hcleared Hfree];
             exact (integrity_without_category (DeleteRoutes.id req) _
                      Hcleared Hfree)
         | |- Integrity.referential_integrity
                (Store.set_categories _ ?db) =>
             apply (integrity_without_category _ db); [exact Hinv|];
             apply (count_zero_none
                      (fun p => Store.opt_eqb (Store.p_categoryId p)
                                              (DeleteRoutes.id req)));
             eapply no_dependents; eassumption
         end.
  - intros req.
    unfold DeleteRoutes.delete_employee, Store.without_transaction,
      Store.bind, Store.query, Store.store_call, Store.ret, Store.return_,
      DeleteRoutes.Employee_destroy, DeleteRoutes.destroy.
    cbn [Store.faults Store.tx Store.committed Store.set_tx tl snd fst].
    repeat run_step; try exact Hinv.
    all: apply (integrity_without_employee _ _ Hinv);
      [apply (count_zero_none
                (fun o => Store.opt_eqb (Store.o_employeeId o)
                                        (DeleteRoutes.id req)))
      |apply (count_zero_none
                (fun e => Store.opt_eqb (Store.e_mgrId e)
                                        (DeleteRoutes.id req)))];
      apply Z.ltb_ge; assumption.
  - intros req.
    unfold DeleteRoutes.delete_customer, Store.without_transaction,
      Store.bind, Store.query, Store.store_call, Store.ret, Store.return_,
      DeleteRoutes.Customer_destroy, DeleteRoutes.destroy.
    cbn [Store.faults Store.tx Store.committed Store.set_tx tl snd fst].
    repeat run_step; try exact Hinv.
    all: apply (integrity_without_customer _ _ Hinv);
      apply (count_zero_none
               (fun o => Store.o_custId o =? DeleteRoutes.id req));
      apply Z.ltb_ge; assumption.
  - intros id.
    unfold OrderRoutes.delete_order, Store.with_transaction,
      Store.bind, Store.query, Store.store_call, Store.ret, Store.return_,
      Store.commit, Store.rollback, DeleteRoutes.destroy,
      OrderModel.findByPk.
    cbn [Store.faults Store.tx Store.committed Store.set_tx tl snd fst].
    repeat run_step; try exact Hinv.
    all: match goal with
         | |- Integrity.referential_integrity
                (Store.set_orders _ (Store.set_orderDetails _ ?db)) =>
             apply (integrity_without_order id
                      (Store.set_orderDetails
                         (snd (DeleteRoutes.destroy
                                 (fun d => Store.od_orderId d =? id)
                                 (Store.orderDetails db))) db));
             [apply (integrity_without_lines
                       (fun d => Store.od_orderId d =? id) db);
              exact Hinv
             |apply lines_after_destroy]
         end.
Qed.

(** The example store, and a forced delete of product 1, which is on two
    order lines. *)
Lemma deletes_keep_references_witness :
  Integrity.referential_integrity
    (Store.committed
       (snd (DeleteRoutes.delete_product
               (DeleteRoutes.mkRequest 1 (Some Js.P_true))
               (Fixtures.calm Fixtures.shop)))).
Proof.
  apply (deletes_keep_references (Fixtures.calm Fixtures.shop)).
  unfold Integrity.referential_integrity. cbn.
  split; [|split; [|split]].
  - intros d [<-|[<-|[]]]; cbn; eauto 12.
  - intros p c [<-|[<-|[]]] [= <-]; auto.
  - intros o [<-|[<-|[]]]; cbn; (split; [auto|split; [auto|]]);
      intros e [= <-]; eauto 12.
  - intros e m [<-|[<-|[]]]; cbn; intros [= <-]; eauto 12.
Defined.

(** ** POST /orders, whatever fails *)

(** X11.  POST /orders stores the order and its lines together or not at
    all.  Whatever the body and whichever store calls fail, the committed
    data is afterwards what it was, or it is the data with the new order
    and all its lines; in the second case the answer is 201, or, when the
    read that follows the commit fails, the handler's promise rejects
    without an answer (the rollback of the catch block throws on the
    committed transaction). *)
Theorem create_order_all_or_nothing
        (body : OrderRoutes.OrderBody) (now : Z) (w : Store.World) :
  let db := Store.committed w in
  let orderDate :=
    if Js.truthy (OrderRoutes.body_date (OrderRoutes.b_orderDate body))
    then OrderRoutes.instant_of (OrderRoutes.b_orderDate body)
    else Some now in
  let order := fst (OrderRoutes.Order_create body orderDate db) in
  let lines :=
    map (fun detail =>
           Store.mkOrderDetailRow
             (Store.o_orderId order) (OrderRoutes.d_productId detail)
             (OrderRoutes.d_unitPrice detail) (OrderRoutes.d_quantity detail)
             (OrderRoutes.discount_or_0 (OrderRoutes.d_discount detail)))
        (OrderRoutes.b_orderDetails body) in
  let stored :=
    Store.set_orderDetails (lines ++ Store.orderDetails db)
                           (Store.set_orders (order :: Store.orders db) db) in
  let out := OrderRoutes.create_order body now w in
  Store.committed (snd out) = db
  \/ (Store.committed (snd out) = stored
      /\ (fst out = Store.Rejected
          \/ exists data,
               fst out
               = Store.Responded
                   (Store.mkResponse 201 true "Order created successfully"
                                     None data))).
Proof.
  cbv zeta.
  unfold OrderRoutes.create_order, Store.with_transaction,
    Store.bind, Store.query, Store.store_call, Store.ret, Store.return_,
    Store.commit, Store.rollback, OrderRoutes.Order_create.
  cbn [Store.faults Store.tx Store.committed Store.set_tx tl snd fst].
  repeat run_step; try (left; reflexivity).
  all: right; (split; [reflexivity|]); cbn [fst]; eauto.
Qed.

Lemma NoDup_map_filter {A B} (f : A -> B) (keep : A -> bool) (l : list A) :
  NoDup (map f l) -> NoDup (map f (filter keep l)).
Proof.
  induction l as [|x l IH]; cbn; [auto|].
  intros H. inversion H as [|? ? Hx Hl]; subst.
  destruct (keep x); cbn; [|auto].
  constructor; [|auto]. intros Hin. apply Hx.
  apply in_map_iff in Hin. destruct Hin as (y & Hy & Hin).
  apply filter_In in Hin. apply in_map_iff. exists y. tauto.
Qed.

(** The products that the handler finds for the ids of the body, when it
    finds as many as there are ids. *)
Lemma found_as_many (table : list Store.ProductRow) (productIds : list Z) :
  NoDup (map Store.p_productId table) ->
  List.length
    (filter (fun p => existsb (Z.eqb (Store.p_productId p)) productIds) table)
  = List.length productIds ->
  NoDup productIds
  /\ forall i,
       In i productIds ->
       exists p,
         In p (filter (fun p => existsb (Z.eqb (Store.p_productId p))
                                        productIds) table)
         /\ Store.p_productId p = i.
Proof.
  intros Hnd Hlen.
  set (found := filter _ table) in *.
  assert (Hfound : NoDup (map Store.p_productId found))
    by (apply NoDup_map_filter; exact Hnd).
  assert (Hincl : incl (map Store.p_productId found) productIds).
  { intros i Hi. apply in_map_iff in Hi. destruct Hi as (p & <- & Hp).
    apply filter_In in Hp. destruct Hp as [_ Hp].
    apply existsb_exists in Hp. destruct Hp as (j & Hj & Heq).
    apply Z.eqb_eq in Heq. congruence. }
  assert (Hle : (List.length productIds
                 <= List.length (map Store.p_productId found))%nat)
    by (rewrite length_map; lia).
  split.
  - eapply NoDup_incl_NoDup; [exact Hfound|exact Hle|exact Hincl].
  - intros i Hi.
    assert (Hin : In i (map Store.p_productId found))
      by (eapply NoDup_length_incl;
          [exact Hfound|exact Hle|exact Hincl|exact Hi]).
    apply in_map_iff in Hin. destruct Hin as (p & Hp & Hin). eauto.
Qed.

(** X12.  When POST /orders answers 201 and the product ids of the store
    are distinct, every line of the body names a product that exists and
    is not discontinued, and no product is on two lines: a body with the
    same product on two lines is never accepted. *)
Theorem accepted_order_lines
        (body : OrderRoutes.OrderBody) (now : Z) (w w' : Store.World)
        (r : Store.Response) :
  OrderRoutes.create_order body now w = (Store.Responded r, w') ->
  Store.statusCode r = 201 ->
  NoDup (map Store.p_productId (Store.products (Store.committed w))) ->
  NoDup (map OrderRoutes.d_productId (OrderRoutes.b_orderDetails body))
  /\ forall detail,
       In detail (OrderRoutes.b_orderDetails body) ->
       exists p,
         In p (Store.products (Store.committed w))
         /\ Store.p_productId p = OrderRoutes.d_productId detail
         /\ Store.p_discontinued p = false.
Proof.
  intros H H201 Hnd.
  assert (Hchecks :
    List.length
      (filter (fun p => existsb (Z.eqb (Store.p_productId p))
                          (map OrderRoutes.d_productId
                               (OrderRoutes.b_orderDetails body)))
              (Store.products (Store.committed w)))
    = List.length (map OrderRoutes.d_productId
                       (OrderRoutes.b_orderDetails body))
    /\ filter Store.p_discontinued
         (filter (fun p => existsb (Z.eqb (Store.p_productId p))
                             (map OrderRoutes.d_productId
                                  (OrderRoutes.b_orderDetails body)))
                 (Store.products (Store.committed w)))
       = []).
  { revert H.
    unfold OrderRoutes.create_order, Store.with_transaction,
      Store.bind, Store.query, Store.store_call, Store.ret, Store.return_,
      Store.commit, Store.rollback, OrderRoutes.Order_create.
    cbn [Store.faults Store.tx Store.committed Store.set_tx tl snd fst].
    repeat run_step; intros [= <- <-]; try discriminate H201.
    all: match goal with
         | Hn : negb (Nat.eqb _ _) = false,
           Hd : (0 <? List.length ?l)%nat = false |- _ =>
             apply negb_false_iff, Nat.eqb_eq in Hn;
             apply Nat.ltb_ge in Hd;
             split; [exact Hn|];
             destruct l; [reflexivity|cbn in Hd; lia]
         end. }
  destruct Hchecks as [Hlen Hdisc].
  destruct (found_as_many _ _ Hnd Hlen) as [Hids Hfound].
  split; [exact Hids|].
  intros detail Hdetail.
  destruct (Hfound (OrderRoutes.d_productId detail)) as (p & Hp & Hid);
    [apply in_map; exact Hdetail|].
  exists p. split; [apply filter_In in Hp; apply Hp|].
  split; [exact Hid|].
  destruct (Store.p_discontinued p) eqn:Hdp; [|reflexivity].
  assert (Hin : In p (filter Store.p_discontinued
                        (filter (fun p => existsb (Z.eqb (Store.p_productId p))
                                   (map OrderRoutes.d_productId
                                        (OrderRoutes.b_orderDetails body)))
                                (Store.products (Store.committed w)))))
    by (apply filter_In; auto).
  rewrite Hdisc in Hin. destruct Hin.
Qed.

(** One line of Chai for customer 1 in the example store. *)
Lemma accepted_order_lines_witness :
  NoDup (map OrderRoutes.d_productId
             (OrderRoutes.b_orderDetails (Fixtures.order_for 1)))
  /\ forall detail,
       In detail (OrderRoutes.b_orderDetails (Fixtures.order_for 1)) ->
       exists p,
         In p (Store.products Fixtures.shop)
         /\ Store.p_productId p = OrderRoutes.d_productId detail
         /\ Store.p_discontinued p = false.
Proof.
  apply (accepted_order_lines
           (Fixtures.order_for 1) Fixtures.now (Fixtures.calm Fixtures.shop)
           (Store.mkWorld Fixtures.shop_with_order12 Store.Committed [])
           (Store.mkResponse 201 true "Order created successfully" None
              (Store.OrderData (Some (Fixtures.order12, Store.Processing))))).
  - reflexivity.
  - reflexivity.
  - repeat constructor; cbn; intuition discriminate.
Defined.

(** ** Computed product fields *)

(** X13.  The flags of GET /products against the stock status next to
    them.  For a product that is not discontinued: isOutOfStock says the
    same as the status 'Out of Stock'; isLowStock implies the status
    'Low Stock', and the status is 'Low Stock' with isLowStock false
    exactly when unitsInStock is null or negative; the status
    'Reorder Required' implies needsReorder, and needsReorder with at
    least 10 units is the status 'Reorder Required'; the status is
    'In Stock' exactly when there are at least 10 units and needsReorder
    is false.  The flags never look at discontinued. *)
Theorem stock_flags_and_status (p : ProductLogic.ProductJson) :
  let units := unitsInStock (ProductLogic.stock_fields p) in
  (discontinued (ProductLogic.stock_fields p) = true ->
   ProductLogic.stockStatus p = Discontinued)
  /\ (discontinued (ProductLogic.stock_fields p) = false ->
      (ProductLogic.isOutOfStock p = true
       <-> ProductLogic.stockStatus p = OutOfStock)
      /\ (ProductLogic.isLowStock p = true ->
          ProductLogic.stockStatus p = LowStock)
      /\ (ProductLogic.stockStatus p = LowStock
          /\ ProductLogic.isLowStock p = false
          <-> units = None \/ exists n, units = Some n /\ n < 0)
      /\ (ProductLogic.stockStatus p = ReorderRequired ->
          ProductLogic.needsReorder p = true)
      /\ (ProductLogic.needsReorder p = true ->
          10 <= Js.toNumber units ->
          ProductLogic.stockStatus p = ReorderRequired)
      /\ (ProductLogic.stockStatus p = InStock
          <-> 10 <= Js.toNumber units
              /\ ProductLogic.needsReorder p = false))
  /\ ProductLogic.isLowStock p && ProductLogic.isOutOfStock p = false.
Proof.
  destruct p as [[disc units reorder] price onOrder cat sup].
  unfold ProductLogic.stockStatus, ProductLogic.isOutOfStock,
    ProductLogic.isLowStock, ProductLogic.needsReorder,
    Products.getProductStockStatus.
  cbn [ProductLogic.stock_fields discontinued unitsInStock reorderLevel].
  split; [intros ->; reflexivity|].
  split.
  - intros ->.
    destruct units as [n|]; cbn [Js.strict_eq_zero Js.toNumber].
    + destruct (Z.eqb_spec n 0) as [->|Hn0];
        [|destruct (Z.ltb_spec n 10) as [Hlt|Hge];
          destruct (Z.ltb_spec 0 n) as [Hpos|Hneg];
          try destruct (Z.leb_spec n (Js.or_default reorder 0))];
        cbn [andb Z.ltb Z.compare];
        repeat split; intros;
        repeat match goal with
               | H : _ /\ _ |- _ => destruct H
               | H : _ \/ _ |- _ => destruct H
               | H : exists _, _ |- _ => destruct H
               | H : Some _ = Some _ |- _ => injection H as H; subst
               end;
        try congruence; try lia;
        try (right; exists n; split; [reflexivity|lia]).
    + cbn. repeat split; intros;
        repeat match goal with
               | H : _ /\ _ |- _ => destruct H
               end;
        try congruence; try lia; auto.
  - destruct units as [n|]; cbn; [|reflexivity].
    destruct (Z.eqb_spec n 0) as [->|Hn0]; [reflexivity|].
    rewrite andb_false_r. reflexivity.
Qed.

(** A product on sale whose unitsInStock is null: the status is
    'Low Stock' and isLowStock is false. *)
Lemma stock_flags_and_status_witness :
  let p := Examples.null_stock_json in
  let units := unitsInStock (ProductLogic.stock_fields p) in
  discontinued (ProductLogic.stock_fields p) = false
  /\ (ProductLogic.stockStatus p = LowStock
      /\ ProductLogic.isLowStock p = false)
  /\ (ProductLogic.isOutOfStock p = true
      <-> ProductLogic.stockStatus p = OutOfStock)
  /\ (ProductLogic.isLowStock p = true ->
      ProductLogic.stockStatus p = LowStock)
  /\ (ProductLogic.stockStatus p = LowStock
      /\ ProductLogic.isLowStock p = false
      <-> units = None \/ exists n, units = Some n /\ n < 0)
  /\ (ProductLogic.stockStatus p = ReorderRequired ->
      ProductLogic.needsReorder p = true)
  /\ (ProductLogic.needsReorder p = true ->
      10 <= Js.toNumber units ->
      ProductLogic.stockStatus p = ReorderRequired)
  /\ (ProductLogic.stockStatus p = InStock
      <-> 10 <= Js.toNumber units
          /\ ProductLogic.needsReorder p = false).
Proof.
  cbv zeta.
  pose proof (proj1 (proj2 (stock_flags_and_status Examples.null_stock_json))
                    eq_refl) as H.
  split; [reflexivity|]. split; [|exact H].
  apply (proj2 (proj1 (proj2 (proj2 H)))). left. reflexivity.
Defined.

(** X14.  healthScore is 0 for a discontinued product and for no other:
    the score of a product that is not discontinued lies between 5 and
    100, so [Math.max(0, score)] never changes it, and it is a multiple
    of 5.  The score is 100 exactly when at least 10 units are in stock,
    the price is above 0 and the product has a category and a
    supplier. *)
Theorem healthScore_range (p : ProductLogic.ProductJson) :
  (discontinued (ProductLogic.stock_fields p) = true ->
   ProductLogic.getProductHealthScore p = 0)
  /\ (discontinued (ProductLogic.stock_fields p) = false ->
      5 <= ProductLogic.getProductHealthScore p <= 100
      /\ ProductLogic.getProductHealthScore p mod 5 = 0
      /\ (ProductLogic.getProductHealthScore p = 100
          <-> (exists n,
                  unitsInStock (ProductLogic.stock_fields p) = Some n
                  /\ 10 <= n)
              /\ (exists d, ProductLogic.unitPrice p = Some d /\ 0 < d)
              /\ (exists c, ProductLogic.categoryId p = Some c /\ c <> 0)
              /\ (exists s, ProductLogic.supplierId p = Some s /\ s <> 0))).
Proof.
  destruct p as [[disc units reorder] price onOrder cat sup].
  unfold ProductLogic.getProductHealthScore, ProductLogic.no_price,
    OrderRoutes.truthy_number.
  cbn [ProductLogic.stock_fields ProductLogic.unitPrice
       ProductLogic.categoryId ProductLogic.supplierId
       discontinued unitsInStock].
  split; [intros ->; reflexivity|]. intros ->.
  destruct units as [n|]; cbn [Js.strict_eq_zero Js.toNumber];
    [destruct (Z.eqb_spec n 0); [|destruct (Z.ltb_spec n 10)]|];
    (destruct price as [d|]; [destruct (Z.leb_spec d 0)|]);
    (destruct cat as [c|]; [destruct (Z.eqb_spec c 0)|]);
    (destruct sup as [s|]; [destruct (Z.eqb_spec s 0)|]);
    cbn;
    (split; [lia|]); (split; [reflexivity|]);
    (split; [intros Hscore; try discriminate Hscore|
             intros ((n' & Hn & Hn') & (d' & Hd & Hd') & (c' & Hc & Hc')
                     & (s' & Hs & Hs'));
             try discriminate; try congruence;
             repeat match goal with
                    | H : Some _ = Some _ |- _ => injection H as H; subst
                    end; try lia; try congruence]);
    repeat split; eexists; (split; [reflexivity|]); lia.
Qed.

(** The discontinued product again. *)
Lemma healthScore_range_witness :
  ProductLogic.getProductHealthScore Examples.old_stock_json = 0.
Proof.
  apply (proj1 (healthScore_range Examples.old_stock_json)).
  reflexivity.
Defined.

(** ** Statistics *)

Lemma stock_counts (l : list ProductLogic.ProductJson) :
  let units p := unitsInStock (ProductLogic.stock_fields p) in
  let odd :=
    Store.count (fun p => match units p with
                          | None => true
                          | Some n => n <? 0
                          end) l in
  Z.of_nat (List.length l)
  = Z.of_nat (List.length
                (filter (fun p => negb (discontinued
                                          (ProductLogic.stock_fields p))) l))
    + Store.count (fun p => discontinued (ProductLogic.stock_fields p)) l
  /\ Store.count (fun p => 0 <? Js.toNumber (units p)) l
     + Store.count (fun p => Js.strict_eq_zero (units p)) l
     + odd
     = Z.of_nat (List.length l)
  /\ Store.count (fun p => (Js.toNumber (units p) <? 10)
                           && (0 <? Js.toNumber (units p))) l
     <= Store.count (fun p => 0 <? Js.toNumber (units p)) l
  /\ Store.count (fun p => Js.toNumber (units p) <? 10) l
     = Store.count (fun p => (Js.toNumber (units p) <? 10)
                             && (0 <? Js.toNumber (units p))) l
       + Store.count (fun p => Js.strict_eq_zero (units p)) l
       + odd.
Proof.
  cbv zeta. unfold Store.count.
  induction l as [|[[disc units reorder] price onOrder cat sup] l IH];
    [cbn; lia|].
  cbn [filter ProductLogic.stock_fields discontinued unitsInStock].
  destruct disc; cbn [negb];
    (destruct units as [n|]; cbn [Js.toNumber Js.strict_eq_zero];
     [destruct (Z.ltb_spec 0 n); destruct (Z.eqb_spec n 0);
      destruct (Z.ltb_spec n 10); destruct (Z.ltb_spec n 0)|]);
    cbn [andb Z.ltb Z.compare List.length]; try lia.
Qed.

(** X15.  The counts of the two statistics helpers, for a list that is
    not empty: active and discontinued products add up to the total; a
    product is in stock, out of stock, or has a null or negative
    unitsInStock and is counted in neither; lowStockProducts of
    routes/products.js counts some of the products in stock, while
    lowStockProducts of routes/categories.js counts those, the products
    out of stock and those with null or negative stock as well.  For the
    empty list the statistics of routes/products.js have no
    activeProducts at all. *)
Theorem statistics_counts (p : ProductLogic.ProductJson)
        (rest : list ProductLogic.ProductJson) :
  let products := p :: rest in
  let s := ProductLogic.calculateProductStatistics products in
  let c := ProductLogic.calculateCategoryStatistics products in
  let odd :=
    Store.count (fun p => match unitsInStock (ProductLogic.stock_fields p)
                          with
                          | None => true
                          | Some n => n <? 0
                          end) products in
  ProductLogic.activeProducts s = Some (ProductLogic.c_activeProducts c)
  /\ ProductLogic.totalProducts s
     = ProductLogic.c_activeProducts c + ProductLogic.discontinuedProducts s
  /\ ProductLogic.discontinuedProducts s
     = Store.count (fun p => discontinued (ProductLogic.stock_fields p))
                   products
  /\ ProductLogic.inStockProducts s + ProductLogic.outOfStockProducts s + odd
     = ProductLogic.totalProducts s
  /\ ProductLogic.lowStockProducts s <= ProductLogic.inStockProducts s
  /\ ProductLogic.c_lowStockProducts c
     = ProductLogic.lowStockProducts s + ProductLogic.outOfStockProducts s
       + odd
  /\ ProductLogic.activeProducts (ProductLogic.calculateProductStatistics [])
     = None.
Proof.
  cbv zeta.
  destruct (stock_counts (p :: rest)) as (Hactive & Hstock & Hlow & Hcat).
  unfold ProductLogic.calculateProductStatistics,
    ProductLogic.calculateCategoryStatistics.
  cbn [ProductLogic.activeProducts ProductLogic.c_activeProducts
       ProductLogic.totalProducts ProductLogic.discontinuedProducts
       ProductLogic.inStockProducts ProductLogic.outOfStockProducts
       ProductLogic.lowStockProducts ProductLogic.c_lowStockProducts].
  repeat split; try assumption; try lia.
Qed.

(** ** Products of a category *)

(** X16.  GET /products/by-category: the priceRange parameter against the
    priceCategory put on each row.  Every row the price condition
    selects is labelled with the range asked for, and a row with a price
    is selected exactly when its label is that range; a row without
    price is labelled 'Budget' and selected by no range.  With inStock
    given as anything but 'true' (so also as '1'), the rows returned are
    the products out of stock. *)
Theorem priceRange_filter_and_label
        (categoryId : Z) (inStock : option Js.BoolParam)
        (r : ByCategory.PriceRange) (p : ProductLogic.ProductJson) :
  let w := ByCategory.build_where categoryId inStock (Some r) in
  (ByCategory.price_matches (ByCategory.w_unitPrice w)
                            (ProductLogic.unitPrice p) = true ->
   ProductLogic.priceCategory p = ByCategory.label r)
  /\ (forall d,
         ProductLogic.unitPrice p = Some d ->
         ProductLogic.priceCategory p = ByCategory.label r ->
         ByCategory.price_matches (ByCategory.w_unitPrice w)
                                  (ProductLogic.unitPrice p) = true)
  /\ (ProductLogic.unitPrice p = None ->
      ProductLogic.priceCategory p = ProductLogic.Budget
      /\ ByCategory.price_matches (ByCategory.w_unitPrice w)
                                  (ProductLogic.unitPrice p) = false)
  /\ (forall b,
         inStock = Some b ->
         Js.is_true_literal b = false ->
         ByCategory.matches w p = true ->
         ProductLogic.isOutOfStock p = true).
Proof.
  destruct p as [[disc units reorder] price onOrder cat sup].
  cbv zeta. unfold ProductLogic.priceCategory, ByCategory.matches.
  cbn [ProductLogic.unitPrice ProductLogic.stock_fields unitsInStock
       ProductLogic.categoryId].
  split; [|split; [|split]].
  - destruct price as [d|]; [|destruct r; discriminate].
    destruct r; cbn; intros H;
      repeat match type of H with
             | _ && _ = true => apply andb_prop in H; destruct H as [? H]
             end;
      repeat match goal with
             | H : (_ <=? _) = true |- _ => apply Z.leb_le in H
             | H : (_ <? _) = true |- _ => apply Z.ltb_lt in H
             end;
      repeat match goal with
             | |- context [?a <? ?b] => destruct (Z.ltb_spec a b)
             end; try reflexivity; lia.
  - intros d [= ->]. destruct r; cbn;
      repeat match goal with
             | |- context [?a <? ?b] => destruct (Z.ltb_spec a b)
             end;
      intros Hlabel; try discriminate Hlabel;
      repeat match goal with
             | |- context [?a <=? ?b] => destruct (Z.leb_spec a b)
             end; try reflexivity; lia.
  - intros ->. split; [reflexivity|]. destruct r; reflexivity.
  - intros b -> Hb. cbn. rewrite Hb. unfold ProductLogic.isOutOfStock.
    cbn [ProductLogic.stock_fields unitsInStock].
    destruct units as [n|]; cbn.
    + intros H. apply andb_prop in H. destruct H as [H _].
      apply andb_prop in H. apply H.
    + rewrite andb_false_r. discriminate.
Qed.

(** Budget products of category 1, against a product of that category
    priced 18.00. *)
Lemma priceRange_filter_and_label_witness :
  ProductLogic.priceCategory Examples.chai_json
  = ByCategory.label ByCategory.budget.
Proof.
  apply (proj1 (priceRange_filter_and_label 1 None ByCategory.budget
                  Examples.chai_json)).
  reflexivity.
Defined.

(** ** Customer tiers *)

Lemma tier_test_monotone (k c c' : Z) (t s s' : Q) :
  c <= c' -> (s <= s')%Q ->
  (k <=? c) && Qle_bool t s = true ->
  (k <=? c') && Qle_bool t s' = true.
Proof.
  intros Hc Hs H. apply andb_prop in H. destruct H as [Hk Ht].
  apply Z.leb_le in Hk. apply Qle_bool_iff in Ht.
  apply andb_true_intro. split; [apply Z.leb_le; lia|].
  apply Qle_bool_iff. apply (Qle_trans _ s); assumption.
Qed.

(** X17.  The customer tier never goes down when a customer has more
    orders and has spent more; and it is Bronze for every customer with
    fewer than 5 orders or less than 1000 spent, however large the other
    figure is. *)
Theorem customerTier_monotone (orderCount orderCount' : Z)
        (totalSpent totalSpent' : Q) :
  orderCount <= orderCount' ->
  (totalSpent <= totalSpent')%Q ->
  Customers.rank (Customers.getCustomerTier orderCount totalSpent)
  <= Customers.rank (Customers.getCustomerTier orderCount' totalSpent')
  /\ (orderCount < 5 \/ (totalSpent < 1000)%Q ->
      Customers.getCustomerTier orderCount totalSpent = Customers.Bronze).
Proof.
  intros Hc Hs. unfold Customers.getCustomerTier. split.
  - pose proof (tier_test_monotone 20 _ _ 10000 _ _ Hc Hs) as H1.
    pose proof (tier_test_monotone 10 _ _ 5000 _ _ Hc Hs) as H2.
    pose proof (tier_test_monotone 5 _ _ 1000 _ _ Hc Hs) as H3.
    destruct ((20 <=? orderCount) && Qle_bool 10000 totalSpent);
      [rewrite (H1 eq_refl); cbn; lia|].
    destruct ((10 <=? orderCount) && Qle_bool 5000 totalSpent);
      [rewrite (H2 eq_refl);
       destruct ((20 <=? orderCount') && Qle_bool 10000 totalSpent');
       cbn; lia|].
    destruct ((5 <=? orderCount) && Qle_bool 1000 totalSpent);
      [rewrite (H3 eq_refl);
       destruct ((20 <=? orderCount') && Qle_bool 10000 totalSpent');
       destruct ((10 <=? orderCount') && Qle_bool 5000 totalSpent');
       cbn; lia|].
    destruct (Customers.getCustomerTier orderCount' totalSpent') eqn:Ht;
      unfold Customers.getCustomerTier in Ht; rewrite Ht; cbn; lia.
  - intros Hlow.
    assert (H5 : (5 <=? orderCount) && Qle_bool 1000 totalSpent = false).
    { destruct Hlow as [Hlt|Hlt].
      - destruct (Z.leb_spec 5 orderCount); [lia|reflexivity].
      - destruct (Qle_bool 1000 totalSpent) eqn:Hq;
          [|apply andb_false_r].
        apply Qle_bool_iff in Hq. exfalso.
        apply (Qlt_irrefl 1000). apply (Qle_lt_trans _ totalSpent);
          assumption. }
    assert (H10 : (10 <=? orderCount) && Qle_bool 5000 totalSpent = false).
    { destruct ((10 <=? orderCount) && Qle_bool 5000 totalSpent) eqn:Hb;
        [|reflexivity].
      rewrite <- H5. symmetry.
      apply andb_prop in Hb. destruct Hb as [Hk Ht].
      apply Z.leb_le in Hk. apply Qle_bool_iff in Ht.
      apply andb_true_intro. split; [apply Z.leb_le; lia|].
      apply Qle_bool_iff. apply (Qle_trans _ 5000); [discriminate|exact Ht]. }
    assert (H20 : (20 <=? orderCount) && Qle_bool 10000 totalSpent = false).
    { destruct ((20 <=? orderCount) && Qle_bool 10000 totalSpent) eqn:Hb;
        [|reflexivity].
      rewrite <- H5. symmetry.
      apply andb_prop in Hb. destruct Hb as [Hk Ht].
      apply Z.leb_le in Hk. apply Qle_bool_iff in Ht.
      apply andb_true_intro. split; [apply Z.leb_le; lia|].
      apply Qle_bool_iff. apply (Qle_trans _ 10000); [discriminate|exact Ht]. }
    rewrite H20, H10, H5. reflexivity.
Qed.

(** 4 orders and 500.00 spent against 12 orders and 6000.00. *)
Lemma customerTier_monotone_witness :
  Customers.rank (Customers.getCustomerTier 4 500)
  <= Customers.rank (Customers.getCustomerTier 12 6000).
Proof.
  apply (customerTier_monotone 4 12 500 6000); [lia|discriminate].
Defined.

(** ** The error middleware *)

Lemma or_default_500 (v : Js.nullable) : Js.or_default v 500 <> 0.
Proof.
  unfold Js.or_default. destruct v as [n|]; [|discriminate].
  destruct (Z.eqb_spec n 0); [discriminate|assumption].
Qed.

Lemma message_or_default (m : option string) :
  (if ProductList.truthy_string m
   then match m with
        | Some m => m
        | None => "Internal Server Error"%string
        end
   else "Internal Server Error"%string) <> ""%string.
Proof.
  unfold ProductList.truthy_string. destruct m as [m|]; [|discriminate].
  destruct (String.eqb_spec m ""); cbn; [discriminate|assumption].
Qed.

(** X18.  The error middleware.  It throws itself, instead of answering,
    exactly for a validation error without an [errors] list and for a
    unique-constraint error whose [errors] list is missing or empty.
    When it answers, the status sent is the statusCode of the body and is
    never 0, the message is never empty, and the stack is sent in
    development only.  A unique-constraint error is answered with 400
    'Duplicate field value entered' and without the list of errors that
    the validation block built for it, unless it is a JSON syntax error
    as well. *)
Theorem errorHandler_answers (err : ErrorHandler.Err) (development : bool) :
  (ErrorHandler.errorHandler err development = None
   <-> (ErrorHandler.is_ValidationError err = true
        /\ ErrorHandler.errors err = None)
       \/ (ErrorHandler.name_is err "SequelizeUniqueConstraintError" = true
           /\ (ErrorHandler.errors err = None
               \/ ErrorHandler.errors err = Some [])))
  /\ (forall sent,
         ErrorHandler.errorHandler err development = Some sent ->
         ErrorHandler.http_status sent = ErrorHandler.statusCode sent
         /\ ErrorHandler.statusCode sent <> 0
         /\ ErrorHandler.message sent <> ""%string
         /\ (development = false -> ErrorHandler.sent_stack sent = None)
         /\ (ErrorHandler.name_is err "SequelizeUniqueConstraintError" = true ->
             ErrorHandler.is_SyntaxError err
             && match ErrorHandler.status err with
                | Some s => s =? 400
                | None => false
                end
             && ErrorHandler.has_body err = false ->
             ErrorHandler.statusCode sent = 400
             /\ ErrorHandler.message sent
                = "Duplicate field value entered"%string
             /\ ErrorHandler.sent_errors sent = None)).
Proof.
  destruct err as [isV isS name msg code errs flds fld st body stk].
  unfold ErrorHandler.errorHandler, ErrorHandler.name_is.
  cbn [ErrorHandler.is_ValidationError ErrorHandler.is_SyntaxError
       ErrorHandler.name ErrorHandler.err_message ErrorHandler.err_statusCode
       ErrorHandler.errors ErrorHandler.fields ErrorHandler.err_field
       ErrorHandler.status ErrorHandler.has_body ErrorHandler.stack].
  split.
  - destruct isV, errs as [[|first items]|];
      (destruct name as [n|];
       [destruct (String.eqb n "SequelizeUniqueConstraintError")|]);
      cbv beta iota zeta;
      split; intros H; try discriminate H;
      try (left; split; reflexivity);
      try (right; split; [reflexivity|auto]; fail).
    all: try reflexivity.
    all: destruct H as [[H1 H2]|[H1 [H2|H2]]];
      first [discriminate H1 | discriminate H2].
  - intros sent Hsent.
    assert (Hshape :
      exists error,
        sent = ErrorHandler.mkSent
                 (Js.or_default (ErrorHandler.l_statusCode error) 500)
                 (if ProductList.truthy_string (ErrorHandler.l_message error)
                  then match ErrorHandler.l_message error with
                       | Some m => m
                       | None => "Internal Server Error"%string
                       end
                  else "Internal Server Error"%string)
                 (Js.or_default (ErrorHandler.l_statusCode error) 500)
                 (ErrorHandler.l_errors error)
                 (if ProductList.truthy_string (ErrorHandler.l_field error)
                  then ErrorHandler.l_field error else None)
                 (if development then stk else None)).
    { revert Hsent.
      destruct isV, errs as [[|first items]|];
        (destruct name as [n|];
         [destruct (String.eqb n "SequelizeUniqueConstraintError")|]);
        cbv beta iota zeta; intros [= <-]; eexists; reflexivity. }
    destruct Hshape as [error ->].
    cbn [ErrorHandler.http_status ErrorHandler.statusCode
         ErrorHandler.message ErrorHandler.sent_stack
         ErrorHandler.sent_errors].
    split; [reflexivity|]. split; [apply or_default_500|].
    split; [apply message_or_default|].
    split; [intros ->; reflexivity|].
    intros Hname Hjson. revert Hsent.
    destruct name as [n|]; [|discriminate Hname].
    apply String.eqb_eq in Hname. subst n. cbn [String.eqb Ascii.eqb].
    rewrite Hjson.
    destruct (if isV then _ else _) as [e1|]; [|discriminate].
    destruct errs as [[|first items]|]; try discriminate.
    cbn. intros Heq. injection Heq as H1 H2 H3 H4. auto.
Qed.

(** A unique-constraint error without items makes the handler throw. *)
Lemma errorHandler_answers_witness :
  ErrorHandler.errorHandler Examples.no_items false = None.
Proof.
  apply (proj1 (errorHandler_answers Examples.no_items false)).
  right. split; [reflexivity|right; reflexivity].
Defined.

(** ** What the handlers do not check *)

Lemma shipped_row_is_stored (db : Store.DB) (id : Z) (shippedDate : Z)
      (shipperId : option Z) (o : Store.OrderRow) :
  OrderModel.findByPk id db = Some o ->
  In (ShipRoute.apply_ship shippedDate shipperId o)
     (Store.orders (snd (ShipRoute.Order_ship shippedDate shipperId id db))).
Proof.
  unfold OrderModel.findByPk. intros Hfind.
  apply find_some in Hfind. destruct Hfind as [Hin Hid].
  cbn. apply in_map_iff. exists o. rewrite Hid. auto.
Qed.

Lemma ship_order_stores (db : Store.DB) (id : Z) (body : ShipRoute.ShipBody)
      (now : Z) (o : Store.OrderRow) :
  OrderModel.findByPk id db = Some o ->
  Store.o_shippedDate o = None ->
  exists data,
    ShipRoute.ship_order id body now (Store.mkWorld db Store.Idle [])
    = (Store.Responded
         (Store.ok_response 200 "Order shipped successfully" data),
       Store.mkWorld
         (snd (ShipRoute.Order_ship (ShipRoute.shippedDate_of body now)
                                    (ShipRoute.s_shipperId body) id db))
         Store.Idle []).
Proof.
  intros Hfind Hopen.
  unfold ShipRoute.ship_order, Store.without_transaction, Store.bind,
    Store.query, Store.store_call, Store.return_, Store.ret.
  cbn [Store.faults Store.tx Store.committed tl].
  rewrite Hfind, Hopen. cbn [OrderModel.date_field Js.truthy].
  cbn [Store.faults Store.tx Store.committed tl].
  unfold ShipRoute.Order_ship. cbn [snd fst].
  cbn [Store.faults Store.tx Store.committed tl].
  eexists. reflexivity.
Qed.

(** X19.  PATCH /orders/:id/ship does not look the shipper up.  With a
    shipperId that no shipper has, an order that exists and is not
    shipped is answered 200 and stored with that shipperId, so that the
    references between the tables are no longer whole, whatever they were
    before.  (Nothing in the handler refuses it; a foreign-key constraint
    of the database would make the update throw.) *)
Theorem ship_order_unknown_shipper
        (db : Store.DB) (id : Z) (body : ShipRoute.ShipBody) (now : Z)
        (o : Store.OrderRow) (shipperId : Z) :
  OrderModel.findByPk id db = Some o ->
  Store.o_shippedDate o = None ->
  ShipRoute.s_shipperId body = Some shipperId ->
  shipperId <> 0 ->
  ~ In shipperId (Store.shippers db) ->
  exists data w',
    ShipRoute.ship_order id body now (Store.mkWorld db Store.Idle [])
    = (Store.Responded
         (Store.ok_response 200 "Order shipped successfully" data), w')
    /\ (exists o', In o' (Store.orders (Store.committed w'))
                   /\ Store.o_orderId o' = Store.o_orderId o
                   /\ Store.o_shipperId o' = shipperId)
    /\ ~ Integrity.referential_integrity (Store.committed w').
Proof.
  intros Hfind Hopen Hbody Hnz Hunknown.
  destruct (ship_order_stores db id body now o Hfind Hopen) as [data Hrun].
  exists data. eexists. split; [exact Hrun|].
  cbn [Store.committed].
  pose proof (shipped_row_is_stored db id (ShipRoute.shippedDate_of body now)
                (ShipRoute.s_shipperId body) o Hfind) as Hin.
  assert (Hship : Store.o_shipperId
                    (ShipRoute.apply_ship (ShipRoute.shippedDate_of body now)
                                          (ShipRoute.s_shipperId body) o)
                  = shipperId).
  { rewrite Hbody. cbn. destruct (Z.eqb_spec shipperId 0); [contradiction|].
    reflexivity. }
  split.
  - eexists. split; [exact Hin|]. split; [reflexivity|exact Hship].
  - intros (_ & _ & Horders & _).
    destruct (Horders _ Hin) as (_ & Hshipper & _).
    rewrite Hship in Hshipper. cbn in Hshipper. contradiction.
Qed.

(** Order 11 of the example store, shipped with shipper 99. *)
Lemma ship_order_unknown_shipper_witness :
  exists data w',
    ShipRoute.ship_order 11 (ShipRoute.mkShipBody None (Some 99))
                         Fixtures.now (Store.mkWorld Fixtures.shop
                                                     Store.Idle [])
    = (Store.Responded
         (Store.ok_response 200 "Order shipped successfully" data), w')
    /\ (exists o', In o' (Store.orders (Store.committed w'))
                   /\ Store.o_orderId o' = Store.o_orderId Fixtures.order11
                   /\ Store.o_shipperId o' = 99)
    /\ ~ Integrity.referential_integrity (Store.committed w').
Proof.
  apply (ship_order_unknown_shipper Fixtures.shop 11
           (ShipRoute.mkShipBody None (Some 99)) Fixtures.now
           Fixtures.order11 99).
  - reflexivity.
  - reflexivity.
  - reflexivity.
  - discriminate.
  - cbn. intros [H|[]]. discriminate H.
Defined.

Lemma find_finds {A} (f : A -> bool) (l : list A) (x : A) :
  In x l -> f x = true -> exists y, find f l = Some y.
Proof.
  intros Hin Hf. destruct (find f l) as [y|] eqn:Hfind; [eauto|].
  rewrite (find_none _ _ Hfind x Hin) in Hf. discriminate.
Qed.

Lemma count_positive {A} (f : A -> bool) (l : list A) (x : A) :
  In x l -> f x = true -> 0 < Store.count f l.
Proof.
  intros Hin Hf. unfold Store.count.
  assert (H : In x (filter f l)) by (apply filter_In; auto).
  destruct (filter f l); [destruct H|cbn; lia].
Qed.

Lemma update_keeps_ids (body : EmployeeRoutes.EmployeeUpdate) (id : Z)
      (db : Store.DB) :
  EmployeeRoutes.eu_employeeId body = None ->
  map Store.e_employeeId
      (map (fun e => if Store.e_employeeId e =? id
                     then EmployeeRoutes.apply_update body e else e)
           (Store.employees db))
  = map Store.e_employeeId (Store.employees db).
Proof.
  intros Hkey. rewrite map_map. apply map_ext. intros e.
  unfold EmployeeRoutes.apply_update. rewrite Hkey.
  destruct (Store.e_employeeId e =? id); reflexivity.
Qed.

(** PUT /employees/:id with a body that holds [mgrId] only, when no
    store call fails, the employee exists, the check of the handler
    lets the manager through and the manager exists. *)
Lemma update_employee_accepts
      (db : Store.DB) (id : string) (mgrId : EmployeeRoutes.IntField)
      (a m : Store.EmployeeRow) :
  In a (Store.employees db) ->
  Store.e_employeeId a = EmployeeRoutes.int_of_text id ->
  In m (Store.employees db) ->
  Store.e_employeeId m = EmployeeRoutes.int_value mgrId ->
  EmployeeRoutes.truthy_field (Some mgrId) = true ->
  EmployeeRoutes.loose_eq (Some mgrId) id = false ->
  let body := EmployeeRoutes.mkEmployeeUpdate None (Some mgrId) false in
  EmployeeRoutes.update_employee id body (Store.mkWorld db Store.Idle [])
  = (Store.Responded
       (Store.ok_response 200 "Employee updated successfully" Store.NoData),
     Store.mkWorld
       (Store.set_employees
          (map (fun e => if Store.e_employeeId e
                            =? EmployeeRoutes.int_of_text id
                         then EmployeeRoutes.apply_update body e else e)
               (Store.employees db)) db)
       Store.Idle []).
Proof.
  intros Ha Hida Hm Hidm Htruthy Hloose. cbv zeta.
  unfold EmployeeRoutes.update_employee, Store.without_transaction,
    Store.bind, Store.query, Store.store_call, EmployeeRoutes.store_try,
    Store.ret, Store.return_, EmployeeRoutes.Employee_findByPk,
    EmployeeRoutes.Employee_update.
  cbn [Store.faults Store.tx Store.committed Store.set_tx tl snd fst
       EmployeeRoutes.eu_mgrId EmployeeRoutes.eu_employeeId
       EmployeeRoutes.eu_other_columns EmployeeRoutes.no_column].
  destruct (find_finds (fun e => Store.e_employeeId e
                                 =? EmployeeRoutes.int_of_text id)
                       _ a Ha) as [x ->];
    [apply Z.eqb_eq; exact Hida|].
  cbn [Store.faults Store.tx Store.committed Store.set_tx tl snd fst].
  rewrite Htruthy, Hloose.
  cbn [Store.faults Store.tx Store.committed Store.set_tx tl snd fst].
  destruct (find_finds (fun e => Store.e_employeeId e
                                 =? EmployeeRoutes.int_value mgrId)
                       _ m Hm) as [y ->];
    [apply Z.eqb_eq; exact Hidm|].
  cbn [Store.faults Store.tx Store.committed Store.set_tx tl snd fst].
  pose proof (count_positive
                (fun e => Store.e_employeeId e
                          =? EmployeeRoutes.int_of_text id)
                _ a Ha) as Hcount.
  destruct (Z.eqb_spec
              (Store.count (fun e => Store.e_employeeId e
                                     =? EmployeeRoutes.int_of_text id)
                           (Store.employees db)) 0) as [Hzero|_];
    [rewrite Hzero in Hcount; specialize (Hcount (proj2 (Z.eqb_eq _ _) Hida));
     lia|].
  cbn [Store.faults Store.tx Store.committed Store.set_tx tl snd fst].
  reflexivity.
Qed.





(** ** Login, registration and passwords *)

Section AuthProperties.
Import Auth.

Variable name_eqb : string -> string -> bool.
Variable bcrypt_hash : string -> string -> string.
Variable bcrypt_compare : string -> string -> bool.
Variable jwt_sign :
  SafeUser -> option string -> string -> Z -> option string.
Variable validate_UserName : string -> list string.
Variable validate_Password : string -> list string.
Variable JWT_SECRET : option string.
Variable JWT_EXPIRES_IN : option string.

Local Abbreviation login :=
  (Auth.login name_eqb bcrypt_compare jwt_sign JWT_SECRET JWT_EXPIRES_IN).
Local Abbreviation register :=
  (Auth.register name_eqb bcrypt_hash jwt_sign validate_UserName
                 validate_Password JWT_SECRET JWT_EXPIRES_IN).
Local Abbreviation changePassword :=
  (Auth.changePassword bcrypt_hash bcrypt_compare validate_Password).

(** One step through a controller run in the goal. *)
Ltac auth_step :=
  match goal with
  | |- context [match Auth.faults ?w with _ => _ end] =>
      destruct (Auth.faults w) as [|[?|] ?]
  | |- context [match ?l with _ => _ end] =>
      is_var l;
      match type of l with
      | list (option Error) => destruct l as [|[?|] ?]
      end
  | |- context [match find ?f ?l with _ => _ end] =>
      destruct (find f l) eqn:?
  | |- context [match ?e with SequelizeUniqueConstraintError => _
                             | _ => _ end] =>
      is_var e; destruct e
  | |- context [match jwt_sign ?u ?s ?e ?t with _ => _ end] =>
      destruct (jwt_sign u s e t) eqn:?
  | |- context [match ?a ++ ?b with _ => _ end] =>
      destruct (a ++ b) eqn:?
  | |- context [match validate_Password ?p with _ => _ end] =>
      destruct (validate_Password p) eqn:?
  | |- context [if ?b then _ else _] =>
      destruct b eqn:?
  end;
  cbn [Auth.faults Auth.users tl snd fst].

(** X21.  POST /login never changes the table of users.  It answers 200
    only for a user of the table whose name the store matches with the
    name given and whose stored password [bcrypt.compare] accepts, and
    the user sent is that row without its password.  When a name and a
    password are given and the store call does not fail, a name that is
    not in the table and a password that [bcrypt.compare] refuses get the
    same answer, 401 'Invalid credentials'. *)
Theorem login_checks_the_password
        (body : Credentials) (now : Z) (w : World) :
  users (snd (login body now w)) = users w
  /\ (status (fst (login body now w)) = 200 ->
      exists u token,
        In u (users w)
        /\ name_eqb (UserName u) (text (c_UserName body)) = true
        /\ bcrypt_compare (text (c_Password body)) (Password u) = true
        /\ fst (login body now w)
           = mkAnswer 200 true None (Some "Login successful"%string) None
                      (Some token) (Some (toSafeObject u)))
  /\ (ProductList.truthy_string (c_UserName body) = true ->
      ProductList.truthy_string (c_Password body) = true ->
      match faults w with Some _ :: _ => False | _ => True end ->
      (Auth.findByUserName name_eqb (text (c_UserName body)) (users w)
       = None ->
       fst (login body now w) = failure 401 "Invalid credentials")
      /\ (forall u,
             Auth.findByUserName name_eqb (text (c_UserName body)) (users w)
             = Some u ->
             bcrypt_compare (text (c_Password body)) (Password u) = false ->
             fst (login body now w) = failure 401 "Invalid credentials")).
Proof.
  unfold Auth.login, Auth.try_catch, Auth.bind, Auth.query, Auth.store_call,
    Auth.sign, Auth.return_, Auth.ret, Auth.throw, Auth.findByUserName,
    Auth.validatePassword.
  cbn [Auth.faults Auth.users tl snd fst].
  split; [|split].
  - repeat auth_step; reflexivity.
  - repeat auth_step; cbn [status failure]; intros Hs; try discriminate Hs.
    all: match goal with
         | Hfind : find _ _ = Some ?u |- _ =>
             apply find_some in Hfind; destruct Hfind as [Hin Hname];
             exists u; eexists;
             split; [exact Hin|]; split; [exact Hname|];
             split; [|reflexivity]
         end.
    all: match goal with
         | Hc : negb (bcrypt_compare _ _) = false |- _ =>
             apply negb_false_iff in Hc; exact Hc
         end.
  - intros HU HP Hcall. rewrite HU, HP. cbn [negb orb].
    destruct (faults w) as [|[e|] rest]; [|destruct Hcall|];
      cbn [Auth.faults Auth.users tl snd fst];
      (split; [intros ->; reflexivity
              |intros u -> Hrefused; rewrite Hrefused; reflexivity]).
Qed.

Lemma find_app_last {A} (f : A -> bool) (l : list A) (x : A) :
  find f l = None -> f x = true -> find f (l ++ [x]) = Some x.
Proof.
  induction l as [|y l IH]; cbn; [intros _ ->; reflexivity|].
  destruct (f y); [discriminate|]. exact IH.
Qed.

Lemma truthy_text (v : option string) :
  ProductList.truthy_string v = true ->
  ProductList.truthy_string (Some (text v)) = true.
Proof. destruct v; [auto|discriminate]. Qed.

Lemma both_given (a b : option string) :
  negb (ProductList.truthy_string a) || negb (ProductList.truthy_string b)
  = false ->
  ProductList.truthy_string a = true /\ ProductList.truthy_string b = true.
Proof.
  destruct (ProductList.truthy_string a), (ProductList.truthy_string b);
    cbn; intros H; try discriminate H; auto.
Qed.

(** X22.  Register, then log in.  When POST /register answers 201, one
    row was added to the table: it has the name of the body, the hash of
    the password and not the password itself, and admin 0 or 1; the name
    was not in the table before.  If [bcrypt.compare] accepts a password
    against its own hash and the store matches a name with itself,
    POST /login with the same name and password, at any later instant at
    which [jwt.sign] gives a token, answers 200 with the same user and
    that token. *)
Theorem register_then_login
        (body : Registration) (salt : string) (now : Z) (w : World) :
  (forall p s, bcrypt_compare p (bcrypt_hash p s) = true) ->
  (forall n, name_eqb n n = true) ->
  status (fst (register body salt now w)) = 201 ->
  let answer := fst (register body salt now w) in
  let w' := snd (register body salt now w) in
  exists u,
    users w' = users w ++ [u]
    /\ UserName u = text (r_UserName body)
    /\ Password u = bcrypt_hash (text (r_Password body)) salt
    /\ admin u = (if r_admin body then 1 else 0)
    /\ user answer = Some (toSafeObject u)
    /\ Auth.findByUserName name_eqb (text (r_UserName body)) (users w)
       = None
    /\ forall later token,
         jwt_sign (toSafeObject u) JWT_SECRET (Auth.expiresIn JWT_EXPIRES_IN)
                  later
         = Some token ->
         login (mkCredentials (r_UserName body) (r_Password body)) later
               (mkWorld (users w') [])
         = (mkAnswer 200 true None (Some "Login successful"%string) None
                     (Some token) (Some (toSafeObject u)),
            mkWorld (users w') []).
Proof.
  intros Hcompare Hname. cbv zeta.
  unfold Auth.register, Auth.User_create, Auth.try_catch, Auth.bind,
    Auth.query, Auth.store_call, Auth.sign, Auth.return_, Auth.ret,
    Auth.throw, Auth.findByUserName.
  cbn [Auth.faults Auth.users tl snd fst].
  destruct (negb (ProductList.truthy_string (r_UserName body))
            || negb (ProductList.truthy_string (r_Password body)))
    eqn:Hgiven; [discriminate|].
  destruct (both_given _ _ Hgiven) as [HU HP].
  rewrite (truthy_text _ HP).
  repeat auth_step; cbn [status failure]; intros Hs; try discriminate Hs.
  all: eexists; cbn [Auth.users Auth.user Auth.token];
    (split; [reflexivity|]); (split; [reflexivity|]);
    (split; [reflexivity|]); (split; [reflexivity|]);
    (split; [reflexivity|]); (split; [reflexivity|]).
  all: intros later token Hsign;
    unfold Auth.login, Auth.try_catch, Auth.bind, Auth.query,
    Auth.store_call, Auth.sign, Auth.return_, Auth.ret, Auth.throw,
    Auth.findByUserName, Auth.validatePassword;
    cbn [c_UserName c_Password];
    rewrite Hgiven;
    cbn [Auth.faults Auth.users tl snd fst];
    (erewrite find_app_last; [|eassumption|apply Hname]);
    cbn [Auth.Password]; rewrite Hcompare; cbn [negb];
    rewrite Hsign; reflexivity.
Qed.

(** X23.  POST /register stores the user before it signs the token.
    When [jwt.sign] throws for the new user (as it does without
    JWT_SECRET), the answer is 500 'Registration failed' and the user is
    in the table nevertheless; registering the same name again is then
    answered 409, if the store matches a name with itself. *)
Theorem register_without_token
        (body : Registration) (salt : string) (now : Z)
        (table : list UserRow) :
  let row :=
    mkUserRow (Auth.next_PKID table) (text (r_UserName body))
              (bcrypt_hash (text (r_Password body)) salt)
              (if r_admin body then 1 else 0) in
  ProductList.truthy_string (r_UserName body) = true ->
  ProductList.truthy_string (r_Password body) = true ->
  Auth.findByUserName name_eqb (text (r_UserName body)) table = None ->
  validate_UserName (text (r_UserName body))
  ++ validate_Password (text (r_Password body)) = [] ->
  jwt_sign (toSafeObject row) JWT_SECRET (Auth.expiresIn JWT_EXPIRES_IN)
           now
  = None ->
  register body salt now (mkWorld table [])
  = (failure 500 "Registration failed", mkWorld (table ++ [row]) [])
  /\ ((forall n, name_eqb n n = true) ->
      forall salt' later,
        register body salt' later (mkWorld (table ++ [row]) [])
        = (failure 409 "User already exists",
           mkWorld (table ++ [row]) [])).
Proof.
  cbv zeta. intros HU HP Hnew Hvalid Hsign.
  unfold Auth.register, Auth.User_create, Auth.try_catch, Auth.bind,
    Auth.query, Auth.store_call, Auth.sign, Auth.return_, Auth.ret,
    Auth.throw.
  cbn [Auth.faults Auth.users tl snd fst].
  rewrite HU, HP. cbn [negb orb Auth.faults Auth.users tl snd fst].
  rewrite Hnew. cbn [Auth.faults Auth.users tl snd fst].
  rewrite Hvalid, (truthy_text _ HP).
  cbn [Auth.faults Auth.users tl snd fst].
  split.
  - destruct (r_admin body); rewrite Hsign; reflexivity.
  - intros Hname salt' later. unfold Auth.findByUserName in *.
    erewrite find_app_last; [reflexivity|exact Hnew|apply Hname].
Qed.

(** X24.  PUT /change-password changes the table only when it answers
    200, and it answers 200 only for a user that exists and whose stored
    password [bcrypt.compare] accepts for the current password given.
    The table is then as before, when the new password is the very
    string that is stored, or differs in the stored password of the rows
    with that PKID, which is the hash of the new password. *)
Theorem changePassword_needs_the_password
        (pkid : Z) (body : PasswordChange) (salt : string) (w : World) :
  let answer := fst (changePassword pkid body salt w) in
  let w' := snd (changePassword pkid body salt w) in
  (status answer <> 200 -> users w' = users w)
  /\ (status answer = 200 ->
      exists u,
        Auth.findByPk pkid (users w) = Some u
        /\ bcrypt_compare (text (currentPassword body)) (Password u) = true
        /\ (users w' = users w
            \/ users w'
               = map (fun r =>
                        if PKID r =? PKID u
                        then mkUserRow (PKID r) (UserName r)
                               (bcrypt_hash (text (newPassword body)) salt)
                               (admin r)
                        else r)
                     (users w))).
Proof.
  cbv zeta.
  unfold Auth.changePassword, Auth.User_update_Password, Auth.try_catch,
    Auth.bind, Auth.query, Auth.store_call, Auth.return_, Auth.ret,
    Auth.throw, Auth.findByPk, Auth.validatePassword.
  cbn [Auth.faults Auth.users tl snd fst].
  repeat auth_step; cbn [status failure];
    (split; [intros Hs; try reflexivity; try congruence
            |intros Hs; try discriminate Hs]).
  all: eexists; (split; [reflexivity|]);
    (split; [match goal with
             | Hc : negb (bcrypt_compare _ _) = false |- _ =>
                 apply negb_false_iff in Hc; exact Hc
             end|]);
    first [left; reflexivity | right; reflexivity].
Qed.

(** X25.  A password that the model's validators refuse is answered
    differently by the two controllers that store one: POST /register
    answers 400 'Validation failed' with the messages of the validators,
    PUT /change-password answers 500 'Failed to change password'.
    Neither changes the table. *)
Theorem refused_password_answers
        (table : list UserRow) (salt : string) (now : Z)
        (registration : Registration) (pkid : Z) (change : PasswordChange)
        (u : UserRow) :
  ProductList.truthy_string (r_UserName registration) = true ->
  ProductList.truthy_string (r_Password registration) = true ->
  Auth.findByUserName name_eqb (text (r_UserName registration)) table
  = None ->
  validate_UserName (text (r_UserName registration))
  ++ validate_Password (text (r_Password registration)) <> [] ->
  ProductList.truthy_string (currentPassword change) = true ->
  ProductList.truthy_string (newPassword change) = true ->
  Auth.findByPk pkid table = Some u ->
  bcrypt_compare (text (currentPassword change)) (Password u) = true ->
  text (newPassword change) <> Password u ->
  validate_Password (text (newPassword change)) <> [] ->
  register registration salt now (mkWorld table [])
  = (mkAnswer 400 false (Some "Validation failed"%string) None
              (Some (validate_UserName (text (r_UserName registration))
                     ++ validate_Password
                          (text (r_Password registration))))
              None None,
     mkWorld table [])
  /\ changePassword pkid change salt (mkWorld table [])
     = (failure 500 "Failed to change password", mkWorld table []).
Proof.
  intros HU HP Hnew Hrefused Hcur Hnewp Hfind Hcompare Hdiff Hrefused'.
  split.
  - unfold Auth.register, Auth.User_create, Auth.try_catch, Auth.bind,
      Auth.query, Auth.store_call, Auth.sign, Auth.return_, Auth.ret,
      Auth.throw.
    cbn [Auth.faults Auth.users tl snd fst].
    rewrite HU, HP. cbn [negb orb Auth.faults Auth.users tl snd fst].
    rewrite Hnew. cbn [Auth.faults Auth.users tl snd fst].
    destruct (validate_UserName (text (r_UserName registration))
              ++ validate_Password (text (r_Password registration)));
      [contradiction|reflexivity].
  - unfold Auth.changePassword, Auth.User_update_Password, Auth.try_catch,
      Auth.bind, Auth.query, Auth.store_call, Auth.return_, Auth.ret,
      Auth.throw, Auth.validatePassword.
    cbn [Auth.faults Auth.users tl snd fst].
    rewrite Hcur, Hnewp. cbn [negb orb Auth.faults Auth.users tl snd fst].
    rewrite Hfind. cbn [Auth.faults Auth.users tl snd fst].
    rewrite Hcompare. cbn [negb Auth.faults Auth.users tl snd fst].
    destruct (String.eqb_spec (text (newPassword change)) (Password u));
      [contradiction|].
    destruct (validate_Password (text (newPassword change)));
      [contradiction|reflexivity].
Qed.

End AuthProperties.

(** Ann registers in an empty table and logs in a minute later. *)
Lemma register_then_login_witness :
  exists u,
    Auth.users
      (snd (Auth.register String.eqb Examples.mark_hash Examples.name_token
              Examples.any_name Examples.six_characters
              (Some "key"%string) None Examples.ann "salt" 1718443800000
              (Auth.mkWorld [] [])))
    = [] ++ [u]
    /\ Auth.UserName u = "ann@example.com"%string
    /\ Auth.Password u = "$secret1"%string
    /\ Auth.login String.eqb Examples.mark_compare Examples.name_token
         (Some "key"%string) None
         (Auth.mkCredentials (Some "ann@example.com"%string)
                             (Some "secret1"%string))
         1718443860000 (Auth.mkWorld ([] ++ [u]) [])
       = (Auth.mkAnswer 200 true None (Some "Login successful"%string) None
            (Some "token-for-ann@example.com-at-1718443860000"%string)
            (Some (Auth.toSafeObject u)),
          Auth.mkWorld ([] ++ [u]) []).
Proof.
  destruct (register_then_login String.eqb Examples.mark_hash
              Examples.mark_compare Examples.name_token Examples.any_name
              Examples.six_characters (Some "key"%string) None
              Examples.ann "salt" 1718443800000 (Auth.mkWorld [] []))
    as (u & Husers & Hname & Hpassword & _ & _ & _ & Hlogin).
  - intros p s. apply String.eqb_refl.
  - apply String.eqb_refl.
  - reflexivity.
  - exists u. split; [exact Husers|]. split; [exact Hname|].
    split; [exact Hpassword|].
    cbv zeta in Husers. rewrite Husers in Hlogin.
    apply (Hlogin 1718443860000). unfold Examples.name_token.
    cbn [ProductList.truthy_string Auth.expiresIn negb String.eqb].
    destruct u as [pk un pw ad]. cbn in Hname. subst un. reflexivity.
Defined.

(** Ann registers while JWT_SECRET is not set. *)
Lemma register_without_token_witness :
  Auth.register String.eqb Examples.mark_hash Examples.name_token
    Examples.any_name Examples.six_characters None None Examples.ann "salt"
    1718443800000 (Auth.mkWorld [] [])
  = (Auth.failure 500 "Registration failed",
     Auth.mkWorld [Examples.ann_row] []).
Proof.
  apply (register_without_token String.eqb Examples.mark_hash
           Examples.name_token Examples.any_name Examples.six_characters
           None None Examples.ann "salt" 1718443800000 []); reflexivity.
Defined.

(** Ann logs in with a wrong password, and Bob, who is not in the
    table, logs in: the answers are the same. *)
Lemma login_checks_the_password_witness :
  fst (Auth.login String.eqb Examples.mark_compare Examples.name_token
         (Some "key"%string) None
         (Auth.mkCredentials (Some "ann@example.com"%string)
                             (Some "guess"%string))
         1718443800000 (Auth.mkWorld [Examples.ann_row] []))
  = Auth.failure 401 "Invalid credentials"
  /\ fst (Auth.login String.eqb Examples.mark_compare Examples.name_token
            (Some "key"%string) None
            (Auth.mkCredentials (Some "bob@example.com"%string)
                                (Some "guess"%string))
            1718443800000 (Auth.mkWorld [Examples.ann_row] []))
     = Auth.failure 401 "Invalid credentials".
Proof.
  split.
  - apply (proj2 (proj2 (proj2 (login_checks_the_password
             String.eqb Examples.mark_compare Examples.name_token
             (Some "key"%string) None
             (Auth.mkCredentials (Some "ann@example.com"%string)
                                 (Some "guess"%string))
             1718443800000 (Auth.mkWorld [Examples.ann_row] [])))
           eq_refl eq_refl I) Examples.ann_row); reflexivity.
  - apply (proj1 (proj2 (proj2 (login_checks_the_password
             String.eqb Examples.mark_compare Examples.name_token
             (Some "key"%string) None
             (Auth.mkCredentials (Some "bob@example.com"%string)
                                 (Some "guess"%string))
             1718443800000 (Auth.mkWorld [Examples.ann_row] [])))
           eq_refl eq_refl I)); reflexivity.
Defined.

(** Ann changes her password with a wrong current password. *)
Lemma changePassword_needs_the_password_witness :
  Auth.users
    (snd (Auth.changePassword Examples.mark_hash Examples.mark_compare
            Examples.six_characters 1
            (Auth.mkPasswordChange (Some "guess"%string)
                                   (Some "secret2"%string))
            "salt" (Auth.mkWorld [Examples.ann_row] [])))
  = [Examples.ann_row].
Proof.
  apply (changePassword_needs_the_password Examples.mark_hash
           Examples.mark_compare Examples.six_characters 1
           (Auth.mkPasswordChange (Some "guess"%string)
                                  (Some "secret2"%string))
           "salt" (Auth.mkWorld [Examples.ann_row] [])).
  discriminate.
Defined.

(** Bob registers with the password 'abc', and Ann changes hers to
    'abc'. *)
Lemma refused_password_answers_witness :
  Auth.changePassword Examples.mark_hash Examples.mark_compare
    Examples.six_characters 1
    (Auth.mkPasswordChange (Some "secret1"%string) (Some "abc"%string))
    "salt" (Auth.mkWorld [Examples.ann_row] [])
  = (Auth.failure 500 "Failed to change password",
     Auth.mkWorld [Examples.ann_row] []).
Proof.
  apply (refused_password_answers String.eqb Examples.mark_hash
           Examples.mark_compare Examples.name_token Examples.any_name
           Examples.six_characters (Some "key"%string) None
           [Examples.ann_row] "salt" 1718443800000
           (Auth.mkRegistration (Some "bob@example.com"%string)
                                (Some "abc"%string) false)
           1
           (Auth.mkPasswordChange (Some "secret1"%string)
                                  (Some "abc"%string))
           Examples.ann_row);
    first [reflexivity | discriminate].
Defined.
